(** * The conversational turn processor of vibesdk, embedded in Rocq

    Source: the module of [UserConversationProcessor] (part_000:1-254):
    [buildEditAppTool], [UserConversationProcessor.execute] with its local
    [attachLifecycle], [processProjectUpdates], [isProjectUpdateType].

    The TypeScript code is effectful: it logs, it calls the caller's
    notification callback, it assigns closure variables from inside tool
    callbacks, and it throws and catches.  The embedding threads an explicit
    state through a small state-and-exception monad, in which a thrown error
    keeps the state reached so far (as a JavaScript [throw] does). *)

From Stdlib Require Import String Ascii List Bool Arith Lia.
Import ListNotations.
Open Scope string_scope.

Set Implicit Arguments.

(** ** Errors and completions *)

(** [shared/types/errors] declares the two classes the processor tests with
    [instanceof]; every other thrown value is an [OtherError]. *)
Inductive JsError : Type :=
| RateLimitExceededError (message : string)
| SecurityError (message : string)
| OtherError (name message : string).

Definition instanceofRateLimitExceededError (e : JsError) : bool :=
  match e with RateLimitExceededError _ => true | _ => false end.

Definition instanceofSecurityError (e : JsError) : bool :=
  match e with SecurityError _ => true | _ => false end.

(** How a JavaScript evaluation ends: normally with a value, or abruptly with
    a thrown error. *)
Inductive Completion (A : Type) : Type :=
| Normal (a : A)
| Thrown (e : JsError).
Arguments Normal {A} a.
Arguments Thrown {A} e.

(** ** The effect monad *)

Definition Eff (St A : Type) : Type := St -> Completion A * St.

Definition ret {St A} (a : A) : Eff St A := fun s => (Normal a, s).

Definition throw {St A} (e : JsError) : Eff St A := fun s => (Thrown e, s).

Definition bind {St A B} (m : Eff St A) (k : A -> Eff St B) : Eff St B :=
  fun s =>
    match m s with
    | (Normal a, s') => k a s'
    | (Thrown e, s') => (Thrown e, s')
    end.

(** [try { body } catch (error) { handler }] *)
Definition tryCatch {St A} (body : Eff St A) (handler : JsError -> Eff St A)
  : Eff St A :=
  fun s =>
    match body s with
    | (Normal a, s') => (Normal a, s')
    | (Thrown e, s') => handler e s'
    end.

(** A pure step that may throw. *)
Definition liftCompletion {St A} (c : Completion A) : Eff St A :=
  fun s => (c, s).

(** A state update that cannot throw. *)
Definition modify {St} (f : St -> St) : Eff St unit := fun s => (Normal tt, f s).

Definition gets {St A} (f : St -> A) : Eff St A := fun s => (Normal (f s), s).

Declare Scope eff_scope.
Delimit Scope eff_scope with eff.
Notation "x <- m ;; k" := (bind m (fun x => k))
  (at level 100, m at next level, right associativity) : eff_scope.
Notation "m ;; k" := (bind m (fun _ => k))
  (at level 100, right associativity) : eff_scope.
Open Scope eff_scope.

(** ** Transcript entries *)

Inductive Role : Type := user | assistant | tool | system.

(** [Message] of [inferutils/common]. *)
Record Message : Type := {
  msg_role : Role;
  msg_content : string
}.

(** [ConversationMessage]: a message carrying a [conversationId]. *)
Record ConversationMessage : Type := {
  role : Role;
  content : string;
  conversationId : string
}.

(** [{...m, conversationId: id}] *)
Definition withConversationId (m : Message) (id : string) : ConversationMessage :=
  {| role := msg_role m; content := msg_content m; conversationId := id |}.

(** Modelled from the spec: [createUserMessage] of [inferutils/common] is
    outside the files verified here; the spec's Transcript Entry has a role and a
    content, and the Turn Processor creates "a user entry" from the user
    message. *)
Definition createUserMessage (text : string) : Message :=
  {| msg_role := user; msg_content := text |}.

(** Modelled from the spec: [createAssistantMessage] of [inferutils/common]
    is outside the files verified here; it creates the "assistant entry" with the
    given text. *)
Definition createAssistantMessage (text : string) : Message :=
  {| msg_role := assistant; msg_content := text |}.

(** ** The notification callback *)

Inductive ToolStatus : Type := status_start | status_success | status_error.

(** [Record<string, unknown>]: a value whose static type has been forgotten.
    The source's [args as Record<string, unknown>] is a cast, erased at run
    time. *)
Definition UnknownRecord : Type := {T : Type & T}.

Definition asRecord {T : Type} (a : T) : UnknownRecord := existT (fun X => X) T a.

(** The optional fourth argument of [conversationResponseCallback]. *)
Record ToolEvent : Type := {
  te_name : string;
  te_status : ToolStatus;
  te_args : option UnknownRecord
}.

(** One call of [conversationResponseCallback(message, conversationId,
    isStreaming, tool?)].  The callback belongs to the caller; the model
    records every call, in order, in the state's [events]. *)
Record CallbackCall : Type := {
  cb_message : string;
  cb_conversationId : string;
  cb_isStreaming : bool;
  cb_tool : option ToolEvent
}.

(** ** Log *)

(** The structured payloads of the log calls are not kept, except the error
    given to [logger.error]. *)
Inductive LogEntry : Type :=
| LogInfo (message : string)
| LogError (message : string) (error : JsError)
| ConsoleLog (message : string).

(** ** Tool definitions *)

(** The JSON-schema fragment used for tool parameters. *)
Record PropertySchema : Type := {
  prop_type : string;
  prop_minLength : option nat;
  prop_description : string
}.

Record ParametersSchema : Type := {
  schema_type : string;
  additionalProperties : bool;
  properties : list (string * PropertySchema);
  required : list string
}.

Record FunctionSpec : Type := {
  name : string;
  description : string;
  parameters : ParametersSchema
}.

(** [ToolDefinition<TArgs, TResult>] of [tools/types], over the state [St] its
    callbacks act on.  [onStart] and [onComplete] are optional. *)
Record ToolDefinition (St TArgs TResult : Type) : Type := {
  type_ : string;
  function_ : FunctionSpec;
  implementation : TArgs -> Eff St TResult;
  onStart : option (TArgs -> Eff St unit);
  onComplete : option (TArgs -> TResult -> Eff St unit)
}.

(** [EditAppArgs] and the value [buildEditAppTool]'s implementation returns
    (the interface [EditAppResult] is empty; the returned object has the one
    field [content]). *)
Record EditAppArgs : Type := { modificationRequest : string }.

Record EditAppResult : Type := { result_content : string }.

(** [result.string] is all the processor reads of the inference result. *)
Record InferResult : Type := { result_string : string }.

Definition CHUNK_SIZE : nat := 64.

Definition FALLBACK_USER_RESPONSE : string :=
  "I understand you'd like to make some changes to your project. Let me make sure this is incorporated in the next phase of development.".

Definition QUEUE_ACK : string :=
  "Modification request queued successfully, will be implemented in the next phase of development.".

Definition newline : string := String (ascii_of_nat 10) EmptyString.

(** The three entries of the [tools] array of [execute], by position. *)
Inductive ToolId : Type := WebSearchTool | WeatherTool | EditAppTool.

Section TurnProcessor.

(** *** What the processor is given

    Parts of the repository that the processor imports and that are outside the
    files verified here are parameters: the world outside the turn (network, clock,
    random source), the id generator, the two toolkit tools, prompt assembly
    and the inference engine. *)

Variable World : Type.

(** [IdGenerator.generateConversationId()]: reads and advances the world; it
    is a call like any other and is not assumed to succeed. *)
Variable generateConversationId : Eff World string.

Variables WebSearchArgs WebSearchResult WeatherArgs WeatherResult : Type.
Variable toolWebSearchDefinition : ToolDefinition World WebSearchArgs WebSearchResult.
Variable toolWeatherDefinition : ToolDefinition World WeatherArgs WeatherResult.

Variables Env Context InferenceContext : Type.

(** The text of the template literal [SYSTEM_PROMPT] (part_000:46-89); the
    processor only hands it to prompt assembly. *)
Variable SYSTEM_PROMPT : string.

Variable getSystemPromptWithProjectContext :
  string -> Context -> bool -> Completion (list Message).

(** *** State of a turn *)

(** The world, the logger's output, the calls received by the caller's
    callback, and the two [let] variables of [execute] that the callbacks
    assign. *)
Record State : Type := {
  world : World;
  logs : list LogEntry;
  events : list CallbackCall;
  extractedUserResponse : string;
  extractedEnhancedRequest : string
}.

Definition set_world (w : World) (s : State) : State :=
  {| world := w; logs := logs s; events := events s;
     extractedUserResponse := extractedUserResponse s;
     extractedEnhancedRequest := extractedEnhancedRequest s |}.

Definition push_log (l : LogEntry) (s : State) : State :=
  {| world := world s; logs := (logs s ++ [l])%list; events := events s;
     extractedUserResponse := extractedUserResponse s;
     extractedEnhancedRequest := extractedEnhancedRequest s |}.

Definition push_event (c : CallbackCall) (s : State) : State :=
  {| world := world s; logs := logs s; events := (events s ++ [c])%list;
     extractedUserResponse := extractedUserResponse s;
     extractedEnhancedRequest := extractedEnhancedRequest s |}.

Definition set_extractedUserResponse (v : string) (s : State) : State :=
  {| world := world s; logs := logs s; events := events s;
     extractedUserResponse := v;
     extractedEnhancedRequest := extractedEnhancedRequest s |}.

Definition set_extractedEnhancedRequest (v : string) (s : State) : State :=
  {| world := world s; logs := logs s; events := events s;
     extractedUserResponse := extractedUserResponse s;
     extractedEnhancedRequest := v |}.

(** An effect on the world, seen from inside the turn. *)
Definition liftWorld {A} (m : Eff World A) : Eff State A :=
  fun s => let (c, w) := m (world s) in (c, set_world w s).

(** A module-level tool acts on the world only: it has no access to the
    closure variables of [execute] nor to the caller's callback. *)
Definition liftTool {TArgs TResult} (td : ToolDefinition World TArgs TResult)
  : ToolDefinition State TArgs TResult :=
  {| type_ := type_ td;
     function_ := function_ td;
     implementation := fun args => liftWorld (implementation td args);
     onStart := option_map (fun h args => liftWorld (h args)) (onStart td);
     onComplete := option_map (fun h args r => liftWorld (h args r)) (onComplete td) |}.

Definition logger_info (message : string) : Eff State unit :=
  modify (push_log (LogInfo message)).

Definition logger_error (message : string) (error : JsError) : Eff State unit :=
  modify (push_log (LogError message error)).

Definition console_log (message : string) : Eff State unit :=
  modify (push_log (ConsoleLog message)).

Definition conversationResponseCallback
  (message conversationId : string) (isStreaming : bool) (tool : option ToolEvent)
  : Eff State unit :=
  modify (push_event {| cb_message := message; cb_conversationId := conversationId;
                        cb_isStreaming := isStreaming; cb_tool := tool |}).

(** *** [buildEditAppTool] (part_000:99-124) *)

Definition buildEditAppTool (stateMutator : string -> Eff State unit)
  : ToolDefinition State EditAppArgs EditAppResult :=
  {| type_ := "function";
     function_ :=
       {| name := "queue_request";
          description := "Queue up modification requests or changes, to be implemented in the next development phase";
          parameters :=
            {| schema_type := "object";
               additionalProperties := false;
               properties :=
                 [("modificationRequest",
                   {| prop_type := "string";
                      prop_minLength := Some 8;
                      prop_description := "The changes needed to be made to the app. Please don't supply any code level or implementation details. Provide detailed requirements and description of the changes you want to make." |})];
               required := ["modificationRequest"] |} |};
     implementation := fun args =>
       console_log "Queueing app edit request" ;;
       stateMutator (modificationRequest args) ;;
       ret {| result_content := QUEUE_ACK |};
     onStart := None;
     onComplete := None |}.

(** *** [attachLifecycle] (part_000:145-159)

    A closure of [execute] over [inputs.conversationResponseCallback] and
    [aiConversationId]; the spread [...td] keeps every other field. *)

Definition attachLifecycle (aiConversationId : string) {TArgs TResult}
  (td : ToolDefinition State TArgs TResult) : ToolDefinition State TArgs TResult :=
  {| type_ := type_ td;
     function_ := function_ td;
     implementation := implementation td;
     onStart := Some (fun args =>
       conversationResponseCallback "" aiConversationId false
         (Some {| te_name := name (function_ td); te_status := status_start;
                  te_args := Some (asRecord args) |}));
     onComplete := Some (fun args (_result : TResult) =>
       conversationResponseCallback "" aiConversationId false
         (Some {| te_name := name (function_ td); te_status := status_success;
                  te_args := Some (asRecord args) |})) |}.

(** *** The inference engine *)

(** The argument and result types of the three tools. *)
Definition ArgsOf (t : ToolId) : Type :=
  match t with
  | WebSearchTool => WebSearchArgs
  | WeatherTool => WeatherArgs
  | EditAppTool => EditAppArgs
  end.

Definition ResultOf (t : ToolId) : Type :=
  match t with
  | WebSearchTool => WebSearchResult
  | WeatherTool => WeatherResult
  | EditAppTool => EditAppResult
  end.

(** Modelled from the spec: [executeInference] ([inferutils/infer]) is outside
    the files verified here.  The spec describes the engine as accepting a
    message list and a tool set, streaming textual deltas through a callback,
    executing tool calls and feeding their results back into its own loop, and
    returning a final completion string (or failing).  All it can do to the
    turn is call what it was given: [stream.onChunk], and of each tool
    [onStart], [implementation] and [onComplete], in any order and number, and
    then return a result or throw.  An engine run is a tree of such calls; the
    engine sees what each [implementation] returned or threw and goes on from
    there, and it may act on the world in between. *)
Inductive Engine : Type :=
| EReturn (result : InferResult)
| EThrow (e : JsError)
| EWorld (f : World -> World) (k : World -> Engine)
| EOnChunk (chunk : string) (k : Engine)
| EOnStart (t : ToolId) (args : ArgsOf t) (k : Engine)
| EImplementation (t : ToolId) (args : ArgsOf t)
    (k : Completion (ResultOf t) -> Engine)
| EOnComplete (t : ToolId) (args : ArgsOf t) (result : ResultOf t) (k : Engine).

(** The calls an engine run made, in order. *)
Inductive EngineCall : Type :=
| CallOnChunk (chunk : string)
| CallOnStart (t : ToolId) (args : ArgsOf t)
| CallImplementation (t : ToolId) (args : ArgsOf t)
| CallOnComplete (t : ToolId) (args : ArgsOf t) (result : ResultOf t).

Definition ToolSet : Type :=
  forall t : ToolId, ToolDefinition State (ArgsOf t) (ResultOf t).

Definition callOnStart {A R} (td : ToolDefinition State A R) (args : A)
  : Eff State unit :=
  match onStart td with Some h => h args | None => ret tt end.

Definition callOnComplete {A R} (td : ToolDefinition State A R) (args : A) (r : R)
  : Eff State unit :=
  match onComplete td with Some h => h args r | None => ret tt end.

(** Running an engine against the callbacks of a turn.  Returns the calls
    made together with the completion and the state reached.  An error thrown
    by a hook ends the run with that error. *)
Fixpoint runEngine (onChunk : string -> Eff State unit) (tools : ToolSet)
  (e : Engine) (s : State) : list EngineCall * (Completion InferResult * State) :=
  match e with
  | EReturn r => ([], (Normal r, s))
  | EThrow err => ([], (Thrown err, s))
  | EWorld f k =>
      let w := f (world s) in runEngine onChunk tools (k w) (set_world w s)
  | EOnChunk c k =>
      match onChunk c s with
      | (Normal _, s') =>
          let (tr, out) := runEngine onChunk tools k s' in (CallOnChunk c :: tr, out)
      | (Thrown err, s') => ([CallOnChunk c], (Thrown err, s'))
      end
  | EOnStart t args k =>
      match callOnStart (tools t) args s with
      | (Normal _, s') =>
          let (tr, out) := runEngine onChunk tools k s' in
          (CallOnStart t args :: tr, out)
      | (Thrown err, s') => ([CallOnStart t args], (Thrown err, s'))
      end
  | EImplementation t args k =>
      let (r, s') := implementation (tools t) args s in
      let (tr, out) := runEngine onChunk tools (k r) s' in
      (CallImplementation t args :: tr, out)
  | EOnComplete t args r k =>
      match callOnComplete (tools t) args r s with
      | (Normal _, s') =>
          let (tr, out) := runEngine onChunk tools k s' in
          (CallOnComplete t args r :: tr, out)
      | (Thrown err, s') => ([CallOnComplete t args r], (Thrown err, s'))
      end
  end.

(** The argument object of [executeInference], without the callbacks. *)
Record InferenceRequest : Type := {
  req_env : Env;
  req_messages : list (Message + ConversationMessage);
  req_agentActionName : string;
  req_context : InferenceContext;
  req_chunk_size : nat
}.

Variable executeInference : InferenceRequest -> Engine.

(** *** [UserConversationProcessor.execute] (part_000:126-229) *)

(** [inputs.conversationResponseCallback] is the recorder
    [conversationResponseCallback] above. *)
Record UserConversationInputs : Type := {
  userMessage : string;
  pastMessages : list ConversationMessage
}.

(** [options.logger] is the log of the state. *)
Record OperationOptions : Type := {
  env : Env;
  context : Context;
  inferenceContext : InferenceContext
}.

Record ConversationalResponseType : Type := {
  enhancedUserRequest : string;
  userResponse : string
}.

Record UserConversationOutputs : Type := {
  conversationResponse : ConversationalResponseType;
  messages : list ConversationMessage
}.

(** The mutator [execute] hands to [buildEditAppTool] (part_000:163-166). *)
Definition editRequestMutator (modificationRequest : string) : Eff State unit :=
  logger_info "Received app edit request" ;;
  modify (set_extractedEnhancedRequest modificationRequest).

(** The [tools] array (part_000:160-167). *)
Definition turnTools (aiConversationId : string) : ToolSet :=
  fun t =>
    match t return ToolDefinition State (ArgsOf t) (ResultOf t) with
    | WebSearchTool => attachLifecycle aiConversationId (liftTool toolWebSearchDefinition)
    | WeatherTool => attachLifecycle aiConversationId (liftTool toolWeatherDefinition)
    | EditAppTool => attachLifecycle aiConversationId (buildEditAppTool editRequestMutator)
    end.

(** [stream.onChunk] (part_000:183-187). *)
Definition onChunk (aiConversationId : string) (chunk : string) : Eff State unit :=
  logger_info "Processing user message chunk" ;;
  conversationResponseCallback chunk aiConversationId true None ;;
  modify (fun s => set_extractedUserResponse (extractedUserResponse s ++ chunk) s).

(** [await executeInference({...})] with the callbacks of this turn. *)
Definition awaitExecuteInference (aiConversationId : string) (req : InferenceRequest)
  : Eff State InferResult :=
  fun s => snd (runEngine (onChunk aiConversationId) (turnTools aiConversationId)
                  (executeInference req) s).

(** The [try] block (part_000:133-209). *)
Definition executeBody (inputs : UserConversationInputs) (options : OperationOptions)
  : Eff State UserConversationOutputs :=
  systemPrompts <- liftCompletion
    (getSystemPromptWithProjectContext SYSTEM_PROMPT (context options) false) ;;
  userId <- liftWorld generateConversationId ;;
  let messages0 :=
    (pastMessages inputs
      ++ [withConversationId (createUserMessage (userMessage inputs)) userId])%list in
  modify (set_extractedUserResponse "") ;;
  modify (set_extractedEnhancedRequest "") ;;
  aiConversationId <- liftWorld generateConversationId ;;
  logger_info "Generated conversation ID" ;;
  logger_info "Executing inference for user message" ;;
  result <- awaitExecuteInference aiConversationId
    {| req_env := env options;
       req_messages := (map inl systemPrompts ++ map inr messages0)%list;
       req_agentActionName := "conversationalResponse";
       req_context := inferenceContext options;
       req_chunk_size := CHUNK_SIZE |} ;;
  logger_info "Successfully processed user message" ;;
  enhanced <- gets extractedEnhancedRequest ;;
  response <- gets extractedUserResponse ;;
  let conversationResponse0 :=
    {| enhancedUserRequest := enhanced; userResponse := response |} in
  assistantId <- liftWorld generateConversationId ;;
  ret {| conversationResponse := conversationResponse0;
         messages := (messages0
           ++ [withConversationId (createAssistantMessage (result_string result))
                 assistantId])%list |}.

(** The [catch] block (part_000:210-228). *)
Definition executeHandler (inputs : UserConversationInputs) (error : JsError)
  : Eff State UserConversationOutputs :=
  logger_error "Error processing user message:" error ;;
  if instanceofRateLimitExceededError error || instanceofSecurityError error
  then throw error
  else
    userId <- liftWorld generateConversationId ;;
    assistantId <- liftWorld generateConversationId ;;
    ret {| conversationResponse :=
             {| enhancedUserRequest := "User request: " ++ userMessage inputs;
                userResponse := FALLBACK_USER_RESPONSE |};
           messages := (pastMessages inputs
             ++ [withConversationId (createUserMessage (userMessage inputs)) userId;
                 withConversationId (createAssistantMessage FALLBACK_USER_RESPONSE)
                   assistantId])%list |}.

Definition execute (inputs : UserConversationInputs) (options : OperationOptions)
  : Eff State UserConversationOutputs :=
  logger_info "Processing user message" ;;
  tryCatch (executeBody inputs options) (executeHandler inputs).

(** *** The pipeline-event bridge (part_000:35-44, 231-253) *)

(** The constants of [WebSocketMessageResponses] ([agents/constants]) that the
    allow-list names; their string values are declared elsewhere. *)
Record WebSocketMessageResponsesT : Type := {
  PHASE_IMPLEMENTING : string;
  PHASE_IMPLEMENTED : string;
  CODE_REVIEW : string;
  FILE_REGENERATING : string;
  FILE_REGENERATED : string;
  DEPLOYMENT_COMPLETED : string;
  COMMAND_EXECUTING : string
}.

Variable WebSocketMessageResponses : WebSocketMessageResponsesT.

Definition RelevantProjectUpdateWebsoketMessages : list string :=
  [ PHASE_IMPLEMENTING WebSocketMessageResponses;
    PHASE_IMPLEMENTED WebSocketMessageResponses;
    CODE_REVIEW WebSocketMessageResponses;
    FILE_REGENERATING WebSocketMessageResponses;
    FILE_REGENERATED WebSocketMessageResponses;
    DEPLOYMENT_COMPLETED WebSocketMessageResponses;
    COMMAND_EXECUTING WebSocketMessageResponses ].

(** [Array.prototype.includes] on strings. *)
Definition includes (l : list string) (x : string) : bool :=
  existsb (String.eqb x) l.

Definition isProjectUpdateType (type : string) : bool :=
  includes RelevantProjectUpdateWebsoketMessages type.

(** The template literal of part_000:236-238. *)
Definition preparedMessage (updateType : string) : string :=
  "**<Internal Memo>**" ++ newline
    ++ "Project Updates: " ++ updateType ++ newline
    ++ "</Internal Memo>".

Definition processProjectUpdates {Data : Type} (updateType : string) (_data : Data)
  : Eff State (list ConversationMessage) :=
  tryCatch
    (logger_info "Processing project update" ;;
     id <- liftWorld generateConversationId ;;
     ret [ {| role := assistant;
              content := preparedMessage updateType;
              conversationId := id |} ])
    (fun error =>
       logger_error "Error processing project update:" error ;;
       ret []).

End TurnProcessor.

(** ** Schema validation by the engine *)

Inductive JsonValue : Type :=
| JsonString (s : string)
| JsonNumber (n : nat)
| JsonBool (b : bool)
| JsonNull.

Definition JsonObject : Type := list (string * JsonValue).

Fixpoint lookup {V : Type} (key : string) (o : list (string * V)) : option V :=
  match o with
  | [] => None
  | (k, v) :: rest => if String.eqb key k then Some v else lookup key rest
  end.

Definition jsonTypeName (v : JsonValue) : string :=
  match v with
  | JsonString _ => "string"
  | JsonNumber _ => "number"
  | JsonBool _ => "boolean"
  | JsonNull => "null"
  end.

(** [minLength] is counted in characters of the model's strings. *)
Definition propertyAccepts (p : PropertySchema) (v : JsonValue) : bool :=
  String.eqb (prop_type p) (jsonTypeName v)
  && match v, prop_minLength p with
     | JsonString s, Some n => Nat.leb n (String.length s)
     | _, _ => true
     end.

(** Modelled from the spec: the validation of a tool call's arguments against
    the tool's parameter schema is done by the inference engine, outside the
    files verified here ("schemas are validated by the inference engine before
    [execute] is invoked").  An argument object is accepted when every
    required field is present, every field the schema declares is of the
    declared type and not shorter than its minimum length, and, when the schema
    forbids additional properties, no other field is present. *)
Definition schemaAccepts (sch : ParametersSchema) (o : JsonObject) : bool :=
  String.eqb (schema_type sch) "object"
  && forallb (fun k => match lookup k o with Some _ => true | None => false end)
       (required sch)
  && forallb (fun kv =>
       match lookup (fst kv) (properties sch) with
       | Some p => propertyAccepts p (snd kv)
       | None => additionalProperties sch
       end) o.

Definition decodeEditAppArgs (o : JsonObject) : option EditAppArgs :=
  match lookup "modificationRequest" o with
  | Some (JsonString s) => Some {| modificationRequest := s |}
  | _ => None
  end.

(** Modelled from the spec: how the engine, outside the files verified here,
    invokes the Modification-Queue Tool on the raw arguments of a tool call:
    the implementation runs only on arguments the schema accepts. *)
Definition engineInvokesEditApp {St : Type}
  (td : ToolDefinition St EditAppArgs EditAppResult) (raw : JsonObject)
  : Eff St (option EditAppResult) :=
  if schemaAccepts (parameters (function_ td)) raw then
    match decodeEditAppArgs raw with
    | Some args => r <- implementation td args ;; ret (Some r)
    | None => ret None
    end
  else ret None.

(** ** Vocabulary of the statements *)

Definition isFatal (e : JsError) : bool :=
  instanceofRateLimitExceededError e || instanceofSecurityError e.

(** The id generator returns normally from every world. *)
Definition alwaysGenerates {World : Type} (gen : Eff World string) : Prop :=
  forall w, exists id w', gen w = (Normal id, w').

Definition joinChunks (l : list string) : string :=
  fold_right String.append "" l.

(** The chunk texts of the callback calls made with [isStreaming = true]. *)
Definition streamedChunks (evs : list CallbackCall) : list string :=
  map cb_message (filter cb_isStreaming evs).

Definition emitsNoErrorStatus (ev : CallbackCall) : Prop :=
  match cb_tool ev with
  | Some te => te_status te <> status_error
  | None => True
  end.

(** [needle] occurs in [hay]. *)
Definition containsString (hay needle : string) : Prop :=
  exists before after, hay = before ++ needle ++ after.

Definition roleAndContent (m : ConversationMessage) : Role * string :=
  (role m, content m).

(** The two entries a turn appends. *)
Definition userEntry (inputs : UserConversationInputs) (id : string)
  : ConversationMessage :=
  {| role := user; content := userMessage inputs; conversationId := id |}.

Definition assistantEntry (text id : string) : ConversationMessage :=
  {| role := assistant; content := text; conversationId := id |}.

Section TraceVocabulary.

Variable World : Type.
Variables WebSearchArgs WebSearchResult WeatherArgs WeatherResult : Type.

Let Call := EngineCall WebSearchArgs WebSearchResult WeatherArgs WeatherResult.

Definition chunkOfCall (c : Call) : list string :=
  match c with
  | CallOnChunk _ _ _ _ chunk => [chunk]
  | _ => []
  end.

Definition editArgOf (t : ToolId)
  : ArgsOf WebSearchArgs WeatherArgs t -> list string :=
  match t return ArgsOf WebSearchArgs WeatherArgs t -> list string with
  | EditAppTool => fun a => [modificationRequest a]
  | _ => fun _ => []
  end.

(** The argument of a call of the Modification-Queue Tool's implementation. *)
Definition queueRequestOfCall (c : Call) : list string :=
  match c with
  | CallImplementation _ _ _ _ t a => editArgOf t a
  | _ => []
  end.

(** The arguments of the Modification-Queue Tool's invocations, in order. *)
Definition queueRequests (tr : list Call) : list string :=
  flat_map queueRequestOfCall tr.

Definition chunksOf (tr : list Call) : list string :=
  flat_map chunkOfCall tr.

End TraceVocabulary.

(** ** Vocabulary tied to a turn *)

Section TurnVocabulary.

Variable World : Type.
Variables WebSearchArgs WebSearchResult WeatherArgs WeatherResult : Type.
Variable toolWebSearchDefinition : ToolDefinition World WebSearchArgs WebSearchResult.
Variable toolWeatherDefinition : ToolDefinition World WeatherArgs WeatherResult.
Variables Env Context InferenceContext : Type.

(** The external name of each entry of the [tools] array. *)
Definition toolName (t : ToolId) : string :=
  match t with
  | WebSearchTool => name (function_ toolWebSearchDefinition)
  | WeatherTool => name (function_ toolWeatherDefinition)
  | EditAppTool => "queue_request"
  end.

Definition lifecycleEvent (aiConversationId : string) (t : ToolId)
  (st : ToolStatus) (args : ArgsOf WebSearchArgs WeatherArgs t) : CallbackCall :=
  {| cb_message := ""; cb_conversationId := aiConversationId;
     cb_isStreaming := false;
     cb_tool := Some {| te_name := toolName t; te_status := st;
                        te_args := Some (asRecord args) |} |}.

(** The callback calls that one engine call causes in a turn. *)
Definition callEvents (aiConversationId : string)
  (c : EngineCall WebSearchArgs WebSearchResult WeatherArgs WeatherResult)
  : list CallbackCall :=
  match c with
  | CallOnChunk _ _ _ _ chunk =>
      [ {| cb_message := chunk; cb_conversationId := aiConversationId;
           cb_isStreaming := true; cb_tool := None |} ]
  | CallOnStart _ _ _ _ t args => [ lifecycleEvent aiConversationId t status_start args ]
  | CallImplementation _ _ _ _ _ _ => []
  | CallOnComplete _ _ _ _ t args _ =>
      [ lifecycleEvent aiConversationId t status_success args ]
  end.

(** The state in which [execute] calls the engine, from the state [s] in which
    the [try] block started and the world [w] left by the second id. *)
Definition beforeInference (s : State World) (w : World) : State World :=
  {| world := w;
     logs := ((logs s ++ [LogInfo "Generated conversation ID"])
                ++ [LogInfo "Executing inference for user message"])%list;
     events := events s;
     extractedUserResponse := "";
     extractedEnhancedRequest := "" |}.

(** The request [execute] sends (part_000:176-180). *)
Definition turnRequest (inputs : UserConversationInputs)
  (options : OperationOptions Env Context InferenceContext)
  (systemPrompts : list Message) (userId : string)
  : InferenceRequest Env InferenceContext :=
  {| req_env := env options;
     req_messages :=
       (map inl systemPrompts
        ++ map inr (pastMessages inputs
             ++ [withConversationId (createUserMessage (userMessage inputs)) userId]))%list;
     req_agentActionName := "conversationalResponse";
     req_context := inferenceContext options;
     req_chunk_size := CHUNK_SIZE |}.

End TurnVocabulary.

(** ** A small concrete platform

    Worlds are counters; the id generator numbers the ids; the two toolkit
    tools take and return strings.  Used to run the definitions above. *)

Definition demo_generateConversationId : Eff nat string :=
  fun n => (Normal ("conv-" ++ String (ascii_of_nat (48 + n)) ""), S n).

(** A generator that always throws. *)
Definition demo_brokenGenerator : Eff nat string :=
  fun n => (Thrown (OtherError "Error" "no entropy"), n).

Definition demo_stringTool (toolName : string) : ToolDefinition nat string string :=
  {| type_ := "function";
     function_ :=
       {| name := toolName;
          description := "";
          parameters :=
            {| schema_type := "object";
               additionalProperties := false;
               properties :=
                 [("query", {| prop_type := "string"; prop_minLength := None;
                               prop_description := "" |})];
               required := ["query"] |} |};
     implementation := fun query w => (Normal ("about " ++ query), S w);
     onStart := None;
     onComplete := None |}.

Definition demo_getSystemPrompt (template : string) (ctx : string) (_ : bool)
  : Completion (list Message) :=
  Normal [ {| msg_role := system; msg_content := template ++ ctx |} ].

Definition DemoEngine : Type := Engine nat string string string string.

Definition demo_initial : State nat :=
  {| world := 0; logs := []; events := [];
     extractedUserResponse := ""; extractedEnhancedRequest := "" |}.

Definition demo_options : OperationOptions unit string unit :=
  {| env := tt; context := "a todo app"; inferenceContext := tt |}.

Definition demo_inputs (userText : string) (past : list ConversationMessage)
  : UserConversationInputs :=
  {| userMessage := userText; pastMessages := past |}.

Definition demo_execute (engine : DemoEngine) (userText : string)
  (past : list ConversationMessage)
  : Eff (State nat) UserConversationOutputs :=
  execute demo_generateConversationId
    (demo_stringTool "web_search") (demo_stringTool "get_weather")
    "You are an AI assistant. " demo_getSystemPrompt
    (fun _ : InferenceRequest unit unit => engine)
    (demo_inputs userText past) demo_options.

(** The calls the engine makes in [demo_execute] from [demo_initial]: the turn
    id is the second id generated. *)
Definition demo_calls (engine : DemoEngine)
  : list (EngineCall string string string string) :=
  fst (runEngine (onChunk "conv-1")
         (turnTools (demo_stringTool "web_search") (demo_stringTool "get_weather")
            "conv-1")
         engine
         (beforeInference (push_log (LogInfo "Processing user message") demo_initial)
            2)).

Definition demo_past : list ConversationMessage :=
  [ {| role := user; content := "hello"; conversationId := "conv-a" |};
    {| role := assistant; content := "hi there"; conversationId := "conv-b" |} ].

Definition demo_editArgs (text : string) : ArgsOf string string EditAppTool :=
  {| modificationRequest := text |}.

(** Streams a sentence, queues one request, streams a second sentence and
    returns the second sentence as its final completion. *)
Definition demo_engineQueueOnce : DemoEngine :=
  EOnChunk "I will add that. "
    (EOnStart EditAppTool (demo_editArgs "Add a dark-mode toggle")
      (EImplementation EditAppTool (demo_editArgs "Add a dark-mode toggle")
        (fun r =>
           match r with
           | Normal ack =>
               EOnComplete EditAppTool (demo_editArgs "Add a dark-mode toggle") ack
                 (EOnChunk "It is queued for the next phase."
                    (EReturn _ _ _ _ _
                       {| result_string := "It is queued for the next phase." |}))
           | Thrown e => EThrow _ _ _ _ _ e
           end))).

(** Queues two requests and streams what it returns. *)
Definition demo_engineQueueTwice : DemoEngine :=
  EImplementation EditAppTool (demo_editArgs "Add A feature")
    (fun _ =>
       EImplementation WebSearchTool "icons"
         (fun _ =>
            EImplementation EditAppTool (demo_editArgs "Add B feature")
              (fun _ =>
                 EOnChunk "Both are queued."
                   (EReturn _ _ _ _ _ {| result_string := "Both are queued." |})))).

(** Streams and returns the same text, calling no tool. *)
Definition demo_engineChat : DemoEngine :=
  EOnChunk "Sure, "
    (EOnChunk "happy to help."
       (EReturn _ _ _ _ _ {| result_string := "Sure, happy to help." |})).

(** Streams a chunk and then fails with the given error. *)
Definition demo_engineFails (e : JsError) : DemoEngine :=
  EOnChunk "Let me " (EThrow _ _ _ _ _ e).

Definition demo_responses : WebSocketMessageResponsesT :=
  {| PHASE_IMPLEMENTING := "phase_implementing";
     PHASE_IMPLEMENTED := "phase_implemented";
     CODE_REVIEW := "code_review";
     FILE_REGENERATING := "file_regenerating";
     FILE_REGENERATED := "file_regenerated";
     DEPLOYMENT_COMPLETED := "deployment_completed";
     COMMAND_EXECUTING := "command_executing" |}.

(** * The application store

    [AppService] (worker/database/services/AppService.ts), [AnalyticsService]
    and [UserService] (part_001), and the handlers of [AppController]
    (part_000:288-600) that use them.  The services run drizzle statements
    against a D1 database; the model keeps the tables as lists of rows, in
    table order, and runs one statement at a time.  Any statement may fail:
    the runtime decides, statement by statement, whether the database throws;
    a statement that throws leaves the tables as they were. *)

(** ** Rows

    Only the columns that the modelled functions read or write are named; the
    other columns of a row travel with it in [_columns]. *)

Record AppRow : Type := {
  app_id : string;
  app_userId : option string;
  app_title : string;
  app_visibility : string;
  app_parentAppId : option string;
  app_updatedAt : nat;
  app_columns : list (string * JsonValue)
}.

Record FavoriteRow : Type := {
  favorite_id : string;
  favorite_userId : string;
  favorite_appId : string;
  favorite_createdAt : nat
}.

Record StarRow : Type := {
  star_id : string;
  star_userId : string;
  star_appId : string;
  star_starredAt : nat
}.

Record AppViewRow : Type := {
  view_id : string;
  view_appId : string;
  view_userId : string;
  view_viewedAt : nat
}.

Record AppLikeRow : Type := {
  like_appId : string;
  like_columns : list (string * JsonValue)
}.

Record UserRow : Type := {
  user_id : string;
  user_username : option string;
  user_displayName : option string;
  user_bio : option string;
  user_theme : option string;
  user_updatedAt : nat;
  user_columns : list (string * JsonValue)
}.

Record Tables : Type := {
  apps : list AppRow;
  favorites : list FavoriteRow;
  stars : list StarRow;
  appViews : list AppViewRow;
  appLikes : list AppLikeRow;
  users : list UserRow
}.

Definition with_apps (rows : list AppRow) (t : Tables) : Tables :=
  {| apps := rows; favorites := favorites t; stars := stars t;
     appViews := appViews t; appLikes := appLikes t; users := users t |}.

Definition with_favorites (rows : list FavoriteRow) (t : Tables) : Tables :=
  {| apps := apps t; favorites := rows; stars := stars t;
     appViews := appViews t; appLikes := appLikes t; users := users t |}.

Definition with_stars (rows : list StarRow) (t : Tables) : Tables :=
  {| apps := apps t; favorites := favorites t; stars := rows;
     appViews := appViews t; appLikes := appLikes t; users := users t |}.

Definition with_appViews (rows : list AppViewRow) (t : Tables) : Tables :=
  {| apps := apps t; favorites := favorites t; stars := stars t;
     appViews := rows; appLikes := appLikes t; users := users t |}.

Definition with_users (rows : list UserRow) (t : Tables) : Tables :=
  {| apps := apps t; favorites := favorites t; stars := stars t;
     appViews := appViews t; appLikes := appLikes t; users := rows |}.

(** ** Statements *)

(** [eq(column, value)] on a nullable column, and [column === value] on a
    value that may be [null]: a [null] equals no string. *)
Definition nullableEqb (column : option string) (value : string) : bool :=
  match column with
  | Some c => String.eqb c value
  | None => false
  end.

(** [DELETE ... WHERE p] *)
Definition deleteWhere {R : Type} (p : R -> bool) (rows : list R) : list R :=
  filter (fun r => negb (p r)) rows.

(** [UPDATE ... SET f WHERE p] *)
Definition updateWhere {R : Type} (p : R -> bool) (f : R -> R) (rows : list R)
  : list R :=
  map (fun r => if p r then f r else r) rows.

(** [SELECT COUNT( * ) ... WHERE p] *)
Definition countWhere {R : Type} (p : R -> bool) (rows : list R) : nat :=
  length (filter p rows).

(** [x ?? d] and, on counts, [x || d] with [d = 0]. *)
Definition orDefault {A : Type} (x : option A) (d : A) : A :=
  match x with Some a => a | None => d end.

(** What the services run on: the world outside (the D1 connection, the
    clock, the random source), the tables, and the log. *)
Record Backend (World : Type) : Type := {
  tables : Tables;
  outside : World;
  backend_logs : list LogEntry
}.

(** What the services import and the files here do not define: whether the
    next statement fails, [generateId] of [utils/idGenerator], the time that
    [new Date()] reads, and [formatRelativeTime] of [utils/timeFormatter]. *)
Record Runtime (World : Type) : Type := {
  d1Fault : World -> option JsError * World;
  generateId : Eff World string;
  currentDate : World -> nat;
  formatRelativeTime : World -> nat -> string
}.

Section Statements.

Variable World : Type.
Variable rt : Runtime World.

Definition set_tables (t : Tables) (s : Backend World) : Backend World :=
  {| tables := t; outside := outside s; backend_logs := backend_logs s |}.

Definition set_outside (w : World) (s : Backend World) : Backend World :=
  {| tables := tables s; outside := w; backend_logs := backend_logs s |}.

Definition push_backend_log (l : LogEntry) (s : Backend World) : Backend World :=
  {| tables := tables s; outside := outside s;
     backend_logs := (backend_logs s ++ [l])%list |}.

(** [await this.database. ...]: one statement, which reads the tables and may
    replace them, unless the database throws. *)
Definition statement {A : Type} (run : Tables -> A * Tables)
  : Eff (Backend World) A :=
  fun s =>
    match d1Fault rt (outside s) with
    | (Some e, w) => (Thrown e, set_outside w s)
    | (None, w) =>
        let (a, t) := run (tables s) in
        (Normal a, set_tables t (set_outside w s))
    end.

(** A statement that only reads. *)
Definition query {A : Type} (read : Tables -> A) : Eff (Backend World) A :=
  statement (fun t => (read t, t)).

(** [generateId()] *)
Definition newId : Eff (Backend World) string :=
  fun s => let (c, w) := generateId rt (outside s) in (c, set_outside w s).

(** [new Date()] *)
Definition newDate : Eff (Backend World) nat :=
  gets (fun s => currentDate rt (outside s)).

(** [this.logger.error(message, error)], with the logger that the base
    classes of the services and controllers provide. *)
Definition service_logger_error (message : string) (error : JsError)
  : Eff (Backend World) unit :=
  modify (push_backend_log (LogError message error)).

End Statements.

(** ** Grouped counts and result objects *)

(** [inArray(column, values)] *)
Definition inArray (values : list string) (x : string) : bool :=
  existsb (String.eqb x) values.

Fixpoint bumpCount {K : Type} (eqb : K -> K -> bool) (k : K)
  (groups : list (K * nat)) : list (K * nat) :=
  match groups with
  | [] => [(k, 1)]
  | (k', n) :: rest =>
      if eqb k' k then (k', S n) :: rest else (k', n) :: bumpCount eqb k rest
  end.

(** [SELECT key, COUNT( * ) ... GROUP BY key]: one row for each key that
    occurs, with the number of its occurrences. *)
Definition groupCount {K : Type} (eqb : K -> K -> bool) (keys : list K)
  : list (K * nat) :=
  fold_left (fun groups k => bumpCount eqb k groups) keys [].

(** [object[key] = value] on an object used as a map, for a key other than
    [__proto__]. *)
Fixpoint assign {V : Type} (key : string) (v : V) (o : list (string * V))
  : list (string * V) :=
  match o with
  | [] => [(key, v)]
  | (k, w) :: rest =>
      if String.eqb key k then (k, v) :: rest else (k, w) :: assign key v rest
  end.

(** ** [AnalyticsService] (part_001:24-145) *)

Module AnalyticsService.

Record AppStats : Type := {
  viewCount : nat;
  forkCount : nat;
  likeCount : nat
}.

Section Service.

Variable World : Type.
Variable rt : Runtime World.

(** [getAppStats] (part_001:28-57).  [.get()] on a [count()] selection yields
    its one row. *)
Definition getAppStats (appId : string) : Eff (Backend World) AppStats :=
  views <- query rt (fun t =>
    Some (countWhere (fun v => String.eqb (view_appId v) appId) (appViews t))) ;;
  forks <- query rt (fun t =>
    Some (countWhere (fun a => nullableEqb (app_parentAppId a) appId) (apps t))) ;;
  likes <- query rt (fun t =>
    Some (countWhere (fun l => String.eqb (like_appId l) appId) (appLikes t))) ;;
  ret {| viewCount := orDefault views 0;
         forkCount := orDefault forks 0;
         likeCount := orDefault likes 0 |}.

Definition viewGroups (appIds : list string) (t : Tables) : list (string * nat) :=
  groupCount String.eqb
    (map view_appId (filter (fun v => inArray appIds (view_appId v)) (appViews t))).

Definition optionStringEqb (a b : option string) : bool :=
  match a, b with
  | Some x, Some y => String.eqb x y
  | None, None => true
  | _, _ => false
  end.

Definition forkGroups (appIds : list string) (t : Tables)
  : list (option string * nat) :=
  groupCount optionStringEqb
    (map app_parentAppId
       (filter (fun a => match app_parentAppId a with
                         | Some p => inArray appIds p
                         | None => false
                         end) (apps t))).

Definition likeGroups (appIds : list string) (t : Tables) : list (string * nat) :=
  groupCount String.eqb
    (map like_appId (filter (fun l => inArray appIds (like_appId l)) (appLikes t))).

(** [rows.find(r => r.key === appId)?.count] *)
Definition findCount {K : Type} (matches : K -> bool) (rows : list (K * nat))
  : option nat :=
  option_map snd (find (fun r => matches (fst r)) rows).

(** [batchGetAppStats] (part_001:94-145). *)
Definition batchGetAppStats (appIds : list string)
  : Eff (Backend World) (list (string * AppStats)) :=
  if Nat.eqb (length appIds) 0 then ret []
  else
    views <- query rt (viewGroups appIds) ;;
    forks <- query rt (forkGroups appIds) ;;
    likes <- query rt (likeGroups appIds) ;;
    ret (fold_left
           (fun result appId =>
              assign appId
                {| viewCount :=
                     orDefault (findCount (fun k => String.eqb k appId) views) 0;
                   forkCount :=
                     orDefault (findCount (fun k => nullableEqb k appId) forks) 0;
                   likeCount :=
                     orDefault (findCount (fun k => String.eqb k appId) likes) 0 |}
                result)
           appIds []).

End Service.

End AnalyticsService.

(** ** [AppService] (worker/database/services/AppService.ts) *)

Module AppService.

Record OwnershipResult : Type := {
  exists_ : bool;
  isOwner : bool
}.

Record FavoriteToggleResult : Type := { isFavorite : bool }.

Record AppWithFavoriteStatus : Type := {
  fav_app : AppRow;
  fav_isFavorite : bool;
  fav_updatedAtFormatted : string
}.

(** The row returned by [updateAppVisibility]'s [returning]. *)
Record UpdatedApp : Type := {
  updated_id : string;
  updated_title : string;
  updated_visibility : string;
  updated_updatedAt : nat
}.

Record AppVisibilityUpdateResult : Type := {
  vis_success : bool;
  vis_error : option string;
  vis_app : option UpdatedApp
}.

Record StarToggleResult : Type := {
  isStarred : bool;
  starCount : nat
}.

Record ForkLookup : Type := {
  fork_app : option AppRow;
  canFork : bool
}.

Record DeleteResult : Type := {
  del_success : bool;
  del_error : option string
}.

Section Service.

Variable World : Type.
Variable rt : Runtime World.

Definition favoriteOf (userId appId : string) (f : FavoriteRow) : bool :=
  String.eqb (favorite_appId f) appId && String.eqb (favorite_userId f) userId.

Definition starOf (userId appId : string) (s : StarRow) : bool :=
  String.eqb (star_userId s) userId && String.eqb (star_appId s) appId.

(** [toggleAppFavorite] (AppService.ts:374-406). *)
Definition toggleAppFavorite (userId appId : string)
  : Eff (Backend World) FavoriteToggleResult :=
  existingFavorite <- query rt (fun t =>
    firstn 1 (filter (favoriteOf userId appId) (favorites t))) ;;
  if Nat.ltb 0 (length existingFavorite) then
    statement rt (fun t =>
      (tt, with_favorites (deleteWhere (favoriteOf userId appId) (favorites t)) t)) ;;
    ret {| isFavorite := false |}
  else
    id <- newId rt ;;
    createdAt <- newDate rt ;;
    statement rt (fun t =>
      (tt, with_favorites
             (favorites t
              ++ [ {| favorite_id := id; favorite_userId := userId;
                      favorite_appId := appId;
                      favorite_createdAt := createdAt |} ])%list t)) ;;
    ret {| isFavorite := true |}.

(** [checkAppOwnership] (AppService.ts:411-429). *)
Definition checkAppOwnership (appId userId : string)
  : Eff (Backend World) OwnershipResult :=
  app <- query rt (fun t =>
    hd_error (filter (fun a => String.eqb (app_id a) appId) (apps t))) ;;
  match app with
  | None => ret {| exists_ := false; isOwner := false |}
  | Some a =>
      ret {| exists_ := true; isOwner := nullableEqb (app_userId a) userId |}
  end.

(** The [EXISTS] subquery of [createFavoriteStatusQuery] (AppService.ts:67-75). *)
Definition favoriteStatus (userId : string) (t : Tables) (a : AppRow) : bool :=
  existsb (fun f => String.eqb (favorite_userId f) userId
                    && String.eqb (favorite_appId f) (app_id a))
          (favorites t).

(** [getSingleAppWithFavoriteStatus] (AppService.ts:434-459). *)
Definition getSingleAppWithFavoriteStatus (appId userId : string)
  : Eff (Backend World) (option AppWithFavoriteStatus) :=
  found <- query rt (fun t =>
    firstn 1
      (map (fun a => (a, favoriteStatus userId t a))
         (filter (fun a => String.eqb (app_id a) appId
                           && nullableEqb (app_userId a) userId) (apps t)))) ;;
  match found with
  | [] => ret None
  | (a, fav) :: _ =>
      formatted <- gets (fun s => formatRelativeTime rt (outside s) (app_updatedAt a)) ;;
      ret (Some {| fav_app := a; fav_isFavorite := fav;
                   fav_updatedAtFormatted := formatted |})
  end.

Definition setVisibility (visibility : string) (updatedAt : nat) (a : AppRow)
  : AppRow :=
  {| app_id := app_id a; app_userId := app_userId a; app_title := app_title a;
     app_visibility := visibility; app_parentAppId := app_parentAppId a;
     app_updatedAt := updatedAt; app_columns := app_columns a |}.

Definition returningUpdated (a : AppRow) : UpdatedApp :=
  {| updated_id := app_id a; updated_title := app_title a;
     updated_visibility := app_visibility a;
     updated_updatedAt := app_updatedAt a |}.

(** [updateAppVisibility] (AppService.ts:464-509). *)
Definition updateAppVisibility (appId userId visibility : string)
  : Eff (Backend World) AppVisibilityUpdateResult :=
  existingApp <- query rt (fun t =>
    firstn 1 (filter (fun a => String.eqb (app_id a) appId) (apps t))) ;;
  match existingApp with
  | [] => ret {| vis_success := false; vis_error := Some "App not found";
                 vis_app := None |}
  | first :: _ =>
      if negb (nullableEqb (app_userId first) userId) then
        ret {| vis_success := false;
               vis_error := Some "You can only change visibility of your own apps";
               vis_app := None |}
      else
        updatedAt <- newDate rt ;;
        updatedApps <- statement rt (fun t =>
          let hit := fun a => String.eqb (app_id a) appId in
          (map (fun a => returningUpdated (setVisibility visibility updatedAt a))
               (filter hit (apps t)),
           with_apps (updateWhere hit (setVisibility visibility updatedAt) (apps t)) t)) ;;
        match updatedApps with
        | [] => ret {| vis_success := false;
                       vis_error := Some "Failed to update app visibility";
                       vis_app := None |}
        | updated :: _ =>
            ret {| vis_success := true; vis_error := None;
                   vis_app := Some updated |}
        end
  end.

(** [toggleAppStar] (AppService.ts:594-635). *)
Definition toggleAppStar (userId appId : string)
  : Eff (Backend World) StarToggleResult :=
  existingStar <- query rt (fun t =>
    hd_error (filter (starOf userId appId) (stars t))) ;;
  match existingStar with
  | Some existing =>
      statement rt (fun t =>
        (tt, with_stars
               (deleteWhere (fun s => String.eqb (star_id s) (star_id existing))
                  (stars t)) t))
  | None =>
      id <- newId rt ;;
      starredAt <- newDate rt ;;
      statement rt (fun t =>
        (tt, with_stars
               (stars t
                ++ [ {| star_id := id; star_userId := userId; star_appId := appId;
                        star_starredAt := starredAt |} ])%list t))
  end ;;
  starCountResult <- query rt (fun t =>
    Some (countWhere (fun s => String.eqb (star_appId s) appId) (stars t))) ;;
  ret {| isStarred := match existingStar with Some _ => false | None => true end;
         starCount := orDefault starCountResult 0 |}.

(** [recordAppView] (AppService.ts:640-654). *)
Definition recordAppView (appId userId : string) : Eff (Backend World) unit :=
  tryCatch
    (id <- newId rt ;;
     viewedAt <- newDate rt ;;
     statement rt (fun t =>
       (tt, with_appViews
              (appViews t
               ++ [ {| view_id := id; view_appId := appId; view_userId := userId;
                       view_viewedAt := viewedAt |} ])%list t)))
    (fun _ => ret tt).

(** [getAppForFork] (AppService.ts:660-675). *)
Definition getAppForFork (appId userId : string) : Eff (Backend World) ForkLookup :=
  app <- query rt (fun t =>
    hd_error (filter (fun a => String.eqb (app_id a) appId) (apps t))) ;;
  match app with
  | None => ret {| fork_app := None; canFork := false |}
  | Some a =>
      ret {| fork_app := Some a;
             canFork := String.eqb (app_visibility a) "public"
                        || nullableEqb (app_userId a) userId |}
  end.

Definition clearParent (a : AppRow) : AppRow :=
  {| app_id := app_id a; app_userId := app_userId a; app_title := app_title a;
     app_visibility := app_visibility a; app_parentAppId := None;
     app_updatedAt := app_updatedAt a; app_columns := app_columns a |}.

(** [deleteApp] (AppService.ts:1235-1294). *)
Definition deleteApp (appId userId : string) : Eff (Backend World) DeleteResult :=
  tryCatch
    (ownershipResult <- checkAppOwnership appId userId ;;
     if negb (exists_ ownershipResult) then
       ret {| del_success := false; del_error := Some "App not found" |}
     else if negb (isOwner ownershipResult) then
       ret {| del_success := false;
              del_error := Some "You can only delete your own apps" |}
     else
       statement rt (fun t =>
         (tt, with_favorites
                (deleteWhere (fun f => String.eqb (favorite_appId f) appId)
                   (favorites t)) t)) ;;
       statement rt (fun t =>
         (tt, with_stars
                (deleteWhere (fun s => String.eqb (star_appId s) appId) (stars t)) t)) ;;
       statement rt (fun t =>
         (tt, with_appViews
                (deleteWhere (fun v => String.eqb (view_appId v) appId)
                   (appViews t)) t)) ;;
       statement rt (fun t =>
         (tt, with_apps
                (updateWhere (fun a => nullableEqb (app_parentAppId a) appId)
                   clearParent (apps t)) t)) ;;
       deleteResult <- statement rt (fun t =>
         let hit := fun a => String.eqb (app_id a) appId
                             && nullableEqb (app_userId a) userId in
         (map app_id (filter hit (apps t)),
          with_apps (deleteWhere hit (apps t)) t)) ;;
       if Nat.eqb (length deleteResult) 0 then
         ret {| del_success := false;
                del_error :=
                  Some "Failed to delete app - app may have been already deleted" |}
       else ret {| del_success := true; del_error := None |})
    (fun error =>
       service_logger_error "Error deleting app:" error ;;
       ret {| del_success := false;
              del_error := Some "An error occurred while deleting the app" |}).

End Service.

End AppService.

(** ** JavaScript strings and values *)

(** [s.includes(sub)] *)
Fixpoint stringIncludes (sub s : string) : bool :=
  String.prefix sub s
  || match s with
     | EmptyString => false
     | String _ rest => stringIncludes sub rest
     end.

(** Truthiness of a value that may be [undefined]. *)
Definition jsTruthy (v : option JsonValue) : bool :=
  match v with
  | None => false
  | Some (JsonString s) => negb (String.eqb s "")
  | Some (JsonNumber n) => negb (Nat.eqb n 0)
  | Some (JsonBool b) => b
  | Some JsonNull => false
  end.

(** Truthiness of a string that may be [undefined]. *)
Definition truthyString (v : option string) : bool :=
  match v with
  | Some s => negb (String.eqb s "")
  | None => false
  end.

(** [list.includes(v)] for a list of strings and any value: strict equality. *)
Definition includesValue (l : list string) (v : option JsonValue) : bool :=
  match v with
  | Some (JsonString s) => existsb (String.eqb s) l
  | _ => false
  end.

Definition doubleQuote : string := String (ascii_of_nat 34) EmptyString.

(** ** [AppController] (part_000:288-600) *)

Module AppController.

Record AuthUser : Type := { auth_id : string }.

(** [RouteContext]: the authenticated user, if any, and the path parameters. *)
Record RouteContext : Type := {
  ctx_user : option AuthUser;
  pathParams : list (string * string)
}.

(** [createSuccessResponse(data)] and [createErrorResponse(message, status)]
    belong to [BaseController]; a response is represented by the call that
    builds it. *)
Inductive ControllerResponse (T : Type) : Type :=
| SuccessResponse (data : T)
| ErrorResponse (message : string) (statusCode : nat).
Arguments SuccessResponse {T} data.
Arguments ErrorResponse {T} message statusCode.

Record SingleAppData : Type := { single_app : AppService.AppWithFavoriteStatus }.

Record UpdateAppVisibilityData : Type := {
  visibility_app : AppService.UpdatedApp;
  visibility_message : string
}.

Record AppDeleteData : Type := {
  delete_success : bool;
  delete_message : string
}.

(** The result of [parseJsonBody]: the parsed body (an object, or nothing when
    the body is not an object), or the response to send when parsing failed
    (the source asserts with [!] that it is present). *)
Inductive BodyResult (T : Type) : Type :=
| BodyParsed (data : option JsonObject)
| BodyRejected (response : ControllerResponse T).
Arguments BodyParsed {T} data.
Arguments BodyRejected {T} response.

Section Handlers.

Variable World : Type.
Variable rt : Runtime World.

Variable Request : Type.

(** [AppController.parseJsonBody] is inherited from [BaseController]; it reads
    the request and nothing of the store. *)
Variable parseJsonBody :
  Request -> Completion (BodyResult UpdateAppVisibilityData).

(** [user.id], where [user] is [context.user!]: reading [id] of a missing user
    throws a [TypeError]. *)
Definition userIdOf (context : RouteContext) : Eff (Backend World) string :=
  match ctx_user context with
  | Some u => ret (auth_id u)
  | None => throw (OtherError "TypeError" "Cannot read properties of undefined (reading 'id')")
  end.

(** [context.pathParams.id] *)
Definition pathId (context : RouteContext) : option string :=
  lookup "id" (pathParams context).

(** [toggleFavorite] (part_000:350-375). *)
Definition toggleFavorite (context : RouteContext)
  : Eff (Backend World) (ControllerResponse AppService.FavoriteToggleResult) :=
  tryCatch
    (let appId := pathId context in
     if negb (truthyString appId) then
       ret (ErrorResponse "App ID is required" 400)
     else
       let appId := orDefault appId "" in
       userId <- userIdOf context ;;
       ownershipResult <- AppService.checkAppOwnership rt appId userId ;;
       if negb (AppService.exists_ ownershipResult) then
         ret (ErrorResponse "App not found" 404)
       else
         userId' <- userIdOf context ;;
         result <- AppService.toggleAppFavorite rt userId' appId ;;
         ret (SuccessResponse result))
    (fun error =>
       service_logger_error "Error toggling favorite:" error ;;
       ret (ErrorResponse "Failed to toggle favorite" 500)).

(** [getApp] (part_000:501-523). *)
Definition getApp (context : RouteContext)
  : Eff (Backend World) (ControllerResponse SingleAppData) :=
  tryCatch
    (let appId := pathId context in
     if negb (truthyString appId) then
       ret (ErrorResponse "App ID is required" 400)
     else
       let appId := orDefault appId "" in
       userId <- userIdOf context ;;
       app <- AppService.getSingleAppWithFavoriteStatus rt appId userId ;;
       match app with
       | None => ret (ErrorResponse "App not found" 404)
       | Some a => ret (SuccessResponse {| single_app := a |})
       end)
    (fun error =>
       service_logger_error "Error fetching app:" error ;;
       ret (ErrorResponse "Failed to fetch app" 500)).

Definition invalidVisibilityMessage : string :=
  "Visibility must be either " ++ doubleQuote ++ "private" ++ doubleQuote
    ++ " or " ++ doubleQuote ++ "public" ++ doubleQuote.

(** [visibility as Visibility], once validated. *)
Definition asVisibility (v : option JsonValue) : string :=
  match v with
  | Some (JsonString s) => s
  | _ => ""
  end.

(** The status code chosen for a failed service result
    (part_000:553-554, 586-587). *)
Definition failureStatus (error : option string) (ownershipPhrase : string) : nat :=
  match error with
  | Some e =>
      if String.eqb e "App not found" then 404
      else if stringIncludes ownershipPhrase e then 403
      else 500
  | None => 500
  end.

(** [error || fallback] *)
Definition orMessage (error : option string) (fallback : string) : string :=
  match error with
  | Some e => if String.eqb e "" then fallback else e
  | None => fallback
  end.

(** [updateAppVisibility] (part_000:526-570). *)
Definition updateAppVisibility (request : Request) (context : RouteContext)
  : Eff (Backend World) (ControllerResponse UpdateAppVisibilityData) :=
  tryCatch
    (let appId := pathId context in
     if negb (truthyString appId) then
       ret (ErrorResponse "App ID is required" 400)
     else
       let appId := orDefault appId "" in
       bodyResult <- liftCompletion (parseJsonBody request) ;;
       match bodyResult with
       | BodyRejected response => ret response
       | BodyParsed data =>
           let visibility :=
             match data with
             | Some o => lookup "visibility" o
             | None => None
             end in
           if negb (jsTruthy visibility)
              || negb (includesValue ["private"; "public"] visibility)
           then ret (ErrorResponse invalidVisibilityMessage 400)
           else
             let validVisibility := asVisibility visibility in
             userId <- userIdOf context ;;
             result <- AppService.updateAppVisibility rt appId userId
                         validVisibility ;;
             if negb (AppService.vis_success result) then
               ret (ErrorResponse
                      (orMessage (AppService.vis_error result)
                         "Failed to update app visibility")
                      (failureStatus (AppService.vis_error result)
                         "only change visibility of your own apps"))
             else
               match AppService.vis_app result with
               | Some app =>
                   ret (SuccessResponse
                          {| visibility_app := app;
                             visibility_message :=
                               "App visibility updated to " ++ validVisibility |})
               | None =>
                   throw (OtherError "TypeError"
                            "Cannot read properties of undefined (reading 'visibility')")
               end
       end)
    (fun error =>
       service_logger_error "Error updating app visibility:" error ;;
       ret (ErrorResponse "Failed to update app visibility" 500)).

(** [deleteApp] (part_000:573-600). *)
Definition deleteApp (context : RouteContext)
  : Eff (Backend World) (ControllerResponse AppDeleteData) :=
  tryCatch
    (let appId := pathId context in
     if negb (truthyString appId) then
       ret (ErrorResponse "App ID is required" 400)
     else
       let appId := orDefault appId "" in
       userId <- userIdOf context ;;
       result <- AppService.deleteApp rt appId userId ;;
       if negb (AppService.del_success result) then
         ret (ErrorResponse
                (orMessage (AppService.del_error result) "Failed to delete app")
                (failureStatus (AppService.del_error result)
                   "only delete your own apps"))
       else
         ret (SuccessResponse
                {| delete_success := true;
                   delete_message := "App deleted successfully" |}))
    (fun error =>
       service_logger_error "Error deleting app:" error ;;
       ret (ErrorResponse "Failed to delete app" 500)).

End Handlers.

End AppController.

(** ** [UserService] (part_001:376-638) *)

Module UserService.

(** The [profileData] argument of [updateUserProfileWithValidation]. *)
Record ProfileData : Type := {
  username : option string;
  displayName : option string;
  bio : option string;
  theme : option string
}.

Record UpdateResult : Type := {
  success : bool;
  message : string
}.

(** A character of the class [[a-zA-Z0-9_-]]. *)
Definition isUsernameChar (c : ascii) : bool :=
  let n := nat_of_ascii c in
  (Nat.leb 97 n && Nat.leb n 122)
  || (Nat.leb 65 n && Nat.leb n 90)
  || (Nat.leb 48 n && Nat.leb n 57)
  || Nat.eqb n 95
  || Nat.eqb n 45.

Fixpoint allChars (p : ascii -> bool) (s : string) : bool :=
  match s with
  | EmptyString => true
  | String c rest => p c && allChars p rest
  end.

(** [/^[a-zA-Z0-9_-]+$/.test(username)] *)
Definition usernamePattern (username : string) : bool :=
  negb (String.eqb username "") && allChars isUsernameChar username.

Definition lowerChar (c : ascii) : ascii :=
  let n := nat_of_ascii c in
  if Nat.leb 65 n && Nat.leb n 90 then ascii_of_nat (n + 32) else c.

(** [s.toLowerCase()] on the letters A to Z; the service applies it only to
    strings that passed [usernamePattern]. *)
Fixpoint toLowerCase (s : string) : string :=
  match s with
  | EmptyString => EmptyString
  | String c rest => String (lowerChar c) (toLowerCase rest)
  end.

Definition reserved : list string :=
  ["admin"; "api"; "www"; "mail"; "ftp"; "root"; "support"; "help"; "about";
   "terms"; "privacy"].

(** [value || undefined] in a [set]: a missing or empty value leaves the
    column as it is. *)
Definition setColumn (value : option string) (column : option string)
  : option string :=
  if truthyString value then value else column.

Definition applyProfile (profileData : ProfileData) (updatedAt : nat) (u : UserRow)
  : UserRow :=
  {| user_id := user_id u;
     user_username := setColumn (username profileData) (user_username u);
     user_displayName := setColumn (displayName profileData) (user_displayName u);
     user_bio := setColumn (bio profileData) (user_bio u);
     user_theme := setColumn (theme profileData) (user_theme u);
     user_updatedAt := updatedAt;
     user_columns := user_columns u |}.

Section Service.

Variable World : Type.
Variable rt : Runtime World.

(** [isUsernameAvailable] (part_001:507-520). *)
Definition isUsernameAvailable (name : string) (excludeUserId : option string)
  : Eff (Backend World) bool :=
  existingUser <- query rt (fun t =>
    hd_error
      (filter (fun u =>
                 nullableEqb (user_username u) name
                 && (if truthyString excludeUserId
                     then negb (String.eqb (user_id u) (orDefault excludeUserId ""))
                     else true))
              (users t))) ;;
  ret (match existingUser with Some _ => false | None => true end).

(** The update that ends [updateUserProfileWithValidation]
    (part_001:577-589). *)
Definition updateProfileRow (userId : string) (profileData : ProfileData)
  : Eff (Backend World) UpdateResult :=
  updatedAt <- newDate rt ;;
  statement rt (fun t =>
    (tt, with_users
           (updateWhere (fun u => String.eqb (user_id u) userId)
              (applyProfile profileData updatedAt) (users t)) t)) ;;
  ret {| success := true; message := "Profile updated successfully" |}.

(** [updateUserProfileWithValidation] (part_001:525-590). *)
Definition updateUserProfileWithValidation (userId : string)
  (profileData : ProfileData) : Eff (Backend World) UpdateResult :=
  if truthyString (username profileData) then
    let name := orDefault (username profileData) "" in
    if negb (usernamePattern name) then
      ret {| success := false;
             message := "Username can only contain letters, numbers, underscores, and hyphens" |}
    else if Nat.ltb (String.length name) 3 || Nat.ltb 30 (String.length name) then
      ret {| success := false;
             message := "Username must be between 3 and 30 characters" |}
    else if existsb (String.eqb (toLowerCase name)) reserved then
      ret {| success := false; message := "Username is reserved" |}
    else
      existingUser <- query rt (fun t =>
        hd_error (filter (fun u => nullableEqb (user_username u) name) (users t))) ;;
      match existingUser with
      | Some existing =>
          if negb (String.eqb (user_id existing) userId) then
            ret {| success := false; message := "Username already taken" |}
          else updateProfileRow userId profileData
      | None => updateProfileRow userId profileData
      end
  else updateProfileRow userId profileData.

End Service.

End UserService.

(** ** Vocabulary of the store's statements *)

(** The database throws on no statement. *)
Definition healthy {World : Type} (rt : Runtime World) : Prop :=
  forall w, fst (d1Fault rt w) = None.

(** The user has the app among their favorites. *)
Definition isFavorited (userId appId : string) (t : Tables) : bool :=
  existsb (AppService.favoriteOf userId appId) (favorites t).

(** The user has starred the app. *)
Definition hasStarred (userId appId : string) (t : Tables) : bool :=
  existsb (AppService.starOf userId appId) (stars t).

Definition starsOfApp (appId : string) (t : Tables) : nat :=
  countWhere (fun s => String.eqb (star_appId s) appId) (stars t).

(** The row that [.get()] and [.limit(1)] find for an app id. *)
Definition firstApp (appId : string) (t : Tables) : option AppRow :=
  hd_error (filter (fun a => String.eqb (app_id a) appId) (apps t)).

(** The first row with this id, if any, belongs to the user. *)
Definition ownsApp (userId appId : string) (t : Tables) : bool :=
  match firstApp appId t with
  | Some a => nullableEqb (app_userId a) userId
  | None => false
  end.

(** No two users with different ids carry the same username. *)
Definition usernamesUnique (t : Tables) : Prop :=
  forall u1 u2 n,
    In u1 (users t) -> In u2 (users t) ->
    user_username u1 = Some n -> user_username u2 = Some n ->
    user_id u1 = user_id u2.

(** ** A small concrete store *)

Definition demo_runtime : Runtime nat :=
  {| d1Fault := fun w => (None, S w);
     generateId := fun w => (Normal ("id-" ++ String (ascii_of_nat (48 + w)) ""), S w);
     currentDate := fun w => 1000 + w;
     formatRelativeTime := fun _ _ => "just now" |}.

(** A database that throws on every statement. *)
Definition demo_brokenRuntime : Runtime nat :=
  {| d1Fault := fun w => (Some (OtherError "Error" "D1_ERROR: no such table"), S w);
     generateId := fun w => (Normal "id-x", S w);
     currentDate := fun w => 1000 + w;
     formatRelativeTime := fun _ _ => "just now" |}.

(** A database that throws on the statement issued in world [k] only. *)
Definition demo_runtimeFailingAt (k : nat) : Runtime nat :=
  {| d1Fault := fun w =>
       (if Nat.eqb w k then Some (OtherError "Error" "D1_ERROR: timeout") else None,
        S w);
     generateId := fun w => (Normal "id-x", S w);
     currentDate := fun w => 1000 + w;
     formatRelativeTime := fun _ _ => "just now" |}.

Definition demo_app (id : string) (owner : option string) (visibility : string)
  (parent : option string) : AppRow :=
  {| app_id := id; app_userId := owner; app_title := "App " ++ id;
     app_visibility := visibility; app_parentAppId := parent;
     app_updatedAt := 10; app_columns := [("framework", JsonString "react")] |}.

Definition demo_user (id : string) (name : option string) : UserRow :=
  {| user_id := id; user_username := name; user_displayName := None;
     user_bio := None; user_theme := None; user_updatedAt := 5;
     user_columns := [] |}.

Definition demo_tables : Tables :=
  {| apps := [ demo_app "a1" (Some "alice") "private" None;
               demo_app "a2" (Some "bob") "public" (Some "a1");
               demo_app "a3" None "public" (Some "a1") ];
     favorites := [ {| favorite_id := "f1"; favorite_userId := "alice";
                       favorite_appId := "a2"; favorite_createdAt := 20 |};
                    {| favorite_id := "f2"; favorite_userId := "bob";
                       favorite_appId := "a1"; favorite_createdAt := 21 |} ];
     stars := [ {| star_id := "s1"; star_userId := "bob"; star_appId := "a1";
                   star_starredAt := 30 |};
                {| star_id := "s2"; star_userId := "carol"; star_appId := "a1";
                   star_starredAt := 31 |} ];
     appViews := [ {| view_id := "v1"; view_appId := "a1"; view_userId := "bob";
                      view_viewedAt := 40 |};
                   {| view_id := "v2"; view_appId := "a2"; view_userId := "alice";
                      view_viewedAt := 41 |};
                   {| view_id := "v3"; view_appId := "a1"; view_userId := "carol";
                      view_viewedAt := 42 |} ];
     appLikes := [ {| like_appId := "a1"; like_columns := [] |} ];
     users := [ demo_user "alice" (Some "alice_w"); demo_user "bob" (Some "bobby");
                demo_user "carol" None ] |}.

Definition demo_backend : Backend nat :=
  {| tables := demo_tables; outside := 0; backend_logs := [] |}.

Definition demo_context (who : option string) (appId : option string)
  : AppController.RouteContext :=
  {| AppController.ctx_user :=
       option_map (fun id => {| AppController.auth_id := id |}) who;
     AppController.pathParams :=
       match appId with Some id => [("id", id)] | None => [] end |}.

(** Request bodies are given directly as the result of parsing them. *)
Definition demo_parseJsonBody
  (request : AppController.BodyResult AppController.UpdateAppVisibilityData)
  : Completion (AppController.BodyResult AppController.UpdateAppVisibilityData) :=
  Normal request.

(** A profile form that sends an empty display name and no theme. *)
Definition demo_profile (name bio : option string) : UserService.ProfileData :=
  {| UserService.username := name; UserService.displayName := Some "";
     UserService.bio := bio; UserService.theme := None |}.

(** A request body that parsed to an object with a [visibility] string. *)
Definition demo_visibilityBody (v : string)
  : AppController.BodyResult AppController.UpdateAppVisibilityData :=
  AppController.BodyParsed (Some [("visibility", JsonString v)]).

(** The tables that the five statements of a [deleteApp] that went through
    leave behind (AppService.ts:1251-1283). *)
Definition afterDelete (appId userId : string) (t : Tables) : Tables :=
  {| apps :=
       deleteWhere (fun a => String.eqb (app_id a) appId
                             && nullableEqb (app_userId a) userId)
         (updateWhere (fun a => nullableEqb (app_parentAppId a) appId)
            AppService.clearParent (apps t));
     favorites := deleteWhere (fun f => String.eqb (favorite_appId f) appId)
                    (favorites t);
     stars := deleteWhere (fun s => String.eqb (star_appId s) appId) (stars t);
     appViews := deleteWhere (fun v => String.eqb (view_appId v) appId) (appViews t);
     appLikes := appLikes t;
     users := users t |}.

(** * Properties *)

Lemma append_empty_r : forall s : string, s ++ "" = s.
Proof.
  induction s as [| a s IH]; simpl; [reflexivity | now rewrite IH].
Qed.

Lemma append_assoc : forall a b c : string, (a ++ b) ++ c = a ++ (b ++ c).
Proof.
  induction a as [| x a IH]; intros b c; simpl; [reflexivity | now rewrite IH].
Qed.

Lemma last_cons_default : forall (A : Type) (l : list A) (a d : A),
  last (a :: l) d = last l a.
Proof.
  intros A l; induction l as [| b l IH]; intros a d; [reflexivity |].
  change (last (a :: b :: l) d) with (last (b :: l) d).
  now rewrite !IH.
Qed.

Lemma lookup_In : forall (V : Type) (key : string) (o : list (string * V)) (v : V),
  lookup key o = Some v -> In (key, v) o.
Proof.
  induction o as [| [k w] o IH]; intros v H; simpl in H; [discriminate |].
  destruct (String.eqb key k) eqn:E.
  - apply String.eqb_eq in E. inversion H; subst. now left.
  - right. now apply IH.
Qed.

Section TurnProperties.

Variable World : Type.
Variable generateConversationId : Eff World string.
Variables WebSearchArgs WebSearchResult WeatherArgs WeatherResult : Type.
Variable toolWebSearchDefinition : ToolDefinition World WebSearchArgs WebSearchResult.
Variable toolWeatherDefinition : ToolDefinition World WeatherArgs WeatherResult.
Variables Env Context InferenceContext : Type.
Variable SYSTEM_PROMPT : string.
Variable getSystemPromptWithProjectContext :
  string -> Context -> bool -> Completion (list Message).
Variable executeInference :
  InferenceRequest Env InferenceContext ->
  Engine World WebSearchArgs WebSearchResult WeatherArgs WeatherResult.

Local Abbreviation tools := (turnTools toolWebSearchDefinition toolWeatherDefinition).
Local Abbreviation events_of := (callEvents toolWebSearchDefinition toolWeatherDefinition).
Local Abbreviation run ai := (runEngine (onChunk ai) (tools ai)).

Lemma onChunk_eq : forall ai chunk (s : State World),
  onChunk ai chunk s
  = (Normal tt,
     {| world := world s;
        logs := (logs s ++ [LogInfo "Processing user message chunk"])%list;
        events := (events s ++ [ {| cb_message := chunk; cb_conversationId := ai;
                                    cb_isStreaming := true; cb_tool := None |} ])%list;
        extractedUserResponse := extractedUserResponse s ++ chunk;
        extractedEnhancedRequest := extractedEnhancedRequest s |}).
Proof. reflexivity. Qed.

Lemma callOnStart_eq : forall ai t args (s : State World),
  callOnStart (tools ai t) args s
  = (Normal tt,
     push_event (lifecycleEvent toolWebSearchDefinition toolWeatherDefinition
                   ai t status_start args) s).
Proof. intros ai t; destruct t; reflexivity. Qed.

Lemma callOnComplete_eq : forall ai t args r (s : State World),
  callOnComplete (tools ai t) args r s
  = (Normal tt,
     push_event (lifecycleEvent toolWebSearchDefinition toolWeatherDefinition
                   ai t status_success args) s).
Proof. intros ai t; destruct t; reflexivity. Qed.

(** An implementation leaves the callback's record and the response buffer
    alone; only the Modification-Queue Tool assigns the captured request. *)
Lemma implementation_effects : forall ai t args (s : State World) r s1,
  implementation (tools ai t) args s = (r, s1) ->
  events s1 = events s
  /\ extractedUserResponse s1 = extractedUserResponse s
  /\ extractedEnhancedRequest s1
     = last (editArgOf WebSearchArgs WeatherArgs t args) (extractedEnhancedRequest s).
Proof.
  intros ai t args s r s1 H; destruct t; simpl in H.
  - unfold liftWorld in H.
    destruct (implementation toolWebSearchDefinition args (world s)) as [c0 w0].
    inversion H; subst; simpl; auto.
  - unfold liftWorld in H.
    destruct (implementation toolWeatherDefinition args (world s)) as [c0 w0].
    inversion H; subst; simpl; auto.
  - inversion H; subst; simpl; auto.
Qed.

(** What an engine run does to the turn: the callback receives exactly the
    events of the calls made, the response buffer grows by the chunks, and
    the captured request is the argument of the last invocation of the
    Modification-Queue Tool, if any. *)
Lemma runEngine_effects : forall ai e s tr c s',
  run ai e s = (tr, (c, s')) ->
  events s' = (events s ++ flat_map (events_of ai) tr)%list
  /\ extractedUserResponse s'
     = extractedUserResponse s ++ joinChunks (chunksOf tr)
  /\ extractedEnhancedRequest s'
     = last (queueRequests tr) (extractedEnhancedRequest s).
Proof.
  intros ai e; induction e as [r | err | f k IH | chunk k IH | t args k IH
                              | t args k IH | t args r k IH];
    intros s tr c s' H; cbn [runEngine] in H.
  - inversion H; subst; simpl. now rewrite app_nil_r, append_empty_r.
  - inversion H; subst; simpl. now rewrite app_nil_r, append_empty_r.
  - apply IH in H. exact H.
  - rewrite onChunk_eq in H.
    destruct (runEngine _ _ k _) as [tr1 out1] eqn:E.
    inversion H; subst; clear H. apply IH in E; simpl in E.
    destruct E as (He & Hu & Hq); simpl.
    rewrite He, Hu, Hq, <- app_assoc, append_assoc. auto.
  - rewrite callOnStart_eq in H.
    destruct (runEngine _ _ k _) as [tr1 out1] eqn:E.
    inversion H; subst; clear H. apply IH in E; simpl in E.
    destruct E as (He & Hu & Hq); simpl.
    rewrite He, Hu, Hq, <- app_assoc. auto.
  - destruct (implementation (tools ai t) args s) as [r s1] eqn:Ei.
    destruct (runEngine _ _ (k r) s1) as [tr1 out1] eqn:E.
    inversion H; subst; clear H. apply IH in E.
    destruct E as (He & Hu & Hq).
    apply implementation_effects in Ei. destruct Ei as (Ie & Iu & Iq).
    rewrite He, Hu, Hq, Ie, Iu, Iq. repeat split; try reflexivity.
    unfold queueRequests; cbn [flat_map queueRequestOfCall].
    destruct t; try reflexivity.
    symmetry; exact (last_cons_default _ _ _).
  - rewrite callOnComplete_eq in H.
    destruct (runEngine _ _ k _) as [tr1 out1] eqn:E.
    inversion H; subst; clear H. apply IH in E; simpl in E.
    destruct E as (He & Hu & Hq); simpl.
    rewrite He, Hu, Hq, <- app_assoc. auto.
Qed.

Local Abbreviation exec :=
  (execute generateConversationId toolWebSearchDefinition toolWeatherDefinition
     SYSTEM_PROMPT getSystemPromptWithProjectContext executeInference).
Local Abbreviation body :=
  (executeBody generateConversationId toolWebSearchDefinition toolWeatherDefinition
     SYSTEM_PROMPT getSystemPromptWithProjectContext executeInference).
Local Abbreviation handler := (executeHandler generateConversationId).
Local Abbreviation started s := (push_log (LogInfo "Processing user message") s).

(** The [try] block, step by step. *)
Lemma executeBody_eq : forall inputs options (s : State World),
  body inputs options s =
  match getSystemPromptWithProjectContext SYSTEM_PROMPT (context options) false with
  | Thrown e => (Thrown e, s)
  | Normal sp =>
    match generateConversationId (world s) with
    | (Thrown e, w1) => (Thrown e, set_world w1 s)
    | (Normal uid, w1) =>
      match generateConversationId w1 with
      | (Thrown e, w2) =>
          (Thrown e, set_world w2 (set_extractedEnhancedRequest ""
                                     (set_extractedUserResponse "" s)))
      | (Normal ai, w2) =>
        match run ai (executeInference (turnRequest inputs options sp uid))
                (beforeInference s w2) with
        | (_, (Thrown e, s3)) => (Thrown e, s3)
        | (_, (Normal r, s3)) =>
          let s4 := push_log (LogInfo "Successfully processed user message") s3 in
          match generateConversationId (world s3) with
          | (Thrown e, w4) => (Thrown e, set_world w4 s4)
          | (Normal aid, w4) =>
              (Normal
                 {| conversationResponse :=
                      {| enhancedUserRequest := extractedEnhancedRequest s3;
                         userResponse := extractedUserResponse s3 |};
                    messages :=
                      ((pastMessages inputs ++ [userEntry inputs uid])
                         ++ [assistantEntry (result_string r) aid])%list |},
               set_world w4 s4)
          end
        end
      end
    end
  end.
Proof.
  intros inputs options s.
  unfold executeBody, bind, liftCompletion, liftWorld, awaitExecuteInference.
  destruct (getSystemPromptWithProjectContext _ _ _) as [sp | e]; [| reflexivity].
  destruct (generateConversationId (world s)) as [[uid | e] w1]; [| reflexivity].
  cbn [modify world set_extractedUserResponse set_extractedEnhancedRequest set_world].
  destruct (generateConversationId w1) as [[ai | e] w2]; [| reflexivity].
  cbn [logger_info modify].
  change (push_log _ (push_log _ (set_world w2 _))) with (beforeInference s w2).
  change {| req_env := env options; req_messages := _; req_agentActionName := _;
            req_context := _; req_chunk_size := _ |}
    with (turnRequest inputs options sp uid).
  destruct (runEngine _ _ _ _) as [tr [[r | e] s3]]; cbn [snd]; [| reflexivity].
  cbn [gets world push_log].
  destruct (generateConversationId (world s3)) as [[aid | e] w4]; reflexivity.
Qed.

(** The [catch] block, step by step. *)
Lemma executeHandler_eq : forall inputs e (s : State World),
  handler inputs e s =
  let s1 := push_log (LogError "Error processing user message:" e) s in
  if isFatal e then (Thrown e, s1)
  else
    match generateConversationId (world s) with
    | (Thrown e', w1) => (Thrown e', set_world w1 s1)
    | (Normal uid, w1) =>
      match generateConversationId w1 with
      | (Thrown e', w2) => (Thrown e', set_world w2 s1)
      | (Normal aid, w2) =>
          (Normal
             {| conversationResponse :=
                  {| enhancedUserRequest := "User request: " ++ userMessage inputs;
                     userResponse := FALLBACK_USER_RESPONSE |};
                messages :=
                  (pastMessages inputs
                     ++ [userEntry inputs uid;
                         assistantEntry FALLBACK_USER_RESPONSE aid])%list |},
           set_world w2 s1)
      end
    end.
Proof.
  intros inputs e s.
  unfold executeHandler, bind, logger_error, modify, isFatal.
  destruct (instanceofRateLimitExceededError e || instanceofSecurityError e);
    [reflexivity |].
  unfold liftWorld, bind; cbn [world push_log].
  destruct (generateConversationId (world s)) as [[uid | e'] w1]; [| reflexivity].
  cbn [world set_world].
  destruct (generateConversationId w1) as [[aid | e'] w2]; reflexivity.
Qed.

Lemma execute_eq : forall inputs options (s : State World),
  exec inputs options s =
  match body inputs options (started s) with
  | (Normal out, s') => (Normal out, s')
  | (Thrown e, s') => handler inputs e s'
  end.
Proof. reflexivity. Qed.

(** The success path: the prompt is assembled, the ids are generated and the
    engine returns normally. *)
Lemma execute_success :
  forall inputs options (s : State World) sp uid w1 ai w2 tr r s3 aid w4,
    getSystemPromptWithProjectContext SYSTEM_PROMPT (context options) false
    = Normal sp ->
    generateConversationId (world s) = (Normal uid, w1) ->
    generateConversationId w1 = (Normal ai, w2) ->
    run ai (executeInference (turnRequest inputs options sp uid))
      (beforeInference (started s) w2) = (tr, (Normal r, s3)) ->
    generateConversationId (world s3) = (Normal aid, w4) ->
    exec inputs options s
    = (Normal
         {| conversationResponse :=
              {| enhancedUserRequest := last (queueRequests tr) "";
                 userResponse := joinChunks (chunksOf tr) |};
            messages :=
              (pastMessages inputs
                 ++ [userEntry inputs uid;
                     assistantEntry (result_string r) aid])%list |},
       set_world w4
         (push_log (LogInfo "Successfully processed user message") s3))
    /\ events s3 = (events s ++ flat_map (events_of ai) tr)%list.
Proof.
  intros inputs options s sp uid w1 ai w2 tr r s3 aid w4 Hsp H1 H2 Hrun H3.
  rewrite execute_eq, executeBody_eq, Hsp. cbn [world push_log].
  rewrite H1, H2, Hrun. cbv zeta. rewrite H3.
  apply runEngine_effects in Hrun. destruct Hrun as (He & Hu & Hq).
  simpl in He, Hu, Hq. rewrite Hu, Hq, <- app_assoc. simpl. auto.
Qed.

Lemma streamedChunks_events : forall ai tr,
  streamedChunks (flat_map (events_of ai) tr) = chunksOf tr.
Proof.
  intros ai tr; induction tr as [| c tr IH]; [reflexivity |].
  unfold streamedChunks, chunksOf in *. cbn [flat_map].
  rewrite filter_app, map_app, IH. now destruct c.
Qed.

Lemma events_emit_no_error : forall ai tr,
  Forall emitsNoErrorStatus (flat_map (events_of ai) tr).
Proof.
  intros ai tr; induction tr as [| c tr IH]; [constructor |].
  cbn [flat_map]. apply Forall_app; split; [| exact IH].
  destruct c; repeat constructor; unfold emitsNoErrorStatus; simpl; discriminate.
Qed.

Lemma events_carry_turn_id : forall ai tr,
  Forall (fun ev => cb_conversationId ev = ai) (flat_map (events_of ai) tr).
Proof.
  intros ai tr; induction tr as [| c tr IH]; [constructor |].
  cbn [flat_map]. apply Forall_app; split; [| exact IH].
  destruct c; repeat constructor.
Qed.

(** In every run of [execute] the callback receives nothing, or the events of
    one engine run. *)
Lemma execute_events : forall inputs options (s : State World) c s',
  exec inputs options s = (c, s') ->
  exists ai tr, events s' = (events s ++ flat_map (events_of ai) tr)%list.
Proof.
  intros inputs options s c s' H.
  assert (Hh : forall e sb c1 s1,
             handler inputs e sb = (c1, s1) -> events s1 = events sb).
  { intros e sb c1 s1 Hh. rewrite executeHandler_eq in Hh. cbv zeta in Hh.
    destruct (isFatal e); [inversion Hh; reflexivity |].
    destruct (generateConversationId (world sb)) as [[uid | e1] w1];
      [| inversion Hh; reflexivity].
    destruct (generateConversationId w1) as [[aid | e1] w2];
      inversion Hh; reflexivity. }
  assert (Hnil : forall sb : State World, events sb = events s ->
             exists ai tr,
               events sb = (events s ++ flat_map (events_of ai) tr)%list).
  { intros sb E. exists "", []. now rewrite E, app_nil_r. }
  rewrite execute_eq, executeBody_eq in H.
  destruct (getSystemPromptWithProjectContext _ _ _) as [sp | e].
  2:{ apply Hh in H. apply Hnil. exact H. }
  cbn [world push_log] in H.
  destruct (generateConversationId (world s)) as [[uid | e] w1].
  2:{ apply Hh in H. apply Hnil. exact H. }
  destruct (generateConversationId w1) as [[ai | e] w2].
  2:{ apply Hh in H. apply Hnil. exact H. }
  destruct (runEngine _ _ _ _) as [tr [[r | e] s3]] eqn:Erun;
    apply runEngine_effects in Erun; destruct Erun as (He & _ & _);
    simpl in He.
  - cbv zeta in H.
    destruct (generateConversationId (world s3)) as [[aid | e] w4].
    + inversion H; subst. exists ai, tr. exact He.
    + apply Hh in H. exists ai, tr. simpl in H. now rewrite H.
  - apply Hh in H. exists ai, tr. now rewrite H.
Qed.

(** C1. Whenever [execute] returns, on the success path as on the fallback
    path and whatever the engine did with the tools, the returned [messages]
    are [pastMessages], unchanged and in order, followed by one user entry
    holding the user message and then one assistant entry: two more entries
    than [pastMessages].  With an id generator that returns normally,
    [execute] does return, unless it throws a fatal error. *)
Theorem execute_appends_user_then_assistant :
  forall inputs options (s : State World),
    (forall out s',
        exec inputs options s = (Normal out, s') ->
        exists uid text aid,
          messages out
          = (pastMessages inputs
               ++ [userEntry inputs uid; assistantEntry text aid])%list
          /\ length (messages out) = length (pastMessages inputs) + 2)
    /\ (alwaysGenerates generateConversationId ->
        (exists out s', exec inputs options s = (Normal out, s'))
        \/ (exists e s', exec inputs options s = (Thrown e, s')
                         /\ isFatal e = true)).
Proof.
  intros inputs options s; split.
  - intros out s' H. rewrite execute_eq, executeBody_eq in H.
    assert (Hlen : forall u a,
               length (pastMessages inputs ++ [u; a])%list
               = length (pastMessages inputs) + 2)
      by (intros; rewrite length_app; reflexivity).
    assert (Hfall : forall e sb, handler inputs e sb = (Normal out, s') ->
               exists uid text aid,
                 messages out
                 = (pastMessages inputs
                      ++ [userEntry inputs uid; assistantEntry text aid])%list
                 /\ length (messages out) = length (pastMessages inputs) + 2).
    { intros e sb Hh. rewrite executeHandler_eq in Hh. cbv zeta in Hh.
      destruct (isFatal e); [discriminate |].
      destruct (generateConversationId (world sb)) as [[uid | e1] w1];
        [| discriminate].
      destruct (generateConversationId w1) as [[aid | e1] w2]; [| discriminate].
      inversion Hh; subst; simpl.
      exists uid, FALLBACK_USER_RESPONSE, aid. split; [reflexivity | apply Hlen]. }
    destruct (getSystemPromptWithProjectContext _ _ _) as [sp | e];
      [| eapply Hfall; eassumption].
    cbn [world push_log] in H.
    destruct (generateConversationId (world s)) as [[uid | e] w1];
      [| eapply Hfall; eassumption].
    destruct (generateConversationId w1) as [[ai | e] w2];
      [| eapply Hfall; eassumption].
    destruct (runEngine _ _ _ _) as [tr [[r | e] s3]];
      [| eapply Hfall; eassumption].
    cbv zeta in H.
    destruct (generateConversationId (world s3)) as [[aid | e] w4];
      [| eapply Hfall; eassumption].
    inversion H; subst; simpl.
    exists uid, (result_string r), aid. rewrite <- app_assoc. simpl.
    split; [reflexivity | apply Hlen].
  - intros Hgen. rewrite execute_eq.
    destruct (body inputs options (started s)) as [[out | e] sb] eqn:Eb.
    + left; eauto.
    + rewrite executeHandler_eq. cbv zeta.
      destruct (isFatal e) eqn:Ef.
      * right; eauto.
      * destruct (Hgen (world sb)) as (uid & w1 & E1); rewrite E1.
        destruct (Hgen w1) as (aid & w2 & E2); rewrite E2.
        left; eauto.
Qed.

(** C3. When the engine call throws a [RateLimitExceededError] or a
    [SecurityError] (more generally, when the [try] block does), [execute]
    throws that very error and so returns no output.  With an id generator
    that returns normally, an error thrown by [execute] is always one of these
    two kinds, and it is the error the [try] block threw. *)
Theorem execute_rethrows_fatal :
  forall inputs options (s : State World),
    (forall sp uid w1 ai w2 tr e s3,
        getSystemPromptWithProjectContext SYSTEM_PROMPT (context options) false
        = Normal sp ->
        generateConversationId (world s) = (Normal uid, w1) ->
        generateConversationId w1 = (Normal ai, w2) ->
        run ai (executeInference (turnRequest inputs options sp uid))
          (beforeInference (started s) w2) = (tr, (Thrown e, s3)) ->
        isFatal e = true ->
        exec inputs options s
        = (Thrown e, push_log (LogError "Error processing user message:" e) s3))
    /\ (forall e sb,
        body inputs options (started s) = (Thrown e, sb) ->
        isFatal e = true ->
        exec inputs options s
        = (Thrown e, push_log (LogError "Error processing user message:" e) sb))
    /\ (alwaysGenerates generateConversationId ->
        forall e s',
          exec inputs options s = (Thrown e, s') ->
          isFatal e = true
          /\ exists sb, body inputs options (started s) = (Thrown e, sb)).
Proof.
  intros inputs options s.
  assert (Hbody : forall e sb,
             body inputs options (started s) = (Thrown e, sb) ->
             isFatal e = true ->
             exec inputs options s
             = (Thrown e, push_log (LogError "Error processing user message:" e) sb)).
  { intros e sb Hb Hf. rewrite execute_eq, Hb, executeHandler_eq. cbv zeta.
    now rewrite Hf. }
  split; [| split].
  - intros sp uid w1 ai w2 tr e s3 Hsp H1 H2 Hrun Hf.
    apply Hbody; [| exact Hf].
    rewrite executeBody_eq, Hsp. cbn [world push_log].
    now rewrite H1, H2, Hrun.
  - exact Hbody.
  - intros Hgen e s' H. rewrite execute_eq in H.
    destruct (body inputs options (started s)) as [[out | e0] sb] eqn:Eb;
      [discriminate |].
    rewrite executeHandler_eq in H. cbv zeta in H.
    destruct (isFatal e0) eqn:Ef.
    + inversion H; subst. split; [exact Ef | eauto].
    + destruct (Hgen (world sb)) as (uid & w1 & E1); rewrite E1 in H.
      destruct (Hgen w1) as (aid & w2 & E2); rewrite E2 in H.
      discriminate.
Qed.

(** C4. When the [try] block throws an error that is neither a
    [RateLimitExceededError] nor a [SecurityError], and the two ids of the
    fallback entries are generated, [execute] returns the fallback output:
    [enhancedUserRequest] is "User request: " followed by the user message,
    [userResponse] is the fixed fallback text, and [messages] is
    [pastMessages] followed by the user entry and the fallback assistant
    entry. *)
Theorem execute_falls_back :
  forall inputs options (s : State World) e sb uid w1 aid w2,
    body inputs options (started s) = (Thrown e, sb) ->
    isFatal e = false ->
    generateConversationId (world sb) = (Normal uid, w1) ->
    generateConversationId w1 = (Normal aid, w2) ->
    exec inputs options s
    = (Normal
         {| conversationResponse :=
              {| enhancedUserRequest := "User request: " ++ userMessage inputs;
                 userResponse := FALLBACK_USER_RESPONSE |};
            messages :=
              (pastMessages inputs
                 ++ [userEntry inputs uid;
                     assistantEntry FALLBACK_USER_RESPONSE aid])%list |},
       set_world w2 (push_log (LogError "Error processing user message:" e) sb)).
Proof.
  intros inputs options s e sb uid w1 aid w2 Hb Hf H1 H2.
  rewrite execute_eq, Hb, executeHandler_eq. cbv zeta.
  now rewrite Hf, H1, H2.
Qed.

(** C2 (as amended). On the success path the texts of the callback calls
    made with [isStreaming = true] are, in delivery order, the chunks the
    engine passed to [onChunk], and their concatenation is
    [response.userResponse].  The appended assistant entry holds the engine's
    final completion text [result.string]; the processor does not compare it
    with the streamed text, so the two are equal when the engine's final text
    is the concatenation of the chunks it streamed. *)
Theorem streamed_text_is_user_response :
  forall inputs options (s : State World) sp uid w1 ai w2 tr r s3 aid w4,
    getSystemPromptWithProjectContext SYSTEM_PROMPT (context options) false
    = Normal sp ->
    generateConversationId (world s) = (Normal uid, w1) ->
    generateConversationId w1 = (Normal ai, w2) ->
    run ai (executeInference (turnRequest inputs options sp uid))
      (beforeInference (started s) w2) = (tr, (Normal r, s3)) ->
    generateConversationId (world s3) = (Normal aid, w4) ->
    exists out s' evs,
      exec inputs options s = (Normal out, s')
      /\ events s' = (events s ++ evs)%list
      /\ streamedChunks evs = chunksOf tr
      /\ joinChunks (streamedChunks evs) = userResponse (conversationResponse out)
      /\ messages out
         = (pastMessages inputs
              ++ [userEntry inputs uid; assistantEntry (result_string r) aid])%list
      /\ (result_string r = joinChunks (chunksOf tr) ->
          joinChunks (streamedChunks evs) = result_string r).
Proof.
  intros inputs options s sp uid w1 ai w2 tr r s3 aid w4 Hsp H1 H2 Hrun H3.
  destruct (execute_success inputs options s Hsp H1 H2 Hrun H3) as [Hex Hev].
  eexists; eexists; exists (flat_map (events_of ai) tr).
  split; [exact Hex |]. simpl.
  rewrite streamedChunks_events.
  repeat split; auto.
Qed.

(** C5 (as amended). On the success path [response.enhancedUserRequest] is the
    argument of the last invocation of the Modification-Queue Tool's
    implementation during the engine run: the empty string when it was never
    invoked, the argument when it was invoked once, the last argument when it
    was invoked several times. *)
Theorem enhanced_request_is_last_queued :
  forall inputs options (s : State World) sp uid w1 ai w2 tr r s3 aid w4,
    getSystemPromptWithProjectContext SYSTEM_PROMPT (context options) false
    = Normal sp ->
    generateConversationId (world s) = (Normal uid, w1) ->
    generateConversationId w1 = (Normal ai, w2) ->
    run ai (executeInference (turnRequest inputs options sp uid))
      (beforeInference (started s) w2) = (tr, (Normal r, s3)) ->
    generateConversationId (world s3) = (Normal aid, w4) ->
    exists out s',
      exec inputs options s = (Normal out, s')
      /\ enhancedUserRequest (conversationResponse out)
         = last (queueRequests tr) ""
      /\ (queueRequests tr = [] ->
          enhancedUserRequest (conversationResponse out) = "")
      /\ (forall a, queueRequests tr = [a] ->
          enhancedUserRequest (conversationResponse out) = a)
      /\ (forall earlier a, queueRequests tr = (earlier ++ [a])%list ->
          enhancedUserRequest (conversationResponse out) = a).
Proof.
  intros inputs options s sp uid w1 ai w2 tr r s3 aid w4 Hsp H1 H2 Hrun H3.
  destruct (execute_success inputs options s Hsp H1 H2 Hrun H3) as [Hex _].
  eexists; eexists. split; [exact Hex |]. simpl.
  split; [reflexivity |]. split; [| split].
  - intros E; now rewrite E.
  - intros a E; now rewrite E.
  - intros earlier a E; rewrite E. apply last_last.
Qed.

(** C7. [attachLifecycle] keeps the tool's [type], [function] (name,
    description, schema) and [implementation]; its [onStart] calls the
    callback once with empty text, the turn's conversation id,
    [isStreaming = false] and a tool event with the tool's name, status
    [start] and the call arguments; its [onComplete] does the same with
    status [success].  No run of [execute] calls the callback with a tool
    event of status [error], all its calls carry one conversation id, and
    [processProjectUpdates] never calls the callback. *)
Theorem attachLifecycle_hooks :
  (forall ai (TArgs TResult : Type)
          (td : ToolDefinition (State World) TArgs TResult),
      type_ (attachLifecycle ai td) = type_ td
      /\ function_ (attachLifecycle ai td) = function_ td
      /\ implementation (attachLifecycle ai td) = implementation td
      /\ (forall args s,
             callOnStart (attachLifecycle ai td) args s
             = (Normal tt,
                push_event
                  {| cb_message := ""; cb_conversationId := ai;
                     cb_isStreaming := false;
                     cb_tool := Some {| te_name := name (function_ td);
                                        te_status := status_start;
                                        te_args := Some (asRecord args) |} |} s))
      /\ (forall args result s,
             callOnComplete (attachLifecycle ai td) args result s
             = (Normal tt,
                push_event
                  {| cb_message := ""; cb_conversationId := ai;
                     cb_isStreaming := false;
                     cb_tool := Some {| te_name := name (function_ td);
                                        te_status := status_success;
                                        te_args := Some (asRecord args) |} |} s)))
  /\ (forall inputs options (s : State World) c s',
         exec inputs options s = (c, s') ->
         exists ai evs,
           events s' = (events s ++ evs)%list
           /\ Forall emitsNoErrorStatus evs
           /\ Forall (fun ev => cb_conversationId ev = ai) evs)
  /\ (forall (Data : Type) updateType (data : Data) (s : State World) c s',
         processProjectUpdates generateConversationId updateType data s = (c, s') ->
         events s' = events s).
Proof.
  split; [| split].
  - intros ai TArgs TResult td. repeat split; reflexivity.
  - intros inputs options s c s' H.
    apply execute_events in H. destruct H as (ai & tr & H).
    exists ai, (flat_map (events_of ai) tr). split; [exact H |].
    split; [apply events_emit_no_error | apply events_carry_turn_id].
  - intros Data updateType data s c s' H.
    unfold processProjectUpdates, tryCatch, bind, logger_info, logger_error,
      modify, liftWorld, ret in H.
    cbn [world push_log] in H.
    destruct (generateConversationId (world s)) as [[id | e] w];
      inversion H; reflexivity.
Qed.

End TurnProperties.

Section ToolAndBridgeProperties.

Variable World : Type.
Variable generateConversationId : Eff World string.

Local Abbreviation editSchema stateMutator :=
  (parameters (function_ (@buildEditAppTool World stateMutator))).

Lemma editSchema_rejects_short : forall stateMutator raw text,
  lookup "modificationRequest" raw = Some (JsonString text) ->
  String.length text < 8 ->
  schemaAccepts (editSchema stateMutator) raw = false.
Proof.
  intros stateMutator raw text Hl Hlen.
  apply lookup_In in Hl.
  destruct (schemaAccepts _ raw) eqn:E; [| reflexivity].
  unfold schemaAccepts in E. apply andb_true_iff in E. destruct E as [_ E].
  rewrite forallb_forall in E. specialize (E _ Hl). simpl in E.
  apply Nat.leb_le in E.
  destruct text as [| c0 [| c1 [| c2 [| c3 [| c4 [| c5 [| c6 [| c7 t]]]]]]]];
    simpl in *; lia.
Qed.

Lemma editSchema_accepts_inv : forall stateMutator raw,
  schemaAccepts (editSchema stateMutator) raw = true ->
  (exists text,
      lookup "modificationRequest" raw = Some (JsonString text)
      /\ 8 <= String.length text)
  /\ (forall k v, In (k, v) raw -> k = "modificationRequest").
Proof.
  intros stateMutator raw E.
  unfold schemaAccepts in E.
  apply andb_true_iff in E. destruct E as [E Hall].
  apply andb_true_iff in E. destruct E as [_ Hreq].
  rewrite forallb_forall in Hall. simpl in Hreq.
  split.
  - destruct (lookup "modificationRequest" raw) as [v |] eqn:Hl; [| discriminate].
    pose proof (Hall _ (lookup_In _ _ Hl)) as Hv. simpl in Hv.
    destruct v; try discriminate.
    exists s. split; [reflexivity |].
    unfold propertyAccepts in Hv. simpl in Hv.
    destruct s as [| c0 [| c1 [| c2 [| c3 [| c4 [| c5 [| c6 [| c7 t]]]]]]]];
      simpl in *; try discriminate; lia.
  - intros k v Hin. specialize (Hall _ Hin). cbn [fst snd] in Hall.
    cbn [properties parameters function_ buildEditAppTool lookup] in Hall.
    destruct (String.eqb k "modificationRequest") eqn:Ek.
    + now apply String.eqb_eq.
    + discriminate.
Qed.

(** C6. For every mutator, the tool built by [buildEditAppTool] is named
    [queue_request]; its parameter schema is an object with the single
    property [modificationRequest], a string of minimum length 8, which is
    required, and with additional properties forbidden; arguments whose
    [modificationRequest] is shorter than 8 characters are rejected by the
    schema, so that an engine that validates before invoking does not run the
    implementation on them, and accepted arguments carry exactly that one
    field; the implementation logs, calls the mutator with
    [args.modificationRequest] and, when the mutator returns, returns the
    fixed acknowledgment text. *)
Theorem buildEditAppTool_contract :
  forall stateMutator : string -> Eff (State World) unit,
    let td := buildEditAppTool stateMutator in
    name (function_ td) = "queue_request"
    /\ schema_type (parameters (function_ td)) = "object"
    /\ additionalProperties (parameters (function_ td)) = false
    /\ required (parameters (function_ td)) = ["modificationRequest"]
    /\ (exists text,
           properties (parameters (function_ td))
           = [("modificationRequest",
               {| prop_type := "string"; prop_minLength := Some 8;
                  prop_description := text |})])
    /\ (forall raw text,
           lookup "modificationRequest" raw = Some (JsonString text) ->
           String.length text < 8 ->
           schemaAccepts (parameters (function_ td)) raw = false
           /\ forall s, engineInvokesEditApp td raw s = (Normal None, s))
    /\ (forall raw,
           schemaAccepts (parameters (function_ td)) raw = true ->
           (exists text,
               lookup "modificationRequest" raw = Some (JsonString text)
               /\ 8 <= String.length text)
           /\ forall k v, In (k, v) raw -> k = "modificationRequest")
    /\ (forall args s,
           implementation td args s
           = match stateMutator (modificationRequest args)
                     (push_log (ConsoleLog "Queueing app edit request") s) with
             | (Normal _, s') => (Normal {| result_content := QUEUE_ACK |}, s')
             | (Thrown e, s') => (Thrown e, s')
             end).
Proof.
  intros stateMutator td.
  split; [reflexivity |]. split; [reflexivity |]. split; [reflexivity |].
  split; [reflexivity |]. split; [eexists; reflexivity |].
  split; [| split].
  - intros raw text Hl Hlen.
    pose proof (editSchema_rejects_short stateMutator raw Hl Hlen) as Hrej.
    split; [exact Hrej |].
    intros s. unfold engineInvokesEditApp. subst td. now rewrite Hrej.
  - intros raw. apply editSchema_accepts_inv.
  - intros args s. subst td.
    cbn [implementation buildEditAppTool]. unfold bind, console_log, modify, ret.
    destruct (stateMutator _ _) as [[[] | e] s1]; reflexivity.
Qed.

Lemma isProjectUpdateType_In : forall responses kind,
  isProjectUpdateType responses kind = true
  <-> In kind (RelevantProjectUpdateWebsoketMessages responses).
Proof.
  intros responses kind. unfold isProjectUpdateType, includes.
  rewrite existsb_exists. split.
  - intros (x & Hin & Heq). apply String.eqb_eq in Heq. now subst.
  - intros Hin. exists kind. split; [exact Hin | apply String.eqb_refl].
Qed.

Lemma preparedMessage_contains : forall kind,
  containsString (preparedMessage kind) kind.
Proof.
  intros kind.
  exists ("**<Internal Memo>**" ++ newline ++ "Project Updates: "),
         (newline ++ "</Internal Memo>").
  reflexivity.
Qed.

(** The bridge, step by step. *)
Lemma processProjectUpdates_eq :
  forall (Data : Type) updateType (data : Data) (s : State World),
    processProjectUpdates generateConversationId updateType data s =
    let s1 := push_log (LogInfo "Processing project update") s in
    match generateConversationId (world s) with
    | (Normal id, w) =>
        (Normal [ {| role := assistant; content := preparedMessage updateType;
                     conversationId := id |} ],
         set_world w s1)
    | (Thrown e, w) =>
        (Normal [],
         push_log (LogError "Error processing project update:" e) (set_world w s1))
    end.
Proof.
  intros Data updateType data s.
  unfold processProjectUpdates, tryCatch, bind, logger_info, logger_error,
    modify, liftWorld, ret.
  cbn [world push_log].
  destruct (generateConversationId (world s)) as [[id | e] w]; reflexivity.
Qed.

(** C8. [isProjectUpdateType] holds exactly of the seven entries of the
    allow-list; for such a kind, when the entry's id is generated,
    [processProjectUpdates] returns exactly one entry, with role [assistant]
    and with the marker text as content: the marker contains the kind name
    and is the same whatever the payload. *)
Theorem project_update_entry :
  forall responses kind,
    (isProjectUpdateType responses kind = true
     <-> In kind [ PHASE_IMPLEMENTING responses; PHASE_IMPLEMENTED responses;
                   CODE_REVIEW responses; FILE_REGENERATING responses;
                   FILE_REGENERATED responses; DEPLOYMENT_COMPLETED responses;
                   COMMAND_EXECUTING responses ])
    /\ length (RelevantProjectUpdateWebsoketMessages responses) = 7
    /\ (isProjectUpdateType responses kind = true ->
        forall (Data : Type) (data : Data) (s : State World) id w,
          generateConversationId (world s) = (Normal id, w) ->
          exists s',
            processProjectUpdates generateConversationId kind data s
            = (Normal [ {| role := assistant; content := preparedMessage kind;
                           conversationId := id |} ], s')
            /\ containsString (preparedMessage kind) kind).
Proof.
  intros responses kind. split; [apply isProjectUpdateType_In |].
  split; [reflexivity |].
  intros _ Data data s id w Hgen.
  rewrite processProjectUpdates_eq, Hgen. cbv zeta.
  eexists. split; [reflexivity | apply preparedMessage_contains].
Qed.

(** C9. [processProjectUpdates] always returns normally, for every kind,
    payload and state: when nothing throws it returns the entry, and when the
    [try] block throws it logs the error and returns the empty sequence. *)
Theorem processProjectUpdates_never_throws :
  forall (Data : Type) updateType (data : Data) (s : State World),
    exists result s',
      processProjectUpdates generateConversationId updateType data s
      = (Normal result, s')
      /\ (forall e w,
             generateConversationId (world s) = (Thrown e, w) ->
             result = []
             /\ In (LogError "Error processing project update:" e) (logs s')).
Proof.
  intros Data updateType data s.
  rewrite processProjectUpdates_eq. cbv zeta.
  destruct (generateConversationId (world s)) as [[id | e] w].
  - eexists; eexists. split; [reflexivity |]. intros e w0 H; discriminate.
  - eexists; eexists. split; [reflexivity |].
    intros e0 w0 H; inversion H; subst. split; [reflexivity |].
    simpl. apply in_or_app. right. now left.
Qed.

(** C10. The payload is never read: from the same state, two runs of
    [processProjectUpdates] on the same kind with any two payloads end
    alike; and from any two states in which the id is generated, the entries
    of the two runs have the same role and the same content. *)
Theorem processProjectUpdates_ignores_payload :
  forall (Data1 Data2 : Type) updateType (data1 : Data1) (data2 : Data2),
    (forall s : State World,
        processProjectUpdates generateConversationId updateType data1 s
        = processProjectUpdates generateConversationId updateType data2 s)
    /\ (forall (s1 s2 : State World) id1 w1 id2 w2,
           generateConversationId (world s1) = (Normal id1, w1) ->
           generateConversationId (world s2) = (Normal id2, w2) ->
           exists r1 s1' r2 s2',
             processProjectUpdates generateConversationId updateType data1 s1
             = (Normal r1, s1')
             /\ processProjectUpdates generateConversationId updateType data2 s2
                = (Normal r2, s2')
             /\ map roleAndContent r1 = map roleAndContent r2
             /\ map roleAndContent r1 = [(assistant, preparedMessage updateType)]).
Proof.
  intros Data1 Data2 updateType data1 data2. split.
  - intros s. now rewrite !processProjectUpdates_eq.
  - intros s1 s2 id1 w1 id2 w2 H1 H2.
    rewrite !processProjectUpdates_eq, H1, H2. cbv zeta.
    do 4 eexists. repeat split; reflexivity.
Qed.

End ToolAndBridgeProperties.

(** * The theorems at work on the concrete platform *)

(** The numbering generator returns from every world. *)
Lemma demo_alwaysGenerates : alwaysGenerates demo_generateConversationId.
Proof. intros w. eexists; eexists; reflexivity. Qed.

(** C1 on a turn that queues one request: two entries are appended to the two past ones. *)
Lemma execute_appends_user_then_assistant_witness :
  (exists out s',
      demo_execute demo_engineQueueOnce "please add dark mode" demo_past demo_initial
      = (Normal out, s')
      /\ length (messages out) = length demo_past + 2)
  /\ ((exists out s',
          demo_execute demo_engineQueueOnce "please add dark mode" demo_past
            demo_initial = (Normal out, s'))
      \/ (exists e s',
             demo_execute demo_engineQueueOnce "please add dark mode" demo_past
               demo_initial = (Thrown e, s')
             /\ isFatal e = true)).
Proof.
  destruct (execute_appends_user_then_assistant demo_generateConversationId
              (demo_stringTool "web_search") (demo_stringTool "get_weather")
              "You are an AI assistant. " demo_getSystemPrompt
              (fun _ : InferenceRequest unit unit => demo_engineQueueOnce)
              (demo_inputs "please add dark mode" demo_past) demo_options
              demo_initial) as [Hreturned Htotal].
  split.
  - eexists; eexists. split; [reflexivity |].
    destruct (Hreturned _ _ eq_refl) as (uid & text & aid & _ & Hlen).
    exact Hlen.
  - apply Htotal. intros w. eexists; eexists; reflexivity.
Defined.

(** C3 on engines that stream a chunk and fail with a fatal error. *)
Lemma execute_rethrows_fatal_witness :
  (exists s',
      demo_execute (demo_engineFails (SecurityError "blocked")) "hi" demo_past
        demo_initial = (Thrown (SecurityError "blocked"), s'))
  /\ (exists s',
         demo_execute (demo_engineFails (RateLimitExceededError "slow down")) "hi"
           demo_past demo_initial
         = (Thrown (RateLimitExceededError "slow down"), s'))
  /\ isFatal (SecurityError "blocked") = true.
Proof.
  split; [| split].
  - eexists. unfold demo_execute.
    eapply (proj1 (execute_rethrows_fatal _ _ _ _ _ _ _ _ _)); reflexivity.
  - eexists. unfold demo_execute.
    eapply (proj1 (proj2 (execute_rethrows_fatal _ _ _ _ _ _ _ _ _)));
      [lazy; reflexivity | reflexivity].
  - eapply (proj2 (proj2 (execute_rethrows_fatal demo_generateConversationId
              (demo_stringTool "web_search") (demo_stringTool "get_weather")
              "You are an AI assistant. " demo_getSystemPrompt
              (fun _ : InferenceRequest unit unit =>
                 demo_engineFails (SecurityError "blocked"))
              (demo_inputs "hi" demo_past) demo_options demo_initial))).
    + intros w. eexists; eexists; reflexivity.
    + reflexivity.
Defined.

(** C4 on an engine that streams a chunk and fails with an ordinary error. *)
Lemma execute_falls_back_witness :
  exists s',
    demo_execute (demo_engineFails (OtherError "TypeError" "fetch failed"))
      "make it blue" demo_past demo_initial
    = (Normal
         {| conversationResponse :=
              {| enhancedUserRequest := "User request: make it blue";
                 userResponse := FALLBACK_USER_RESPONSE |};
            messages :=
              (demo_past
                 ++ [ {| role := user; content := "make it blue";
                         conversationId := "conv-2" |};
                      {| role := assistant; content := FALLBACK_USER_RESPONSE;
                         conversationId := "conv-3" |} ])%list |},
       s').
Proof.
  eexists. unfold demo_execute.
  eapply (execute_falls_back demo_generateConversationId
            (demo_stringTool "web_search") (demo_stringTool "get_weather")
            "You are an AI assistant. " demo_getSystemPrompt
            (fun _ : InferenceRequest unit unit =>
               demo_engineFails (OtherError "TypeError" "fetch failed"))
            (demo_inputs "make it blue" demo_past) demo_options demo_initial
            (e := OtherError "TypeError" "fetch failed")
            (uid := "conv-2") (aid := "conv-3"));
    lazy; reflexivity.
Defined.

(** C2 on an engine that streams what it returns. *)
Lemma streamed_text_is_user_response_witness :
  exists out s',
    demo_execute demo_engineChat "hi" demo_past demo_initial = (Normal out, s')
    /\ joinChunks (streamedChunks (events s'))
       = userResponse (conversationResponse out)
    /\ joinChunks (streamedChunks (events s')) = "Sure, happy to help.".
Proof.
  edestruct (streamed_text_is_user_response demo_generateConversationId
               (demo_stringTool "web_search") (demo_stringTool "get_weather")
               "You are an AI assistant. " demo_getSystemPrompt
               (fun _ : InferenceRequest unit unit => demo_engineChat)
               (demo_inputs "hi" demo_past) demo_options demo_initial)
    as (out & s' & evs & Hex & Hev & Hchunks & Hjoin & _ & Hfinal);
    [reflexivity | reflexivity | reflexivity | reflexivity | reflexivity |].
  exists out, s'. simpl in Hev. rewrite Hev.
  split; [exact Hex |]. split; [exact Hjoin |].
  apply Hfinal. reflexivity.
Defined.

(** C2, counterexample: the engine streams two sentences around a tool call
    and returns the second one as its final completion; the turn succeeds, the
    streamed text is [userResponse], and the assistant entry holds another
    text. *)
Lemma final_text_differs_from_streamed_text :
  exists out s',
    demo_execute demo_engineQueueOnce "please add dark mode" demo_past demo_initial
    = (Normal out, s')
    /\ joinChunks (streamedChunks (events s'))
       = userResponse (conversationResponse out)
    /\ map content (messages out)
       = ["hello"; "hi there"; "please add dark mode";
          "It is queued for the next phase."]
    /\ joinChunks (streamedChunks (events s'))
       <> "It is queued for the next phase.".
Proof.
  eexists; eexists. split; [reflexivity |].
  split; [reflexivity |]. split; [reflexivity |].
  vm_compute. discriminate.
Qed.

(** C5 on an engine that queues two requests, with a web search in between. *)
Lemma enhanced_request_is_last_queued_witness :
  exists out s',
    demo_execute demo_engineQueueTwice "two things" demo_past demo_initial
    = (Normal out, s')
    /\ queueRequests (demo_calls demo_engineQueueTwice)
       = ["Add A feature"; "Add B feature"]
    /\ enhancedUserRequest (conversationResponse out) = "Add B feature".
Proof.
  edestruct (enhanced_request_is_last_queued demo_generateConversationId
               (demo_stringTool "web_search") (demo_stringTool "get_weather")
               "You are an AI assistant. " demo_getSystemPrompt
               (fun _ : InferenceRequest unit unit => demo_engineQueueTwice)
               (demo_inputs "two things" demo_past) demo_options demo_initial)
    as (out & s' & Hex & _ & _ & _ & Hlast);
    [reflexivity | reflexivity | reflexivity | reflexivity | reflexivity |].
  exists out, s'. split; [exact Hex |]. split; [reflexivity |].
  apply (Hlast ["Add A feature"]). reflexivity.
Defined.

(** C5, counterexample: the engine fails with an ordinary error before any
    tool is invoked; the turn returns, and [enhancedUserRequest] is not the
    empty string. *)
Lemma enhanced_request_on_fallback_is_not_empty :
  exists out s',
    demo_execute (demo_engineFails (OtherError "TypeError" "fetch failed"))
      "make it blue" demo_past demo_initial = (Normal out, s')
    /\ queueRequests
         (demo_calls (demo_engineFails (OtherError "TypeError" "fetch failed")))
       = []
    /\ enhancedUserRequest (conversationResponse out) = "User request: make it blue"
    /\ enhancedUserRequest (conversationResponse out) <> "".
Proof.
  eexists; eexists. split; [reflexivity |].
  split; [reflexivity |]. split; [reflexivity |].
  vm_compute. discriminate.
Qed.

(** C6 on the mutator of [execute]: a five-character request is rejected and the implementation does not run; a long one is accepted. *)
Lemma buildEditAppTool_contract_witness :
  (schemaAccepts
     (parameters (function_ (buildEditAppTool (@editRequestMutator nat))))
     [("modificationRequest", JsonString "short")] = false
   /\ forall s,
        engineInvokesEditApp (buildEditAppTool (@editRequestMutator nat))
          [("modificationRequest", JsonString "short")] s = (Normal None, s))
  /\ ((exists text,
          lookup "modificationRequest"
            [("modificationRequest", JsonString "Add a dark-mode toggle")]
          = Some (JsonString text)
          /\ 8 <= String.length text)
      /\ forall k v,
           In (k, v) [("modificationRequest", JsonString "Add a dark-mode toggle")] ->
           k = "modificationRequest").
Proof.
  pose proof (buildEditAppTool_contract (@editRequestMutator nat)) as H.
  cbv zeta in H.
  destruct H as (_ & _ & _ & _ & _ & Hreject & Haccept & _).
  split.
  - apply (Hreject [("modificationRequest", JsonString "short")] "short").
    + reflexivity.
    + simpl; lia.
  - apply (Haccept [("modificationRequest", JsonString "Add a dark-mode toggle")]).
    reflexivity.
Defined.

(** C7 on a turn with one tool call, and on one bridge call. *)
Lemma attachLifecycle_hooks_witness :
  Forall emitsNoErrorStatus
    (events (snd (demo_execute demo_engineQueueOnce "please add dark mode"
                    demo_past demo_initial)))
  /\ events (snd (processProjectUpdates demo_generateConversationId
                    "code_review" tt demo_initial)) = [].
Proof.
  pose proof (attachLifecycle_hooks demo_generateConversationId
                (demo_stringTool "web_search") (demo_stringTool "get_weather")
                "You are an AI assistant. " demo_getSystemPrompt
                (fun _ : InferenceRequest unit unit => demo_engineQueueOnce))
    as (_ & Hexecute & Hbridge).
  split.
  - destruct (Hexecute (demo_inputs "please add dark mode" demo_past)
                demo_options demo_initial
                (fst (demo_execute demo_engineQueueOnce "please add dark mode"
                        demo_past demo_initial))
                (snd (demo_execute demo_engineQueueOnce "please add dark mode"
                        demo_past demo_initial))
                eq_refl) as (ai & evs & Hev & Hall & _).
    rewrite Hev. exact Hall.
  - apply (Hbridge unit "code_review" tt demo_initial
             (fst (processProjectUpdates demo_generateConversationId
                     "code_review" tt demo_initial))
             (snd (processProjectUpdates demo_generateConversationId
                     "code_review" tt demo_initial))).
    reflexivity.
Defined.

(** C8 on the kind [code_review]. *)
Lemma project_update_entry_witness :
  exists s',
    processProjectUpdates demo_generateConversationId "code_review" 5 demo_initial
    = (Normal [ {| role := assistant; content := preparedMessage "code_review";
                   conversationId := "conv-0" |} ], s')
    /\ containsString (preparedMessage "code_review") "code_review".
Proof.
  apply (proj2 (proj2 (project_update_entry demo_generateConversationId
                         demo_responses "code_review"))
           eq_refl nat 5 demo_initial "conv-0" 1).
  reflexivity.
Defined.

(** C9 with an id generator that throws. *)
Lemma processProjectUpdates_never_throws_witness :
  exists result s',
    processProjectUpdates demo_brokenGenerator "code_review" 5 demo_initial
    = (Normal result, s')
    /\ result = []
    /\ In (LogError "Error processing project update:"
             (OtherError "Error" "no entropy")) (logs s').
Proof.
  destruct (processProjectUpdates_never_throws demo_brokenGenerator
              "code_review" 5 demo_initial) as (result & s' & Hex & Hthrown).
  exists result, s'. split; [exact Hex |].
  apply (Hthrown (OtherError "Error" "no entropy") 0). reflexivity.
Defined.

(** C10 on two payloads of different types, from two different worlds. *)
Lemma processProjectUpdates_ignores_payload_witness :
  exists r1 s1' r2 s2',
    processProjectUpdates demo_generateConversationId "code_review" 5 demo_initial
    = (Normal r1, s1')
    /\ processProjectUpdates demo_generateConversationId "code_review"
         "a large payload" (set_world 7 demo_initial)
       = (Normal r2, s2')
    /\ map roleAndContent r1 = map roleAndContent r2
    /\ map roleAndContent r1 = [(assistant, preparedMessage "code_review")].
Proof.
  apply (proj2 (processProjectUpdates_ignores_payload demo_generateConversationId
                  "code_review" 5 "a large payload")
           demo_initial (set_world 7 demo_initial) "conv-0" 1 "conv-7" 8);
    reflexivity.
Defined.

(** * Properties of the application store *)

Lemma ltb_firstn_filter : forall (R : Type) (p : R -> bool) (l : list R),
  Nat.ltb 0 (length (firstn 1 (filter p l))) = existsb p l.
Proof.
  induction l as [| x l IH]; simpl; [reflexivity |].
  destruct (p x); simpl; [reflexivity | exact IH].
Qed.

Lemma hd_error_filter_existsb : forall (R : Type) (p : R -> bool) (l : list R),
  existsb p l = match hd_error (filter p l) with Some _ => true | None => false end.
Proof.
  induction l as [| x l IH]; simpl; [reflexivity |].
  destruct (p x); simpl; [reflexivity | exact IH].
Qed.

Lemma hd_error_filter_some : forall (R : Type) (p : R -> bool) (l : list R) (x : R),
  hd_error (filter p l) = Some x -> In x l /\ p x = true.
Proof.
  intros R p l x H.
  assert (Hin : In x (filter p l))
    by (destruct (filter p l); inversion H; subst; now left).
  now apply filter_In in Hin.
Qed.

Lemma existsb_deleteWhere : forall (R : Type) (p : R -> bool) (l : list R),
  existsb p (deleteWhere p l) = false.
Proof.
  induction l as [| x l IH]; simpl; [reflexivity |].
  destruct (p x) eqn:E; simpl; [exact IH | now rewrite E].
Qed.

Lemma filter_deleteWhere_disjoint :
  forall (R : Type) (p q : R -> bool) (l : list R),
    (forall x, q x = true -> p x = false) ->
    filter q (deleteWhere p l) = filter q l.
Proof.
  intros R p q l Hd. induction l as [| x l IH]; simpl; [reflexivity |].
  destruct (p x) eqn:Ep; simpl.
  - destruct (q x) eqn:Eq; [apply Hd in Eq; congruence | exact IH].
  - destruct (q x); [now rewrite IH | exact IH].
Qed.

Lemma deleteWhere_none : forall (R : Type) (p : R -> bool) (l : list R),
  existsb p l = false -> deleteWhere p l = l.
Proof.
  induction l as [| x l IH]; simpl; [reflexivity |].
  intros H. apply orb_false_iff in H. destruct H as [Hx Hl].
  rewrite Hx. simpl. now rewrite IH.
Qed.

Lemma deleteWhere_app : forall (R : Type) (p : R -> bool) (l1 l2 : list R),
  deleteWhere p (l1 ++ l2) = (deleteWhere p l1 ++ deleteWhere p l2)%list.
Proof. intros; unfold deleteWhere; apply filter_app. Qed.

Lemma deleteWhere_In : forall (R : Type) (p : R -> bool) (l : list R) (x : R),
  In x (deleteWhere p l) <-> In x l /\ p x = false.
Proof.
  intros R p l x. unfold deleteWhere. rewrite filter_In.
  now rewrite negb_true_iff.
Qed.

Section StoreLemmas.

Variable World : Type.
Variable rt : Runtime World.

(** A statement on a healthy database. *)
Lemma statement_healthy :
  healthy rt ->
  forall (A : Type) (run : Tables -> A * Tables) (s : Backend World),
    statement rt run s
    = (Normal (fst (run (tables s))),
       set_tables (snd (run (tables s)))
         (set_outside (snd (d1Fault rt (outside s))) s)).
Proof.
  intros H A run s. unfold statement. specialize (H (outside s)).
  destruct (d1Fault rt (outside s)) as [[e |] w]; simpl in *; [discriminate |].
  now destruct (run (tables s)).
Qed.

(** A statement on any database: it throws and leaves the tables alone, or it
    runs. *)
Lemma statement_inv :
  forall (A : Type) (run : Tables -> A * Tables) (s : Backend World) c s',
    statement rt run s = (c, s') ->
    backend_logs s' = backend_logs s
    /\ ((exists e, c = Thrown e /\ tables s' = tables s)
        \/ (c = Normal (fst (run (tables s)))
            /\ tables s' = snd (run (tables s)))).
Proof.
  intros A run s c s' H. unfold statement in H.
  destruct (d1Fault rt (outside s)) as [[e |] w].
  - inversion H; subst; simpl. split; [reflexivity |]. left; eauto.
  - destruct (run (tables s)) as [a t]. inversion H; subst; simpl.
    split; [reflexivity |]. right; auto.
Qed.

Lemma newId_inv : forall (s : Backend World) c s',
  newId rt s = (c, s') ->
  tables s' = tables s /\ backend_logs s' = backend_logs s.
Proof.
  intros s c s' H. unfold newId in H.
  destruct (generateId rt (outside s)) as [c0 w]. inversion H; subst. auto.
Qed.

Lemma newId_generates :
  alwaysGenerates (generateId rt) ->
  forall s : Backend World,
    exists id w, newId rt s = (Normal id, set_outside w s).
Proof.
  intros H s. unfold newId. destruct (H (outside s)) as (id & w & E).
  rewrite E. eauto.
Qed.

(** A [try] whose [catch] block returns cannot throw. *)
Lemma tryCatch_returns :
  forall (St A : Type) (body : Eff St A) (handler : JsError -> Eff St A),
    (forall e s, exists a s', handler e s = (Normal a, s')) ->
    forall s, exists a s', tryCatch body handler s = (Normal a, s').
Proof.
  intros St A body handler Hh s. unfold tryCatch.
  destruct (body s) as [[a | e] s1]; [eauto | apply Hh].
Qed.

End StoreLemmas.

Section FavoriteProperties.

Variable World : Type.
Variable rt : Runtime World.

Hypothesis Hhealthy : healthy rt.
Hypothesis Hids : alwaysGenerates (generateId rt).

(** What [toggleAppFavorite] does on a healthy database. *)
Lemma toggleAppFavorite_run : forall userId appId (s : Backend World),
  exists s',
    backend_logs s' = backend_logs s
    /\ ((isFavorited userId appId (tables s) = true
         /\ AppService.toggleAppFavorite rt userId appId s
            = (Normal {| AppService.isFavorite := false |}, s')
         /\ tables s'
            = with_favorites
                (deleteWhere (AppService.favoriteOf userId appId)
                   (favorites (tables s))) (tables s))
        \/ (isFavorited userId appId (tables s) = false
            /\ AppService.toggleAppFavorite rt userId appId s
               = (Normal {| AppService.isFavorite := true |}, s')
            /\ exists id createdAt,
                 tables s'
                 = with_favorites
                     (favorites (tables s)
                      ++ [ {| favorite_id := id; favorite_userId := userId;
                              favorite_appId := appId;
                              favorite_createdAt := createdAt |} ])%list
                     (tables s))).
Proof.
  intros userId appId s.
  unfold AppService.toggleAppFavorite, bind, query.
  rewrite (statement_healthy Hhealthy). cbn [fst snd].
  rewrite ltb_firstn_filter.
  fold (isFavorited userId appId (tables s)).
  destruct (isFavorited userId appId (tables s)) eqn:E.
  - rewrite (statement_healthy Hhealthy). cbn [fst snd ret].
    eexists. split; [| left; split; [reflexivity | split; reflexivity]].
    reflexivity.
  - match goal with
    | |- context [newId rt ?s1] =>
        destruct (newId_generates rt Hids s1) as (id & w & Eid); rewrite Eid
    end.
    unfold newDate, gets. rewrite (statement_healthy Hhealthy). cbn [fst snd ret].
    eexists. split; [| right; split; [reflexivity | split; [reflexivity |]]].
    + reflexivity.
    + eexists; eexists; reflexivity.
Qed.

Lemma favoriteOf_new : forall userId appId id createdAt,
  AppService.favoriteOf userId appId
    {| favorite_id := id; favorite_userId := userId; favorite_appId := appId;
       favorite_createdAt := createdAt |} = true.
Proof.
  intros. unfold AppService.favoriteOf; simpl. now rewrite !String.eqb_refl.
Qed.

Lemma favoriteOf_disjoint : forall userId appId userId' appId' f,
  userId' <> userId \/ appId' <> appId ->
  AppService.favoriteOf userId' appId' f = true ->
  AppService.favoriteOf userId appId f = false.
Proof.
  intros userId appId userId' appId' f Hne H.
  unfold AppService.favoriteOf in *.
  apply andb_true_iff in H. destruct H as [Ha Hu].
  apply String.eqb_eq in Ha. apply String.eqb_eq in Hu.
  apply andb_false_iff.
  destruct Hne as [Hne | Hne].
  - right. apply String.eqb_neq. congruence.
  - left. apply String.eqb_neq. congruence.
Qed.

Lemma toggleAppFavorite_flip : forall userId appId (s : Backend World),
  exists r s',
    AppService.toggleAppFavorite rt userId appId s = (Normal r, s')
    /\ AppService.isFavorite r = negb (isFavorited userId appId (tables s))
    /\ isFavorited userId appId (tables s') = AppService.isFavorite r.
Proof.
  intros userId appId s.
  destruct (toggleAppFavorite_run userId appId s)
    as (s' & _ & [(E & Hrun & Ht) | (E & Hrun & id & createdAt & Ht)]).
  - eexists; exists s'. split; [exact Hrun |]. rewrite E, Ht. simpl.
    split; [reflexivity |]. unfold isFavorited; simpl. apply existsb_deleteWhere.
  - eexists; exists s'. split; [exact Hrun |]. rewrite E, Ht. simpl.
    split; [reflexivity |]. unfold isFavorited; simpl.
    rewrite existsb_app. simpl. rewrite favoriteOf_new. now rewrite orb_true_r.
Qed.

(** X1. On a healthy database [toggleAppFavorite] reports the opposite of
    what the favorites table held for this user and app, and leaves the table
    in the state it reports. *)
Theorem toggleAppFavorite_flips : forall userId appId (s : Backend World),
  exists r s',
    AppService.toggleAppFavorite rt userId appId s = (Normal r, s')
    /\ AppService.isFavorite r = negb (isFavorited userId appId (tables s))
    /\ isFavorited userId appId (tables s') = AppService.isFavorite r.
Proof. exact toggleAppFavorite_flip. Qed.

(** X2. On a healthy database [toggleAppFavorite] touches nothing but the
    favorites of this user for this app: the other tables are as before, and
    so are, row for row, the favorites of every other user and app. *)
Theorem toggleAppFavorite_frame :
  forall userId appId (s : Backend World) c s',
    AppService.toggleAppFavorite rt userId appId s = (c, s') ->
    apps (tables s') = apps (tables s)
    /\ stars (tables s') = stars (tables s)
    /\ appViews (tables s') = appViews (tables s)
    /\ appLikes (tables s') = appLikes (tables s)
    /\ users (tables s') = users (tables s)
    /\ forall userId' appId',
         userId' <> userId \/ appId' <> appId ->
         filter (AppService.favoriteOf userId' appId') (favorites (tables s'))
         = filter (AppService.favoriteOf userId' appId') (favorites (tables s)).
Proof.
  intros userId appId s c s' H.
  destruct (toggleAppFavorite_run userId appId s)
    as (s1 & _ & [(E & Hrun & Ht) | (E & Hrun & id & createdAt & Ht)]);
    rewrite Hrun in H; inversion H; subst s1; rewrite Ht; simpl;
    repeat (split; [reflexivity |]); intros userId' appId' Hne.
  - apply filter_deleteWhere_disjoint. intros f.
    now apply favoriteOf_disjoint.
  - rewrite filter_app. simpl.
    destruct (AppService.favoriteOf userId' appId' _) eqn:Ef;
      [| now rewrite app_nil_r].
    pose proof (favoriteOf_disjoint (userId := userId) (appId := appId) _ Hne Ef) as Ef'.
    now rewrite favoriteOf_new in Ef'.
Qed.

(** X3. On a healthy database, toggling a favorite twice gives opposite
    answers and restores whether the app is a favorite of the user; when it
    was not, the favorites table is restored row for row. *)
Theorem toggleAppFavorite_twice : forall userId appId (s : Backend World),
  exists r1 s1 r2 s2,
    AppService.toggleAppFavorite rt userId appId s = (Normal r1, s1)
    /\ AppService.toggleAppFavorite rt userId appId s1 = (Normal r2, s2)
    /\ AppService.isFavorite r2 = negb (AppService.isFavorite r1)
    /\ isFavorited userId appId (tables s2) = isFavorited userId appId (tables s)
    /\ (isFavorited userId appId (tables s) = false ->
        favorites (tables s2) = favorites (tables s)).
Proof.
  intros userId appId s.
  destruct (toggleAppFavorite_flip userId appId s) as (r1 & s1 & H1 & Hr1 & Hs1).
  destruct (toggleAppFavorite_flip userId appId s1) as (r2 & s2 & H2 & Hr2 & Hs2).
  exists r1, s1, r2, s2. split; [exact H1 |]. split; [exact H2 |].
  split; [now rewrite Hr2, Hs1 |].
  split; [rewrite Hs2, Hr2, Hs1, Hr1; apply negb_involutive |].
  intros E.
  destruct (toggleAppFavorite_run userId appId s)
    as (s1' & _ & [(E' & _) | (_ & Hrun & id & createdAt & Ht)]); [congruence |].
  rewrite Hrun in H1; inversion H1; subst s1' r1.
  destruct (toggleAppFavorite_run userId appId s1)
    as (s2' & _ & [(_ & Hrun2 & Ht2) | (E2 & _)]).
  - rewrite Hrun2 in H2; inversion H2; subst s2'.
    rewrite Ht2, Ht; simpl. rewrite deleteWhere_app.
    rewrite (deleteWhere_none _ _ E). unfold deleteWhere; simpl.
    rewrite favoriteOf_new. simpl. apply app_nil_r.
  - rewrite Hs1 in E2. discriminate.
Qed.

End FavoriteProperties.

Lemma deleteWhere_cons : forall (R : Type) (p : R -> bool) (x : R) (l : list R),
  deleteWhere p (x :: l) = if p x then deleteWhere p l else x :: deleteWhere p l.
Proof. intros. unfold deleteWhere. simpl. now destruct (p x). Qed.

Lemma count_deleteWhere_id :
  forall (l : list StarRow) (q : StarRow -> bool) (x : StarRow),
    NoDup (map star_id l) -> In x l -> q x = true ->
    S (countWhere q (deleteWhere (fun s => String.eqb (star_id s) (star_id x)) l))
    = countWhere q l.
Proof.
  induction l as [| y l IH]; intros q x Hnd Hin Hq; [contradiction |].
  simpl in Hnd. inversion Hnd as [| ? ? Hnot Hnd']; subst.
  rewrite deleteWhere_cons.
  destruct Hin as [-> | Hin].
  - rewrite String.eqb_refl.
    rewrite deleteWhere_none.
    + unfold countWhere. simpl. now rewrite Hq.
    + apply not_true_iff_false. intros Hex. apply existsb_exists in Hex.
      destruct Hex as (z & Hz & Heq). apply String.eqb_eq in Heq.
      apply Hnot. rewrite <- Heq. now apply in_map.
  - assert (Hne : String.eqb (star_id y) (star_id x) = false).
    { apply String.eqb_neq. intros Heq. apply Hnot. rewrite Heq. now apply in_map. }
    rewrite Hne. specialize (IH q x Hnd' Hin Hq).
    unfold countWhere in *. simpl.
    destruct (q y); simpl; [f_equal |]; exact IH.
Qed.

Section StarProperties.

Variable World : Type.
Variable rt : Runtime World.

Hypothesis Hhealthy : healthy rt.
Hypothesis Hids : alwaysGenerates (generateId rt).

(** X4. On a healthy database whose star rows have distinct ids,
    [toggleAppStar] reports the opposite of whether the user had starred the
    app, and the star count it returns is the app's number of stars after the
    toggle: one less than before when the user had starred it, one more when
    not. *)
Theorem toggleAppStar_counts : forall userId appId (s : Backend World),
  NoDup (map star_id (stars (tables s))) ->
  exists r s',
    AppService.toggleAppStar rt userId appId s = (Normal r, s')
    /\ AppService.isStarred r = negb (hasStarred userId appId (tables s))
    /\ AppService.starCount r = starsOfApp appId (tables s')
    /\ (if hasStarred userId appId (tables s)
        then S (AppService.starCount r) = starsOfApp appId (tables s)
        else AppService.starCount r = S (starsOfApp appId (tables s))).
Proof.
  intros userId appId s Hnd.
  unfold AppService.toggleAppStar, bind, query.
  rewrite (statement_healthy Hhealthy). cbn [fst snd].
  unfold hasStarred. rewrite hd_error_filter_existsb.
  destruct (hd_error (filter (AppService.starOf userId appId) (stars (tables s))))
    as [existing |] eqn:E.
  - rewrite !(statement_healthy Hhealthy). cbn [fst snd ret orDefault].
    eexists; eexists. split; [reflexivity |]. cbn.
    split; [reflexivity |]. split; [reflexivity |].
    apply hd_error_filter_some in E. destruct E as [Hin Hq].
    unfold starsOfApp. apply count_deleteWhere_id; auto.
    unfold AppService.starOf in Hq. apply andb_true_iff in Hq. tauto.
  - match goal with
    | |- context [newId rt ?s1] =>
        destruct (newId_generates rt Hids s1) as (id & w & Eid); rewrite Eid
    end.
    unfold newDate, gets. rewrite !(statement_healthy Hhealthy).
    cbn [fst snd ret orDefault].
    eexists; eexists. split; [reflexivity |]. cbn.
    split; [reflexivity |]. split; [reflexivity |].
    unfold starsOfApp, countWhere. rewrite filter_app, length_app. simpl.
    rewrite String.eqb_refl. simpl. lia.
Qed.

End StarProperties.

Section VisibilityProperties.

Variable World : Type.
Variable rt : Runtime World.

Lemma firstn1_filter : forall (R : Type) (p : R -> bool) (l : list R),
  firstn 1 (filter p l)
  = match hd_error (filter p l) with Some x => [x] | None => [] end.
Proof. intros R p l. now destruct (filter p l). Qed.

(** X5. Whatever the database does, [updateAppVisibility] changes nothing
    for a user who does not own the app (no row with this id, or a first row
    of another owner or of no owner): the tables stay as they were and the
    result, if any, is a failure. *)
Theorem updateAppVisibility_only_owner :
  forall appId userId visibility (s : Backend World) c s',
    AppService.updateAppVisibility rt appId userId visibility s = (c, s') ->
    ownsApp userId appId (tables s) = false ->
    tables s' = tables s
    /\ forall r, c = Normal r -> AppService.vis_success r = false.
Proof.
  intros appId userId visibility s c s' H Hown.
  unfold AppService.updateAppVisibility, bind, query, statement in H.
  unfold ownsApp, firstApp in Hown.
  destruct (d1Fault rt (outside s)) as [[e |] w].
  - inversion H; subst; simpl. split; [reflexivity | discriminate].
  - cbn [fst snd] in H. rewrite firstn1_filter in H.
    destruct (hd_error (filter (fun a => String.eqb (app_id a) appId)
                          (apps (tables s)))) as [a |].
    + rewrite Hown in H. cbn in H. inversion H; subst; simpl.
      split; [reflexivity |]. intros r Hr; inversion Hr; reflexivity.
    + cbn in H. inversion H; subst; simpl.
      split; [reflexivity |]. intros r Hr; inversion Hr; reflexivity.
Qed.

Lemma updateWhere_In : forall (R : Type) (p : R -> bool) (f : R -> R) l y,
  In y (updateWhere p f l) ->
  exists x, In x l /\ y = if p x then f x else x.
Proof.
  intros R p f l y H. unfold updateWhere in H. apply in_map_iff in H.
  destruct H as (x & Hy & Hx). eauto.
Qed.

Lemma filter_updateWhere_other :
  forall (R : Type) (p q : R -> bool) (f : R -> R) (l : list R),
    (forall x, p x = true -> q x = false) ->
    (forall x, p x = true -> q (f x) = false) ->
    filter q (updateWhere p f l) = filter q l.
Proof.
  intros R p q f l H1 H2. induction l as [| x l IH]; simpl; [reflexivity |].
  destruct (p x) eqn:Ep.
  - rewrite (H2 x Ep), (H1 x Ep). exact IH.
  - destruct (q x); [now rewrite IH | exact IH].
Qed.

(** X6. On a healthy database, for the owner, [updateAppVisibility]
    succeeds: afterwards every row with this id has the requested visibility,
    the rows with other ids and the other tables are as before, no row is
    added, removed or given to another owner, and the row returned carries
    the id and the requested visibility. *)
Theorem updateAppVisibility_owner :
  healthy rt ->
  forall appId userId visibility (s : Backend World),
    ownsApp userId appId (tables s) = true ->
    exists updated s',
      AppService.updateAppVisibility rt appId userId visibility s
      = (Normal {| AppService.vis_success := true; AppService.vis_error := None;
                   AppService.vis_app := Some updated |}, s')
      /\ AppService.updated_id updated = appId
      /\ AppService.updated_visibility updated = visibility
      /\ (forall a, In a (apps (tables s')) -> app_id a = appId ->
                    app_visibility a = visibility)
      /\ filter (fun a => negb (String.eqb (app_id a) appId)) (apps (tables s'))
         = filter (fun a => negb (String.eqb (app_id a) appId)) (apps (tables s))
      /\ map app_id (apps (tables s')) = map app_id (apps (tables s))
      /\ map app_userId (apps (tables s')) = map app_userId (apps (tables s))
      /\ favorites (tables s') = favorites (tables s)
      /\ stars (tables s') = stars (tables s)
      /\ appViews (tables s') = appViews (tables s)
      /\ users (tables s') = users (tables s).
Proof.
  intros Hhealthy appId userId visibility s Hown.
  unfold AppService.updateAppVisibility, bind, query.
  rewrite (statement_healthy Hhealthy). cbn [fst snd].
  unfold ownsApp, firstApp in Hown. rewrite firstn1_filter.
  destruct (hd_error (filter (fun a => String.eqb (app_id a) appId)
                        (apps (tables s)))) as [first |] eqn:Ehd;
    [| discriminate].
  rewrite Hown. cbn [negb]. unfold newDate, gets.
  rewrite (statement_healthy Hhealthy). cbn [fst snd tables set_tables set_outside].
  pose proof (hd_error_filter_some _ _ Ehd) as [Hin Hid].
  destruct (filter (fun a => String.eqb (app_id a) appId) (apps (tables s)))
    as [| hit rest] eqn:Ef; [discriminate |].
  simpl in Ehd. inversion Ehd; subst hit. cbn [map ret].
  eexists; eexists. split; [reflexivity |].
  cbn [AppService.returningUpdated AppService.setVisibility AppService.updated_id
       AppService.updated_visibility app_id app_visibility tables set_tables
       with_apps apps favorites stars appViews users].
  split; [now apply String.eqb_eq |]. split; [reflexivity |].
  split; [| split; [| split; [| split]]].
  - intros a Ha Hida. apply updateWhere_In in Ha.
    destruct Ha as (x & Hx & ->).
    destruct (String.eqb (app_id x) appId) eqn:Ex; [reflexivity |].
    apply String.eqb_neq in Ex. contradiction.
  - apply filter_updateWhere_other; intros x Hx; simpl; now rewrite Hx.
  - unfold updateWhere. rewrite map_map. apply map_ext.
    intros x. now destruct (String.eqb (app_id x) appId).
  - unfold updateWhere. rewrite map_map. apply map_ext.
    intros x. now destruct (String.eqb (app_id x) appId).
  - repeat split; reflexivity.
Qed.

End VisibilityProperties.

Lemma nullableEqb_eq : forall column value,
  nullableEqb column value = true <-> column = Some value.
Proof.
  intros [c |] value; simpl.
  - rewrite String.eqb_eq. split; [now intros -> | now inversion 1].
  - split; discriminate.
Qed.

Section DeleteProperties.

Variable World : Type.
Variable rt : Runtime World.

(** The rows that the last statement of [deleteApp] deletes are there when
    the first row with this id belongs to the user. *)
Lemma delete_hits_owner : forall appId userId (l : list AppRow) a,
  hd_error (filter (fun a => String.eqb (app_id a) appId) l) = Some a ->
  nullableEqb (app_userId a) userId = true ->
  Nat.eqb
    (length
       (map app_id
          (filter (fun a => String.eqb (app_id a) appId
                            && nullableEqb (app_userId a) userId)
             (updateWhere (fun a => nullableEqb (app_parentAppId a) appId)
                AppService.clearParent l)))) 0 = false.
Proof.
  intros appId userId l a Hhd Hown.
  apply hd_error_filter_some in Hhd. destruct Hhd as [Hin Hid].
  set (a' := if nullableEqb (app_parentAppId a) appId
             then AppService.clearParent a else a).
  assert (Hin' : In a' (updateWhere (fun a => nullableEqb (app_parentAppId a) appId)
                          AppService.clearParent l))
    by (unfold updateWhere; apply in_map_iff; exists a; auto).
  assert (Hhit : String.eqb (app_id a') appId
                 && nullableEqb (app_userId a') userId = true)
    by (unfold a'; destruct (nullableEqb (app_parentAppId a) appId); simpl;
        now rewrite Hid, Hown).
  assert (Hf : In a' (filter (fun a => String.eqb (app_id a) appId
                                       && nullableEqb (app_userId a) userId)
                        (updateWhere (fun a => nullableEqb (app_parentAppId a) appId)
                           AppService.clearParent l)))
    by (apply filter_In; auto).
  rewrite length_map.
  destruct (filter _ _); [contradiction | reflexivity].
Qed.

(** What [deleteApp] does on a healthy database. *)
Lemma deleteApp_healthy :
  healthy rt ->
  forall appId userId (s : Backend World),
    exists s',
      backend_logs s' = backend_logs s
      /\ match firstApp appId (tables s) with
         | None =>
             AppService.deleteApp rt appId userId s
             = (Normal {| AppService.del_success := false;
                          AppService.del_error := Some "App not found" |}, s')
             /\ tables s' = tables s
         | Some a =>
             if nullableEqb (app_userId a) userId then
               AppService.deleteApp rt appId userId s
               = (Normal {| AppService.del_success := true;
                            AppService.del_error := None |}, s')
               /\ tables s' = afterDelete appId userId (tables s)
             else
               AppService.deleteApp rt appId userId s
               = (Normal {| AppService.del_success := false;
                            AppService.del_error :=
                              Some "You can only delete your own apps" |}, s')
               /\ tables s' = tables s
         end.
Proof.
  intros Hhealthy appId userId s.
  unfold AppService.deleteApp, AppService.checkAppOwnership, tryCatch, bind, query.
  rewrite (statement_healthy Hhealthy). cbn [fst snd].
  unfold firstApp.
  destruct (hd_error (filter (fun a => String.eqb (app_id a) appId)
                        (apps (tables s)))) as [a |] eqn:Ehd.
  - cbn [ret AppService.exists_ AppService.isOwner negb].
    destruct (nullableEqb (app_userId a) userId) eqn:Eown; cbn [negb].
    + rewrite !(statement_healthy Hhealthy).
      cbn [fst snd tables set_tables set_outside with_favorites with_stars
           with_appViews with_apps apps favorites stars appViews appLikes users].
      rewrite (delete_hits_owner _ _ _ Ehd Eown).
      eexists. split; [| split; reflexivity]. reflexivity.
    + eexists. split; [| split; reflexivity]. reflexivity.
  - cbn [ret AppService.exists_ negb].
    eexists. split; [| split; reflexivity]. reflexivity.
Qed.

(** X7. Whatever the database does, [deleteApp] returns a result and does
    not throw; and for a user who does not own the app (no row with this id,
    or a first row of another owner or of no owner) the result is a failure
    and the tables are as they were. *)
Theorem deleteApp_only_owner :
  forall appId userId (s : Backend World),
    exists r s',
      AppService.deleteApp rt appId userId s = (Normal r, s')
      /\ (ownsApp userId appId (tables s) = false ->
          AppService.del_success r = false /\ tables s' = tables s).
Proof.
  intros appId userId s.
  assert (Hret : exists r s', AppService.deleteApp rt appId userId s = (Normal r, s')).
  { unfold AppService.deleteApp. apply tryCatch_returns.
    intros e s0. eexists; eexists; reflexivity. }
  destruct Hret as (r & s' & Hrun). exists r, s'. split; [exact Hrun |].
  intros Hown.
  unfold AppService.deleteApp, AppService.checkAppOwnership, tryCatch, bind,
    query, statement in Hrun.
  unfold ownsApp, firstApp in Hown.
  destruct (d1Fault rt (outside s)) as [[e |] w].
  - inversion Hrun; subst. split; reflexivity.
  - cbn [fst snd] in Hrun.
    destruct (hd_error (filter (fun a => String.eqb (app_id a) appId)
                          (apps (tables s)))) as [a |].
    + rewrite Hown in Hrun. cbn in Hrun. inversion Hrun; subst. split; reflexivity.
    + cbn in Hrun. inversion Hrun; subst. split; reflexivity.
Qed.

(** A [deleteApp] that reports success ran all its statements. *)
Lemma deleteApp_success_tables :
  forall appId userId (s : Backend World) r s',
    AppService.deleteApp rt appId userId s = (Normal r, s') ->
    AppService.del_success r = true ->
    ownsApp userId appId (tables s) = true
    /\ tables s' = afterDelete appId userId (tables s).
Proof.
  intros appId userId s r s' H Hsucc.
  unfold AppService.deleteApp, AppService.checkAppOwnership, tryCatch, bind,
    query, statement in H.
  unfold ownsApp, firstApp.
  destruct (d1Fault rt (outside s)) as [[e |] w];
    [cbn in H; inversion H; subst; discriminate |].
  cbn [fst snd] in H.
  destruct (hd_error (filter (fun a => String.eqb (app_id a) appId)
                        (apps (tables s)))) as [a |];
    [| cbn in H; inversion H; subst; discriminate].
  cbn [ret AppService.exists_ AppService.isOwner negb] in H.
  destruct (nullableEqb (app_userId a) userId);
    [| cbn in H; inversion H; subst; discriminate].
  split; [reflexivity |].
  cbn [negb] in H.
  repeat match type of H with
         | context [d1Fault rt ?w0] =>
             destruct (d1Fault rt w0) as [[? |] ?];
             [cbn in H; inversion H; subst; discriminate |];
             cbn [fst snd tables set_tables set_outside outside] in H
         end.
  match type of H with
  | context [Nat.eqb ?n 0] => destruct (Nat.eqb n 0)
  end; cbn in H; inversion H; subst; [discriminate |].
  reflexivity.
Qed.

(** X8. Whatever the database does, when [deleteApp] reports success the
    caller owned the app, and afterwards: no row of the user with this id is
    left; no favorite, star or view of the app is left; no app has it as
    parent; the favorites, stars and views of other apps are exactly those
    there were; every app with another id is still there with its owner and
    title (forks are kept); likes and users are untouched. *)
Theorem deleteApp_success :
  forall appId userId (s : Backend World) r s',
    AppService.deleteApp rt appId userId s = (Normal r, s') ->
    AppService.del_success r = true ->
    ownsApp userId appId (tables s) = true
    /\ (forall a, In a (apps (tables s')) ->
                  ~ (app_id a = appId /\ app_userId a = Some userId))
    /\ (forall a, In a (apps (tables s')) -> app_parentAppId a <> Some appId)
    /\ (forall f, In f (favorites (tables s')) <->
                  In f (favorites (tables s)) /\ favorite_appId f <> appId)
    /\ (forall x, In x (stars (tables s')) <->
                  In x (stars (tables s)) /\ star_appId x <> appId)
    /\ (forall v, In v (appViews (tables s')) <->
                  In v (appViews (tables s)) /\ view_appId v <> appId)
    /\ (forall a, In a (apps (tables s)) -> app_id a <> appId ->
                  exists a', In a' (apps (tables s'))
                             /\ app_id a' = app_id a
                             /\ app_userId a' = app_userId a
                             /\ app_title a' = app_title a
                             /\ app_visibility a' = app_visibility a)
    /\ appLikes (tables s') = appLikes (tables s)
    /\ users (tables s') = users (tables s).
Proof.
  intros appId userId s r s' H Hsucc.
  destruct (deleteApp_success_tables _ _ _ H Hsucc) as [Hown Ht].
  split; [exact Hown |]. rewrite Ht. unfold afterDelete. simpl.
  split; [| split; [| split; [| split; [| split; [| split; [| split]]]]]].
  - intros a Ha [Hid Hu]. apply deleteWhere_In in Ha. destruct Ha as [_ Hhit].
    apply andb_false_iff in Hhit. destruct Hhit as [Hh | Hh].
    + apply String.eqb_neq in Hh. contradiction.
    + apply nullableEqb_eq in Hu. congruence.
  - intros a Ha Hp. apply deleteWhere_In in Ha. destruct Ha as [Ha _].
    apply updateWhere_In in Ha. destruct Ha as (x & _ & ->).
    destruct (nullableEqb (app_parentAppId x) appId) eqn:Ex.
    + simpl in Hp. discriminate.
    + apply nullableEqb_eq in Hp. congruence.
  - intros f. rewrite deleteWhere_In. now rewrite String.eqb_neq.
  - intros x. rewrite deleteWhere_In. now rewrite String.eqb_neq.
  - intros v. rewrite deleteWhere_In. now rewrite String.eqb_neq.
  - intros a Ha Hid.
    exists (if nullableEqb (app_parentAppId a) appId
            then AppService.clearParent a else a).
    split.
    + apply deleteWhere_In. split.
      * unfold updateWhere. apply in_map_iff. exists a. auto.
      * apply andb_false_iff. left. apply String.eqb_neq.
        now destruct (nullableEqb (app_parentAppId a) appId).
    + now destruct (nullableEqb (app_parentAppId a) appId).
  - reflexivity.
  - reflexivity.
Qed.

(** X9. [deleteApp] is not atomic: when the owner deletes an app and the
    database throws on the third statement (the deletion of the stars), the
    result is the generic failure, the app and its stars are still there, and
    its favorites are gone. *)
Theorem deleteApp_partial :
  forall appId userId (s : Backend World) w1 w2 e w3,
    ownsApp userId appId (tables s) = true ->
    d1Fault rt (outside s) = (None, w1) ->
    d1Fault rt w1 = (None, w2) ->
    d1Fault rt w2 = (Some e, w3) ->
    exists s',
      AppService.deleteApp rt appId userId s
      = (Normal {| AppService.del_success := false;
                   AppService.del_error :=
                     Some "An error occurred while deleting the app" |}, s')
      /\ apps (tables s') = apps (tables s)
      /\ stars (tables s') = stars (tables s)
      /\ favorites (tables s')
         = deleteWhere (fun f => String.eqb (favorite_appId f) appId)
             (favorites (tables s)).
Proof.
  intros appId userId s w1 w2 e w3 Hown F1 F2 F3.
  unfold AppService.deleteApp, AppService.checkAppOwnership, tryCatch, bind,
    query, statement.
  unfold ownsApp, firstApp in Hown.
  rewrite F1. cbn [fst snd].
  destruct (hd_error (filter (fun a => String.eqb (app_id a) appId)
                        (apps (tables s)))) as [a |]; [| discriminate].
  cbn [ret AppService.exists_ AppService.isOwner negb].
  rewrite Hown. cbn [negb outside set_tables set_outside].
  rewrite F2. cbn [fst snd outside set_tables set_outside].
  rewrite F3.
  eexists. split; [reflexivity |]. cbn.
  repeat split; reflexivity.
Qed.

End DeleteProperties.

Section HandlerProperties.

Variable World : Type.
Variable rt : Runtime World.
Variable Request : Type.
Variable parseJsonBody :
  Request -> Completion (AppController.BodyResult AppController.UpdateAppVisibilityData).

Lemma truthy_path : forall appId,
  appId <> "" -> negb (truthyString (Some appId)) = false.
Proof.
  intros appId H. simpl. apply String.eqb_neq in H. now rewrite H.
Qed.

(** What [checkAppOwnership] finds on a healthy database. *)
Lemma checkAppOwnership_healthy :
  healthy rt ->
  forall appId userId (s : Backend World),
    AppService.checkAppOwnership rt appId userId s
    = (Normal {| AppService.exists_ :=
                   match firstApp appId (tables s) with
                   | Some _ => true
                   | None => false
                   end;
                 AppService.isOwner := ownsApp userId appId (tables s) |},
       set_outside (snd (d1Fault rt (outside s))) s).
Proof.
  intros Hhealthy appId userId s.
  unfold AppService.checkAppOwnership, bind, query.
  rewrite (statement_healthy Hhealthy). cbn [fst snd].
  unfold ownsApp, firstApp.
  now destruct (hd_error (filter (fun a => String.eqb (app_id a) appId)
                            (apps (tables s)))).
Qed.

(** X10. The [deleteApp] handler on a healthy database: 400 without an app
    id, before anything else is looked at; otherwise 500 without a user, 404
    when no row has the id, 403 when its first row belongs to someone else
    or to no one, and in these cases the tables are as they were; for the
    owner the app is deleted and the handler answers with success. *)
Theorem deleteApp_handler_responses :
  healthy rt ->
  forall context (s : Backend World),
    (truthyString (AppController.pathId context) = false ->
     AppController.deleteApp rt context s
     = (Normal (AppController.ErrorResponse "App ID is required" 400), s))
    /\ (forall appId,
           AppController.pathId context = Some appId -> appId <> "" ->
           (AppController.ctx_user context = None ->
            exists s',
              AppController.deleteApp rt context s
              = (Normal (AppController.ErrorResponse "Failed to delete app" 500), s')
              /\ tables s' = tables s)
           /\ (forall u,
                  AppController.ctx_user context = Some u ->
                  (firstApp appId (tables s) = None ->
                   exists s',
                     AppController.deleteApp rt context s
                     = (Normal (AppController.ErrorResponse "App not found" 404), s')
                     /\ tables s' = tables s)
                  /\ (forall a,
                         firstApp appId (tables s) = Some a ->
                         app_userId a <> Some (AppController.auth_id u) ->
                         exists s',
                           AppController.deleteApp rt context s
                           = (Normal (AppController.ErrorResponse
                                        "You can only delete your own apps" 403), s')
                           /\ tables s' = tables s)
                  /\ (forall a,
                         firstApp appId (tables s) = Some a ->
                         app_userId a = Some (AppController.auth_id u) ->
                         exists s',
                           AppController.deleteApp rt context s
                           = (Normal (AppController.SuccessResponse
                                        {| AppController.delete_success := true;
                                           AppController.delete_message :=
                                             "App deleted successfully" |}), s')
                           /\ tables s'
                              = afterDelete appId (AppController.auth_id u)
                                  (tables s)))).
Proof.
  intros Hhealthy context s. split.
  - intros Hid. unfold AppController.deleteApp, tryCatch. cbv zeta.
    now rewrite Hid.
  - intros appId Hpath Hne.
    assert (Hguard : negb (truthyString (AppController.pathId context)) = false)
      by (rewrite Hpath; now apply truthy_path).
    split.
    + intros Huser. unfold AppController.deleteApp, tryCatch, bind. cbv zeta.
      rewrite Hguard. unfold AppController.userIdOf. rewrite Huser.
      eexists. split; reflexivity.
    + intros u Huser.
      assert (Hrun : forall r s1,
                 AppService.deleteApp rt appId (AppController.auth_id u) s
                 = (Normal r, s1) ->
                 AppController.deleteApp rt context s
                 = (if negb (AppService.del_success r) then
                      Normal (AppController.ErrorResponse
                                (AppController.orMessage (AppService.del_error r)
                                   "Failed to delete app")
                                (AppController.failureStatus (AppService.del_error r)
                                   "only delete your own apps"))
                    else
                      Normal (AppController.SuccessResponse
                                {| AppController.delete_success := true;
                                   AppController.delete_message :=
                                     "App deleted successfully" |}),
                    s1)).
      { intros r s1 E. unfold AppController.deleteApp, tryCatch, bind. cbv zeta.
        rewrite Hguard, Hpath. unfold AppController.userIdOf. rewrite Huser.
        cbn [ret orDefault]. rewrite E.
        now destruct (negb (AppService.del_success r)). }
      destruct (deleteApp_healthy Hhealthy appId (AppController.auth_id u) s)
        as (s1 & _ & Hcase).
      split; [| split].
      * intros Hfirst. rewrite Hfirst in Hcase. destruct Hcase as [E Ht].
        exists s1. split; [| exact Ht]. now rewrite (Hrun _ _ E).
      * intros a Hfirst Hother. rewrite Hfirst in Hcase.
        destruct (nullableEqb (app_userId a) (AppController.auth_id u)) eqn:Eo;
          [apply nullableEqb_eq in Eo; contradiction |].
        destruct Hcase as [E Ht].
        exists s1. split; [| exact Ht]. now rewrite (Hrun _ _ E).
      * intros a Hfirst Hmine. rewrite Hfirst in Hcase.
        apply nullableEqb_eq in Hmine. rewrite Hmine in Hcase.
        destruct Hcase as [E Ht].
        exists s1. split; [| exact Ht]. now rewrite (Hrun _ _ E).
Qed.

(** What [updateAppVisibility] answers on a healthy database. *)
Lemma updateAppVisibility_healthy :
  healthy rt ->
  forall appId userId visibility (s : Backend World),
    exists s',
      match firstApp appId (tables s) with
      | None =>
          AppService.updateAppVisibility rt appId userId visibility s
          = (Normal {| AppService.vis_success := false;
                       AppService.vis_error := Some "App not found";
                       AppService.vis_app := None |}, s')
          /\ tables s' = tables s
      | Some a =>
          if nullableEqb (app_userId a) userId then
            AppService.updateAppVisibility rt appId userId visibility s
            = (Normal {| AppService.vis_success := true;
                         AppService.vis_error := None;
                         AppService.vis_app :=
                           Some {| AppService.updated_id := app_id a;
                                   AppService.updated_title := app_title a;
                                   AppService.updated_visibility := visibility;
                                   AppService.updated_updatedAt :=
                                     currentDate rt (snd (d1Fault rt (outside s))) |} |},
               s')
            /\ app_id a = appId
          else
            AppService.updateAppVisibility rt appId userId visibility s
            = (Normal {| AppService.vis_success := false;
                         AppService.vis_error :=
                           Some "You can only change visibility of your own apps";
                         AppService.vis_app := None |}, s')
            /\ tables s' = tables s
      end.
Proof.
  intros Hhealthy appId userId visibility s.
  unfold AppService.updateAppVisibility, bind, query.
  rewrite (statement_healthy Hhealthy). cbn [fst snd].
  unfold firstApp. rewrite firstn1_filter.
  destruct (hd_error (filter (fun a => String.eqb (app_id a) appId)
                        (apps (tables s)))) as [first |] eqn:Ehd.
  - destruct (nullableEqb (app_userId first) userId) eqn:Eown; cbn [negb].
    + unfold newDate, gets.
      rewrite (statement_healthy Hhealthy).
      cbn [fst snd tables set_tables set_outside outside].
      pose proof (hd_error_filter_some _ _ Ehd) as [Hin Hid].
      destruct (filter (fun a => String.eqb (app_id a) appId) (apps (tables s)))
        as [| hit rest] eqn:Ef; [discriminate |].
      simpl in Ehd. inversion Ehd; subst hit. cbn [map ret].
      eexists. split; [reflexivity | now apply String.eqb_eq].
    + eexists. split; reflexivity.
  - eexists. split; reflexivity.
Qed.

Lemma visibility_guard : forall v,
  negb (jsTruthy v) || negb (includesValue ["private"; "public"] v) = false
  <-> v = Some (JsonString "private") \/ v = Some (JsonString "public").
Proof.
  intros v. split.
  - intros H. apply orb_false_iff in H. destruct H as [_ H].
    apply negb_false_iff in H.
    destruct v as [[x | n | b |] |]; simpl in H; try discriminate.
    rewrite !orb_false_r in H. apply orb_true_iff in H.
    destruct H as [H | H]; apply String.eqb_eq in H; subst; auto.
  - intros [-> | ->]; reflexivity.
Qed.

(** X11. The [updateAppVisibility] handler on a healthy database, for a
    request with an app id: a body that fails to parse is answered as the
    parser says; a body whose [visibility] is not the string private or
    public is answered 400 and nothing else is looked at; otherwise 500
    without a user, 404 when no row has the id, 403 when its first row
    belongs to someone else, with the tables as they were; for the owner the
    answer carries the requested visibility and the message naming it. *)
Theorem updateAppVisibility_handler_responses :
  healthy rt ->
  forall request context (s : Backend World) appId,
    AppController.pathId context = Some appId -> appId <> "" ->
    (forall response,
        parseJsonBody request = Normal (AppController.BodyRejected response) ->
        AppController.updateAppVisibility rt parseJsonBody request context s
        = (Normal response, s))
    /\ (forall data,
           parseJsonBody request = Normal (AppController.BodyParsed data) ->
           let visibility :=
             match data with Some o => lookup "visibility" o | None => None end in
           (visibility <> Some (JsonString "private") ->
            visibility <> Some (JsonString "public") ->
            AppController.updateAppVisibility rt parseJsonBody request context s
            = (Normal (AppController.ErrorResponse
                         AppController.invalidVisibilityMessage 400), s))
           /\ (forall v,
                  visibility = Some (JsonString v) ->
                  v = "private" \/ v = "public" ->
                  (AppController.ctx_user context = None ->
                   exists s',
                     AppController.updateAppVisibility rt parseJsonBody request
                       context s
                     = (Normal (AppController.ErrorResponse
                                  "Failed to update app visibility" 500), s')
                     /\ tables s' = tables s)
                  /\ (forall u,
                         AppController.ctx_user context = Some u ->
                         (firstApp appId (tables s) = None ->
                          exists s',
                            AppController.updateAppVisibility rt parseJsonBody
                              request context s
                            = (Normal (AppController.ErrorResponse
                                         "App not found" 404), s')
                            /\ tables s' = tables s)
                         /\ (forall a,
                                firstApp appId (tables s) = Some a ->
                                app_userId a <> Some (AppController.auth_id u) ->
                                exists s',
                                  AppController.updateAppVisibility rt
                                    parseJsonBody request context s
                                  = (Normal
                                       (AppController.ErrorResponse
                                          "You can only change visibility of your own apps"
                                          403), s')
                                  /\ tables s' = tables s)
                         /\ (forall a,
                                firstApp appId (tables s) = Some a ->
                                app_userId a = Some (AppController.auth_id u) ->
                                exists updated s',
                                  AppController.updateAppVisibility rt
                                    parseJsonBody request context s
                                  = (Normal
                                       (AppController.SuccessResponse
                                          {| AppController.visibility_app := updated;
                                             AppController.visibility_message :=
                                               "App visibility updated to " ++ v |}),
                                     s')
                                  /\ AppService.updated_id updated = appId
                                  /\ AppService.updated_visibility updated = v)))).
Proof.
  intros Hhealthy request context s appId Hpath Hne.
  assert (Hguard : negb (truthyString (AppController.pathId context)) = false)
    by (rewrite Hpath; now apply truthy_path).
  split.
  - intros response Hparse.
    unfold AppController.updateAppVisibility, tryCatch, bind, liftCompletion.
    cbv zeta. now rewrite Hguard, Hparse.
  - intros data Hparse visibility. split.
    + intros Hp Hq.
      unfold AppController.updateAppVisibility, tryCatch, bind, liftCompletion.
      cbv zeta. rewrite Hguard, Hparse. fold visibility.
      destruct (negb (jsTruthy visibility)
                || negb (includesValue ["private"; "public"] visibility)) eqn:G;
        [reflexivity |].
      apply visibility_guard in G. tauto.
    + intros v Hv Hvalid.
      assert (G : negb (jsTruthy visibility)
                  || negb (includesValue ["private"; "public"] visibility) = false)
        by (apply visibility_guard; rewrite Hv; destruct Hvalid; subst; auto).
      assert (Hrun : forall c s1,
                 (userId <- AppController.userIdOf (World := World) context ;;
                  AppService.updateAppVisibility rt appId userId v) s = (c, s1) ->
                 AppController.updateAppVisibility rt parseJsonBody request context s
                 = tryCatch
                     (fun s0 =>
                        match c with
                        | Normal result =>
                            (if negb (AppService.vis_success result) then
                               ret (AppController.ErrorResponse
                                      (AppController.orMessage
                                         (AppService.vis_error result)
                                         "Failed to update app visibility")
                                      (AppController.failureStatus
                                         (AppService.vis_error result)
                                         "only change visibility of your own apps"))
                             else
                               match AppService.vis_app result with
                               | Some app =>
                                   ret (AppController.SuccessResponse
                                          {| AppController.visibility_app := app;
                                             AppController.visibility_message :=
                                               "App visibility updated to " ++ v |})
                               | None =>
                                   throw (OtherError "TypeError"
                                            "Cannot read properties of undefined (reading 'visibility')")
                               end) s1
                        | Thrown e => (Thrown e, s1)
                        end)
                     (fun error =>
                        service_logger_error "Error updating app visibility:" error ;;
                        ret (AppController.ErrorResponse
                               "Failed to update app visibility" 500)) s).
      { intros c s1 E.
        unfold AppController.updateAppVisibility, tryCatch, liftCompletion.
        cbv zeta. rewrite Hguard, Hpath. cbn [orDefault].
        unfold bind at 1. rewrite Hparse. fold visibility. rewrite G, Hv.
        cbn [AppController.asVisibility].
        unfold bind in E. unfold bind.
        destruct (AppController.userIdOf context s) as [[uid | e] s0];
          [| inversion E; subst; reflexivity].
        rewrite E. now destruct c. }
      split.
      * intros Huser.
        erewrite Hrun
          by (unfold bind, AppController.userIdOf; rewrite Huser; reflexivity).
        eexists. split; reflexivity.
      * intros u Huser.
        destruct (updateAppVisibility_healthy Hhealthy appId
                    (AppController.auth_id u) v s) as (s1 & Hcase).
        assert (Hbind : forall c,
                   AppService.updateAppVisibility rt appId
                     (AppController.auth_id u) v s = (c, s1) ->
                   (userId <- AppController.userIdOf (World := World) context ;;
                    AppService.updateAppVisibility rt appId userId v) s = (c, s1))
          by (intros c E; unfold bind, AppController.userIdOf;
              rewrite Huser; exact E).
        split; [| split].
        -- intros Hfirst. rewrite Hfirst in Hcase. destruct Hcase as [E Ht].
           exists s1. split; [| exact Ht]. now rewrite (Hrun _ _ (Hbind _ E)).
        -- intros a Hfirst Hother. rewrite Hfirst in Hcase.
           destruct (nullableEqb (app_userId a) (AppController.auth_id u)) eqn:Eo;
             [apply nullableEqb_eq in Eo; contradiction |].
           destruct Hcase as [E Ht].
           exists s1. split; [| exact Ht]. now rewrite (Hrun _ _ (Hbind _ E)).
        -- intros a Hfirst Hmine. rewrite Hfirst in Hcase.
           apply nullableEqb_eq in Hmine. rewrite Hmine in Hcase.
           destruct Hcase as [E Hid].
           eexists; exists s1. split; [now rewrite (Hrun _ _ (Hbind _ E)) |].
           split; [exact Hid | reflexivity].
Qed.

(** X12. The [toggleFavorite] handler on a healthy database: 400 without
    an app id; otherwise 500 without a user and 404 when no row has the id,
    with the tables as they were; and for any existing app, whoever owns it,
    the favorite is toggled and the answer reports the new state. *)
Theorem toggleFavorite_handler_responses :
  healthy rt ->
  alwaysGenerates (generateId rt) ->
  forall context (s : Backend World),
    (truthyString (AppController.pathId context) = false ->
     AppController.toggleFavorite rt context s
     = (Normal (AppController.ErrorResponse "App ID is required" 400), s))
    /\ (forall appId,
           AppController.pathId context = Some appId -> appId <> "" ->
           (AppController.ctx_user context = None ->
            exists s',
              AppController.toggleFavorite rt context s
              = (Normal (AppController.ErrorResponse "Failed to toggle favorite" 500),
                 s')
              /\ tables s' = tables s)
           /\ (forall u,
                  AppController.ctx_user context = Some u ->
                  (firstApp appId (tables s) = None ->
                   exists s',
                     AppController.toggleFavorite rt context s
                     = (Normal (AppController.ErrorResponse "App not found" 404), s')
                     /\ tables s' = tables s)
                  /\ (forall a,
                         firstApp appId (tables s) = Some a ->
                         exists s',
                           AppController.toggleFavorite rt context s
                           = (Normal
                                (AppController.SuccessResponse
                                   {| AppService.isFavorite :=
                                        negb (isFavorited (AppController.auth_id u)
                                                appId (tables s)) |}), s')
                           /\ isFavorited (AppController.auth_id u) appId (tables s')
                              = negb (isFavorited (AppController.auth_id u) appId
                                        (tables s))))).
Proof.
  intros Hhealthy Hids context s. split.
  - intros Hid. unfold AppController.toggleFavorite, tryCatch. cbv zeta.
    now rewrite Hid.
  - intros appId Hpath Hne.
    assert (Hguard : negb (truthyString (AppController.pathId context)) = false)
      by (rewrite Hpath; now apply truthy_path).
    split.
    + intros Huser. unfold AppController.toggleFavorite, tryCatch, bind. cbv zeta.
      rewrite Hguard. unfold AppController.userIdOf. rewrite Huser.
      eexists. split; reflexivity.
    + intros u Huser. split.
      * intros Hfirst.
        unfold AppController.toggleFavorite, tryCatch, bind. cbv zeta.
        rewrite Hguard, Hpath. unfold AppController.userIdOf. rewrite Huser.
        cbn [ret orDefault]. rewrite (checkAppOwnership_healthy Hhealthy).
        rewrite Hfirst. cbn [AppService.exists_ negb].
        eexists. split; reflexivity.
      * intros a Hfirst.
        unfold AppController.toggleFavorite, tryCatch, bind. cbv zeta.
        rewrite Hguard, Hpath. unfold AppController.userIdOf. rewrite Huser.
        cbn [ret orDefault]. rewrite (checkAppOwnership_healthy Hhealthy).
        rewrite Hfirst. cbn [AppService.exists_ negb].
        destruct (toggleAppFavorite_flip Hhealthy Hids (AppController.auth_id u)
                    appId (set_outside (snd (d1Fault rt (outside s))) s))
          as (r & s' & E & Hr & Hs').
        rewrite E. cbn [tables set_outside] in Hr, Hs'.
        exists s'. destruct r as [b]. cbn [AppService.isFavorite] in Hr, Hs'.
        subst b. split; [reflexivity | exact Hs'].
Qed.




(** X14. For a request with an app id and a user, when the database throws
    on the first statement, every handler answers 500 and the tables are as
    they were: [toggleFavorite], [getApp] and [updateAppVisibility] (given a
    valid body) with the message of their own [catch] block, and [deleteApp]
    with the message of the service's [catch] block, which the handler passes
    on. *)
Theorem handlers_on_database_fault :
  forall request context (s : Backend World) appId u e w,
    AppController.pathId context = Some appId -> appId <> "" ->
    AppController.ctx_user context = Some u ->
    d1Fault rt (outside s) = (Some e, w) ->
    (exists s',
        AppController.toggleFavorite rt context s
        = (Normal (AppController.ErrorResponse "Failed to toggle favorite" 500), s')
        /\ tables s' = tables s)
    /\ (exists s',
           AppController.getApp rt context s
           = (Normal (AppController.ErrorResponse "Failed to fetch app" 500), s')
           /\ tables s' = tables s)
    /\ (exists s',
           AppController.deleteApp rt context s
           = (Normal (AppController.ErrorResponse
                        "An error occurred while deleting the app" 500), s')
           /\ tables s' = tables s)
    /\ (forall data v,
           parseJsonBody request = Normal (AppController.BodyParsed data) ->
           match data with Some o => lookup "visibility" o | None => None end
           = Some (JsonString v) ->
           v = "private" \/ v = "public" ->
           exists s',
             AppController.updateAppVisibility rt parseJsonBody request context s
             = (Normal (AppController.ErrorResponse
                          "Failed to update app visibility" 500), s')
             /\ tables s' = tables s).
Proof.
  intros request context s appId u e w Hpath Hne Huser Hfault.
  assert (Hguard : negb (truthyString (AppController.pathId context)) = false)
    by (rewrite Hpath; now apply truthy_path).
  split; [| split; [| split]].
  - unfold AppController.toggleFavorite, tryCatch, bind. cbv zeta.
    rewrite Hguard, Hpath. unfold AppController.userIdOf. rewrite Huser.
    cbn [ret orDefault].
    unfold AppService.checkAppOwnership, bind, query, statement.
    rewrite Hfault. eexists. split; reflexivity.
  - unfold AppController.getApp, tryCatch, bind. cbv zeta.
    rewrite Hguard, Hpath. unfold AppController.userIdOf. rewrite Huser.
    cbn [ret orDefault].
    unfold AppService.getSingleAppWithFavoriteStatus, bind, query, statement.
    rewrite Hfault. eexists. split; reflexivity.
  - unfold AppController.deleteApp, tryCatch, bind. cbv zeta.
    rewrite Hguard, Hpath. unfold AppController.userIdOf. rewrite Huser.
    cbn [ret orDefault].
    unfold AppService.deleteApp, AppService.checkAppOwnership, tryCatch, bind,
      query, statement.
    rewrite Hfault. eexists. split; reflexivity.
  - intros data v Hparse Hv Hvalid.
    unfold AppController.updateAppVisibility, tryCatch, bind, liftCompletion.
    cbv zeta. rewrite Hguard, Hpath, Hparse. rewrite Hv.
    assert (G : negb (jsTruthy (Some (JsonString v)))
                || negb (includesValue ["private"; "public"] (Some (JsonString v)))
                = false)
      by (destruct Hvalid; subst; reflexivity).
    rewrite G. unfold AppController.userIdOf. rewrite Huser.
    cbn [ret orDefault AppController.asVisibility].
    unfold AppService.updateAppVisibility, bind, query, statement.
    rewrite Hfault. eexists. split; reflexivity.
Qed.

(** X15. Whatever the database does, [recordAppView] returns and does not
    throw; the tables are then as they were, or have one more view row, of
    this app and this user, at the end of the views.  Nothing in it looks at
    the views there are: a view is recorded each time. *)
Theorem recordAppView_appends_or_nothing :
  forall appId userId (s : Backend World),
    exists s',
      AppService.recordAppView rt appId userId s = (Normal tt, s')
      /\ (tables s' = tables s
          \/ exists v,
               view_appId v = appId /\ view_userId v = userId
               /\ tables s'
                  = with_appViews (appViews (tables s) ++ [v])%list (tables s))
      /\ (healthy rt -> alwaysGenerates (generateId rt) ->
          countWhere (fun v => String.eqb (view_appId v) appId
                               && String.eqb (view_userId v) userId)
            (appViews (tables s'))
          = S (countWhere (fun v => String.eqb (view_appId v) appId
                                    && String.eqb (view_userId v) userId)
                 (appViews (tables s)))).
Proof.
  intros appId userId s.
  unfold AppService.recordAppView, tryCatch, bind, newId, newDate, gets, statement.
  destruct (generateId rt (outside s)) as [[id | e] w] eqn:Eid.
  - cbn [outside set_outside tables].
    destruct (d1Fault rt w) as [[e |] w'] eqn:Efault.
    + eexists. split; [reflexivity |]. split; [left; reflexivity |].
      intros Hhealthy _. specialize (Hhealthy w). rewrite Efault in Hhealthy.
      discriminate.
    + eexists. split; [reflexivity |]. split.
      * right. eexists. cbn. repeat split; reflexivity.
      * intros _ _. cbn. unfold countWhere. rewrite filter_app, length_app.
        cbn. rewrite !String.eqb_refl. cbn. lia.
  - eexists. split; [reflexivity |]. split; [left; reflexivity |].
    intros _ Hids. destruct (Hids (outside s)) as (id & w' & E).
    rewrite E in Eid. discriminate.
Qed.

End HandlerProperties.

Section GroupCount.

Variable K : Type.
Variable eqb : K -> K -> bool.
Hypothesis eqb_spec : forall a b, eqb a b = true <-> a = b.

Local Abbreviation countIn target groups :=
  (orDefault (AnalyticsService.findCount (fun k => eqb k target) groups) 0).

Lemma eqb_same : forall a, eqb a a = true.
Proof. intros a. now apply eqb_spec. Qed.

Lemma countIn_bump : forall target k groups,
  countIn target (bumpCount eqb k groups)
  = countIn target groups + (if eqb k target then 1 else 0).
Proof.
  intros target k groups. unfold AnalyticsService.findCount.
  induction groups as [| [k' n] rest IH]; simpl.
  - now destruct (eqb k target).
  - destruct (eqb k' k) eqn:Ek; simpl.
    + apply eqb_spec in Ek. subst k'.
      destruct (eqb k target); simpl; lia.
    + destruct (eqb k' target) eqn:Et; simpl.
      * apply eqb_spec in Et. subst k'.
        destruct (eqb k target) eqn:Ekt; [| lia].
        apply eqb_spec in Ekt. subst k. rewrite eqb_same in Ek. discriminate.
      * exact IH.
Qed.

Lemma countIn_fold : forall target keys groups,
  countIn target (fold_left (fun g k => bumpCount eqb k g) keys groups)
  = countIn target groups + countWhere (fun k => eqb k target) keys.
Proof.
  intros target keys. unfold countWhere.
  induction keys as [| k keys IH]; intros groups; simpl; [lia |].
  rewrite IH, countIn_bump. destruct (eqb k target); simpl; lia.
Qed.

(** Looking a key up in grouped counts gives the number of its occurrences,
    and nothing when it does not occur. *)
Lemma findCount_groupCount : forall target keys,
  orDefault (AnalyticsService.findCount (fun k => eqb k target)
               (groupCount eqb keys)) 0
  = countWhere (fun k => eqb k target) keys.
Proof.
  intros target keys. unfold groupCount.
  exact (countIn_fold target keys []).
Qed.

End GroupCount.

Lemma countWhere_map_filter :
  forall (R K : Type) (f : R -> K) (p : K -> bool) (q : R -> bool) (l : list R),
    (forall x, p (f x) = true -> q x = true) ->
    countWhere p (map f (filter q l)) = countWhere (fun x => p (f x)) l.
Proof.
  intros R K f p q l H. unfold countWhere.
  induction l as [| x l IH]; simpl; [reflexivity |].
  destruct (q x) eqn:Eq; simpl.
  - destruct (p (f x)); simpl; now rewrite IH.
  - destruct (p (f x)) eqn:Ep; [apply H in Ep; congruence | exact IH].
Qed.

Lemma lookup_assign : forall (V : Type) (k k' : string) (v : V) o,
  lookup k (assign k' v o) = if String.eqb k k' then Some v else lookup k o.
Proof.
  intros V k k' v o. induction o as [| [k0 w] rest IH]; simpl.
  - reflexivity.
  - destruct (String.eqb k' k0) eqn:E0; simpl.
    + apply String.eqb_eq in E0. subst k0.
      now destruct (String.eqb k k').
    + destruct (String.eqb k k0) eqn:E1.
      * destruct (String.eqb k k') eqn:E2; [| reflexivity].
        apply String.eqb_eq in E1. apply String.eqb_eq in E2. subst.
        rewrite String.eqb_refl in E0. discriminate.
      * exact IH.
Qed.

Lemma lookup_fold_assign :
  forall (V : Type) (f : string -> V) (k : string) (keys : list string) o,
    lookup k (fold_left (fun result key => assign key (f key) result) keys o)
    = if inArray keys k then Some (f k) else lookup k o.
Proof.
  intros V f k keys. induction keys as [| key keys IH]; intros o; simpl.
  - reflexivity.
  - rewrite IH, lookup_assign.
    destruct (String.eqb k key) eqn:E; simpl.
    + apply String.eqb_eq in E. subst key. now destruct (inArray keys k).
    + reflexivity.
Qed.

Lemma inArray_In : forall keys k, inArray keys k = true <-> In k keys.
Proof.
  intros keys k. unfold inArray. rewrite existsb_exists. split.
  - intros (x & Hin & E). apply String.eqb_eq in E. now subst.
  - intros H. exists k. split; [exact H | apply String.eqb_refl].
Qed.

Lemma optionStringEqb_spec : forall a b,
  AnalyticsService.optionStringEqb a b = true <-> a = b.
Proof.
  intros [x |] [y |]; simpl; try (split; [discriminate | discriminate]).
  - rewrite String.eqb_eq. split; [now intros -> | now inversion 1].
  - tauto.
Qed.

Section AnalyticsProperties.

Variable World : Type.
Variable rt : Runtime World.

(** X16. On a healthy database the object that [batchGetAppStats] returns
    has, for every id asked for (other than the key [__proto__], which an
    assignment does not store as an entry), an entry with the very statistics
    that [getAppStats] gives for that id, and no entry for an id not asked
    for; for an empty list it returns the empty object without running a
    statement, whatever the database. *)
Theorem batchGetAppStats_agrees :
  (forall s : Backend World,
      AnalyticsService.batchGetAppStats rt [] s = (Normal [], s))
  /\ (healthy rt ->
      forall appIds (s : Backend World),
      exists result s',
        AnalyticsService.batchGetAppStats rt appIds s = (Normal result, s')
        /\ tables s' = tables s
        /\ (forall appId, In appId appIds -> appId <> "__proto__" ->
              exists stats s1,
                AnalyticsService.getAppStats rt appId s = (Normal stats, s1)
                /\ lookup appId result = Some stats)
        /\ (forall appId, ~ In appId appIds -> lookup appId result = None)).
Proof.
  split; [reflexivity |].
  intros Hhealthy appIds s.
  unfold AnalyticsService.batchGetAppStats.
  destruct (Nat.eqb (length appIds) 0) eqn:Elen.
  - destruct appIds; [| discriminate].
    exists [], s. repeat split; try reflexivity. intros appId [].
  - unfold bind, query. rewrite !(statement_healthy Hhealthy).
    cbn [fst snd tables set_tables set_outside ret].
    eexists; eexists. split; [reflexivity |]. split; [reflexivity |].
    split.
    + intros appId Hin _.
      unfold AnalyticsService.getAppStats, bind, query.
      rewrite !(statement_healthy Hhealthy).
      cbn [fst snd tables set_tables set_outside ret orDefault].
      eexists; eexists. split; [reflexivity |].
      rewrite (lookup_fold_assign
                 (fun key =>
                    {| AnalyticsService.viewCount :=
                         orDefault (AnalyticsService.findCount
                                      (fun k => String.eqb k key)
                                      (AnalyticsService.viewGroups appIds (tables s))) 0;
                       AnalyticsService.forkCount :=
                         orDefault (AnalyticsService.findCount
                                      (fun k => nullableEqb k key)
                                      (AnalyticsService.forkGroups appIds (tables s))) 0;
                       AnalyticsService.likeCount :=
                         orDefault (AnalyticsService.findCount
                                      (fun k => String.eqb k key)
                                      (AnalyticsService.likeGroups appIds (tables s))) 0 |})).
      apply inArray_In in Hin. rewrite Hin. f_equal.
      unfold AnalyticsService.viewGroups, AnalyticsService.forkGroups,
        AnalyticsService.likeGroups.
      f_equal.
      * rewrite (findCount_groupCount String.eqb String.eqb_eq).
        apply countWhere_map_filter.
        intros x Hx. apply String.eqb_eq in Hx. now rewrite Hx.
      * change (fun k => nullableEqb k appId)
          with (fun k => AnalyticsService.optionStringEqb k (Some appId)).
        rewrite (findCount_groupCount AnalyticsService.optionStringEqb
                   optionStringEqb_spec).
        rewrite countWhere_map_filter.
        -- reflexivity.
        -- intros x Hx. apply optionStringEqb_spec in Hx. now rewrite Hx.
      * rewrite (findCount_groupCount String.eqb String.eqb_eq).
        apply countWhere_map_filter.
        intros x Hx. apply String.eqb_eq in Hx. now rewrite Hx.
    + intros appId Hnot.
      rewrite (lookup_fold_assign
                 (fun key =>
                    {| AnalyticsService.viewCount :=
                         orDefault (AnalyticsService.findCount
                                      (fun k => String.eqb k key)
                                      (AnalyticsService.viewGroups appIds (tables s))) 0;
                       AnalyticsService.forkCount :=
                         orDefault (AnalyticsService.findCount
                                      (fun k => nullableEqb k key)
                                      (AnalyticsService.forkGroups appIds (tables s))) 0;
                       AnalyticsService.likeCount :=
                         orDefault (AnalyticsService.findCount
                                      (fun k => String.eqb k key)
                                      (AnalyticsService.likeGroups appIds (tables s))) 0 |})).
      destruct (inArray appIds appId) eqn:E; [| reflexivity].
      apply inArray_In in E. contradiction.
Qed.

End AnalyticsProperties.

Section UserProperties.

Variable World : Type.
Variable rt : Runtime World.

(** What [updateProfileRow] leaves behind. *)
Lemma updateProfileRow_inv : forall userId profileData (s : Backend World) c s',
  UserService.updateProfileRow rt userId profileData s = (c, s') ->
  ((exists e, c = Thrown e) /\ tables s' = tables s)
  \/ (c = Normal {| UserService.success := true;
                    UserService.message := "Profile updated successfully" |}
      /\ exists updatedAt,
           tables s'
           = with_users
               (updateWhere (fun u => String.eqb (user_id u) userId)
                  (UserService.applyProfile profileData updatedAt)
                  (users (tables s))) (tables s)).
Proof.
  intros userId profileData s c s' H.
  unfold UserService.updateProfileRow, bind, newDate, gets, statement in H.
  cbn [outside] in H.
  destruct (d1Fault rt (outside s)) as [[e |] w]; inversion H; subst; simpl.
  - left. eauto.
  - right. eauto.
Qed.

(** The outcomes of [updateUserProfileWithValidation], whatever the database
    does: nothing changed and no success, or the profile row was updated
    after the username, if one was given, passed every check. *)
Lemma updateUserProfile_inv : forall userId profileData (s : Backend World) c s',
  UserService.updateUserProfileWithValidation rt userId profileData s = (c, s') ->
  (tables s' = tables s
   /\ forall r, c = Normal r -> UserService.success r = false)
  \/ (c = Normal {| UserService.success := true;
                    UserService.message := "Profile updated successfully" |}
      /\ (exists updatedAt,
             tables s'
             = with_users
                 (updateWhere (fun u => String.eqb (user_id u) userId)
                    (UserService.applyProfile profileData updatedAt)
                    (users (tables s))) (tables s))
      /\ (truthyString (UserService.username profileData) = true ->
          UserService.usernamePattern
            (orDefault (UserService.username profileData) "") = true
          /\ 3 <= String.length (orDefault (UserService.username profileData) "")
          /\ String.length (orDefault (UserService.username profileData) "") <= 30
          /\ ~ In (UserService.toLowerCase
                     (orDefault (UserService.username profileData) ""))
                  UserService.reserved
          /\ forall u,
               hd_error
                 (filter (fun u => nullableEqb (user_username u)
                                     (orDefault (UserService.username profileData) ""))
                    (users (tables s))) = Some u ->
               user_id u = userId)).
Proof.
  intros userId profileData s c s' H.
  assert (Hrow : forall (s0 : Backend World),
             tables s0 = tables s ->
             UserService.updateProfileRow rt userId profileData s0 = (c, s') ->
             (tables s' = tables s
              /\ forall r, c = Normal r -> UserService.success r = false)
             \/ (c = Normal {| UserService.success := true;
                               UserService.message := "Profile updated successfully" |}
                 /\ exists updatedAt,
                      tables s'
                      = with_users
                          (updateWhere (fun u => String.eqb (user_id u) userId)
                             (UserService.applyProfile profileData updatedAt)
                             (users (tables s))) (tables s))).
  { intros s0 Ht Hr. apply updateProfileRow_inv in Hr.
    destruct Hr as [[(e & ->) Hs] | [-> (d & Hs)]].
    - left. split; [congruence | discriminate].
    - right. split; [reflexivity |]. exists d. now rewrite Hs, Ht. }
  unfold UserService.updateUserProfileWithValidation in H.
  destruct (truthyString (UserService.username profileData)) eqn:Etruthy.
  2:{ destruct (Hrow s eq_refl H) as [Hl | [Hc Hs]]; [left; exact Hl |].
      right. split; [exact Hc |]. split; [exact Hs | discriminate]. }
  set (name := orDefault (UserService.username profileData) "") in *.
  destruct (UserService.usernamePattern name) eqn:Epat; cbn [negb] in H.
  2:{ inversion H; subst. left. split; [reflexivity |].
      intros r Hr; inversion Hr; reflexivity. }
  destruct (Nat.ltb (String.length name) 3 || Nat.ltb 30 (String.length name))
    eqn:Elen.
  { inversion H; subst. left. split; [reflexivity |].
    intros r Hr; inversion Hr; reflexivity. }
  destruct (existsb (String.eqb (UserService.toLowerCase name)) UserService.reserved)
    eqn:Eres.
  { inversion H; subst. left. split; [reflexivity |].
    intros r Hr; inversion Hr; reflexivity. }
  apply orb_false_iff in Elen. destruct Elen as [Emin Emax].
  apply Nat.ltb_ge in Emin. apply Nat.ltb_ge in Emax.
  assert (Hres : ~ In (UserService.toLowerCase name) UserService.reserved).
  { intros Hin. apply not_true_iff_false in Eres. apply Eres.
    apply existsb_exists. exists (UserService.toLowerCase name).
    split; [exact Hin | apply String.eqb_refl]. }
  unfold bind, query, statement in H.
  destruct (d1Fault rt (outside s)) as [[e |] w].
  { inversion H; subst. left. split; [reflexivity | discriminate]. }
  cbn [fst snd] in H.
  destruct (hd_error (filter (fun u => nullableEqb (user_username u) name)
                        (users (tables s)))) as [existing |] eqn:Ehd.
  - destruct (String.eqb (user_id existing) userId) eqn:Eid; cbn [negb] in H.
    + destruct (Hrow (set_tables (tables s) (set_outside w s)) eq_refl H)
      as [Hl | [Hc Hs]]; [left; exact Hl |].
      right. split; [exact Hc |]. split; [exact Hs |]. intros _.
      repeat split; auto.
      intros u Hu. inversion Hu; subst. now apply String.eqb_eq.
    + cbn in H. inversion H; subst. left. split; [reflexivity |].
      intros r Hr; inversion Hr; reflexivity.
  - destruct (Hrow (set_tables (tables s) (set_outside w s)) eq_refl H)
      as [Hl | [Hc Hs]]; [left; exact Hl |].
    right. split; [exact Hc |]. split; [exact Hs |]. intros _.
    repeat split; auto. discriminate.
Qed.

(** X17. Whatever the database does, when
    [updateUserProfileWithValidation] reports success for a profile with a
    non-empty username, that username consists of letters, digits,
    underscores and hyphens only, has 3 to 30 characters, is not a reserved
    name in any capitalisation, and the first row that carried it, if any,
    was the user's own. *)
Theorem accepted_username_is_valid :
  forall userId profileData (s : Backend World) r s' name,
    UserService.updateUserProfileWithValidation rt userId profileData s
    = (Normal r, s') ->
    UserService.success r = true ->
    UserService.username profileData = Some name -> name <> "" ->
    UserService.allChars UserService.isUsernameChar name = true
    /\ 3 <= String.length name <= 30
    /\ ~ In (UserService.toLowerCase name) UserService.reserved
    /\ forall u,
         hd_error (filter (fun u => nullableEqb (user_username u) name)
                     (users (tables s))) = Some u ->
         user_id u = userId.
Proof.
  intros userId profileData s r s' name H Hsucc Hname Hne.
  apply updateUserProfile_inv in H.
  destruct H as [[_ Hfail] | (_ & _ & Hchecks)].
  - rewrite (Hfail r eq_refl) in Hsucc. discriminate.
  - rewrite Hname in Hchecks. cbn [orDefault truthyString] in Hchecks.
    apply String.eqb_neq in Hne. rewrite Hne in Hchecks.
    destruct (Hchecks eq_refl) as (Hpat & Hmin & Hmax & Hres & Hfirst).
    unfold UserService.usernamePattern in Hpat.
    apply andb_true_iff in Hpat. destruct Hpat as [_ Hchars].
    repeat split; auto.
Qed.

(** X18. Whatever the database does, a call of
    [updateUserProfileWithValidation] that does not report success (a
    validation failure, or a thrown error) leaves the tables as they were. *)
Theorem refused_profile_changes_nothing :
  forall userId profileData (s : Backend World) c s',
    UserService.updateUserProfileWithValidation rt userId profileData s = (c, s') ->
    (forall r, c = Normal r -> UserService.success r = false) ->
    tables s' = tables s.
Proof.
  intros userId profileData s c s' H Hfail.
  apply updateUserProfile_inv in H.
  destruct H as [[Ht _] | (Hc & _)]; [exact Ht |].
  specialize (Hfail _ Hc). discriminate.
Qed.

Lemma applyProfile_id : forall profileData updatedAt u,
  user_id (UserService.applyProfile profileData updatedAt u) = user_id u.
Proof. reflexivity. Qed.

(** X19. Whatever the database does, [updateUserProfileWithValidation]
    preserves the uniqueness of usernames: when no two rows with different
    ids carry the same username before the call, none do after it. *)
Theorem usernames_stay_unique :
  forall userId profileData (s : Backend World) c s',
    UserService.updateUserProfileWithValidation rt userId profileData s = (c, s') ->
    usernamesUnique (tables s) ->
    usernamesUnique (tables s').
Proof.
  intros userId profileData s c s' H Huniq.
  apply updateUserProfile_inv in H.
  destruct H as [[Ht _] | (_ & (updatedAt & Ht) & Hchecks)];
    [now rewrite Ht |].
  rewrite Ht. unfold usernamesUnique. cbn [users with_users].
  intros u1' u2' n H1 H2 Hn1 Hn2.
  apply updateWhere_In in H1. destruct H1 as (u1 & Hin1 & ->).
  apply updateWhere_In in H2. destruct H2 as (u2 & Hin2 & ->).
  destruct (truthyString (UserService.username profileData)) eqn:Etruthy.
  - destruct (Hchecks eq_refl) as (_ & _ & _ & _ & Hfirst).
    assert (Hname : UserService.username profileData
                    = Some (orDefault (UserService.username profileData) ""))
      by (destruct (UserService.username profileData); [reflexivity | discriminate]).
    set (name := orDefault (UserService.username profileData) "") in *.
    assert (Hholder : forall u, In u (users (tables s)) ->
                                user_username u = Some name -> user_id u = userId).
    { intros u Hu Hun.
      destruct (hd_error (filter (fun u => nullableEqb (user_username u) name)
                            (users (tables s)))) as [u0 |] eqn:Ehd.
      - pose proof (Hfirst u0 eq_refl) as Hid0.
        apply hd_error_filter_some in Ehd. destruct Ehd as [Hin0 Hn0].
        apply nullableEqb_eq in Hn0.
        rewrite <- Hid0. symmetry. eapply Huniq; eauto.
      - assert (Hf : In u (filter (fun u => nullableEqb (user_username u) name)
                             (users (tables s))))
          by (apply filter_In; split; [exact Hu | now apply nullableEqb_eq]).
        destruct (filter _ _); [contradiction | discriminate]. }
    destruct (String.eqb (user_id u1) userId) eqn:E1;
      destruct (String.eqb (user_id u2) userId) eqn:E2.
    + apply String.eqb_eq in E1. apply String.eqb_eq in E2.
      rewrite !applyProfile_id. congruence.
    + cbn [UserService.applyProfile user_username] in Hn1.
      unfold UserService.setColumn in Hn1. rewrite Etruthy, Hname in Hn1.
      inversion Hn1; subst n.
      apply String.eqb_neq in E2. exfalso. apply E2. now apply Hholder.
    + cbn [UserService.applyProfile user_username] in Hn2.
      unfold UserService.setColumn in Hn2. rewrite Etruthy, Hname in Hn2.
      inversion Hn2; subst n.
      apply String.eqb_neq in E1. exfalso. apply E1. now apply Hholder.
    + eapply Huniq; eauto.
  - assert (Hkeep : forall u,
               user_username
                 (if String.eqb (user_id u) userId
                  then UserService.applyProfile profileData updatedAt u else u)
               = user_username u).
    { intros u. destruct (String.eqb (user_id u) userId); [| reflexivity].
      cbn [UserService.applyProfile user_username].
      unfold UserService.setColumn. now rewrite Etruthy. }
    assert (Hid : forall u,
               user_id
                 (if String.eqb (user_id u) userId
                  then UserService.applyProfile profileData updatedAt u else u)
               = user_id u)
      by (intros u; now destruct (String.eqb (user_id u) userId)).
    rewrite Hkeep in Hn1, Hn2. rewrite !Hid. eapply Huniq; eauto.
Qed.


(** X21. On a healthy database, when [isUsernameAvailable] answers yes for
    a name and a user to exclude, and the name has a valid form, is of valid
    length and is not reserved, [updateUserProfileWithValidation] accepts it
    for that user. *)
Theorem available_username_is_accepted :
  healthy rt ->
  forall userId name profileData (s : Backend World) s1,
    userId <> "" -> name <> "" ->
    UserService.username profileData = Some name ->
    UserService.isUsernameAvailable rt name (Some userId) s = (Normal true, s1) ->
    UserService.usernamePattern name = true ->
    3 <= String.length name -> String.length name <= 30 ->
    ~ In (UserService.toLowerCase name) UserService.reserved ->
    exists s',
      UserService.updateUserProfileWithValidation rt userId profileData s1
      = (Normal {| UserService.success := true;
                   UserService.message := "Profile updated successfully" |}, s').
Proof.
  intros Hhealthy userId name profileData s s1 Hu Hn Hname Havail Hpat Hmin Hmax Hres.
  unfold UserService.isUsernameAvailable, bind, query in Havail.
  rewrite (statement_healthy Hhealthy) in Havail. cbn [fst snd ret] in Havail.
  assert (Ht : tables s1 = tables s)
    by (destruct (hd_error _) in Havail; inversion Havail; reflexivity).
  assert (Hfree : forall u, In u (users (tables s)) ->
                            user_username u = Some name -> user_id u = userId).
  { intros u Hin Hun.
    destruct (String.eqb (user_id u) userId) eqn:E; [now apply String.eqb_eq |].
    exfalso.
    assert (Hf : In u (filter
                         (fun u => nullableEqb (user_username u) name
                                   && (if truthyString (Some userId)
                                       then negb (String.eqb (user_id u)
                                                    (orDefault (Some userId) ""))
                                       else true))
                         (users (tables s)))).
    { apply filter_In. split; [exact Hin |].
      apply andb_true_iff. split; [now apply nullableEqb_eq |].
      cbn [truthyString orDefault]. apply String.eqb_neq in Hu. rewrite Hu.
      cbn [negb]. now rewrite E. }
    destruct (filter _ (users (tables s))) as [| x l]; [contradiction |].
    cbn in Havail. inversion Havail. }
  unfold UserService.updateUserProfileWithValidation.
  rewrite Hname. cbn [truthyString orDefault].
  apply String.eqb_neq in Hn. rewrite Hn. cbn [negb]. rewrite Hpat. cbn [negb].
  assert (Elen : Nat.ltb (String.length name) 3 || Nat.ltb 30 (String.length name)
                 = false).
  { apply orb_false_iff. split; apply Nat.ltb_ge; assumption. }
  rewrite Elen.
  assert (Eres : existsb (String.eqb (UserService.toLowerCase name))
                   UserService.reserved = false).
  { apply not_true_iff_false. intros Hex. apply existsb_exists in Hex.
    destruct Hex as (x & Hin & Heq). apply String.eqb_eq in Heq. subst x.
    contradiction. }
  rewrite Eres.
  unfold bind, query. rewrite (statement_healthy Hhealthy). cbn [fst snd].
  rewrite Ht.
  assert (Hrow : forall s0 : Backend World,
             exists s',
               UserService.updateProfileRow rt userId profileData s0
               = (Normal {| UserService.success := true;
                            UserService.message := "Profile updated successfully" |},
                  s')).
  { intros s0. unfold UserService.updateProfileRow, bind, newDate, gets.
    rewrite (statement_healthy Hhealthy). eexists; reflexivity. }
  destruct (hd_error (filter (fun u => nullableEqb (user_username u) name)
                        (users (tables s)))) as [existing |] eqn:Ehd.
  - apply hd_error_filter_some in Ehd. destruct Ehd as [Hin Hun].
    apply nullableEqb_eq in Hun.
    rewrite (Hfree _ Hin Hun), String.eqb_refl. cbn [negb]. apply Hrow.
  - apply Hrow.
Qed.

End UserProperties.

(** * More on the turn processor *)

Section TurnEdgeProperties.

Variable World : Type.
Variable generateConversationId : Eff World string.
Variables WebSearchArgs WebSearchResult WeatherArgs WeatherResult : Type.
Variable toolWebSearchDefinition : ToolDefinition World WebSearchArgs WebSearchResult.
Variable toolWeatherDefinition : ToolDefinition World WeatherArgs WeatherResult.
Variables Env Context InferenceContext : Type.
Variable SYSTEM_PROMPT : string.
Variable getSystemPromptWithProjectContext :
  string -> Context -> bool -> Completion (list Message).
Variable executeInference :
  InferenceRequest Env InferenceContext ->
  Engine World WebSearchArgs WebSearchResult WeatherArgs WeatherResult.

Local Abbreviation tools := (turnTools toolWebSearchDefinition toolWeatherDefinition).
Local Abbreviation events_of := (callEvents toolWebSearchDefinition toolWeatherDefinition).
Local Abbreviation run ai := (runEngine (onChunk ai) (tools ai)).
Local Abbreviation exec :=
  (execute generateConversationId toolWebSearchDefinition toolWeatherDefinition
     SYSTEM_PROMPT getSystemPromptWithProjectContext executeInference).
Local Abbreviation started s := (push_log (LogInfo "Processing user message") s).

(** X22. When the engine fails with an ordinary error after having made
    calls, the turn falls back: the output is the fallback output whatever
    was streamed or queued, while the callback has already received, and
    keeps, the events of every call made, streamed chunks included. *)
Theorem fallback_keeps_delivered_events :
  forall inputs options (s : State World) sp uid w1 ai w2 tr e s3
         uid' w3 aid' w4,
    getSystemPromptWithProjectContext SYSTEM_PROMPT (context options) false
    = Normal sp ->
    generateConversationId (world s) = (Normal uid, w1) ->
    generateConversationId w1 = (Normal ai, w2) ->
    run ai (executeInference (turnRequest inputs options sp uid))
      (beforeInference (started s) w2) = (tr, (Thrown e, s3)) ->
    isFatal e = false ->
    generateConversationId (world s3) = (Normal uid', w3) ->
    generateConversationId w3 = (Normal aid', w4) ->
    exists out s',
      exec inputs options s = (Normal out, s')
      /\ userResponse (conversationResponse out) = FALLBACK_USER_RESPONSE
      /\ enhancedUserRequest (conversationResponse out)
         = "User request: " ++ userMessage inputs
      /\ events s' = (events s ++ flat_map (events_of ai) tr)%list
      /\ streamedChunks (flat_map (events_of ai) tr) = chunksOf tr.
Proof.
  intros inputs options s sp uid w1 ai w2 tr e s3 uid' w3 aid' w4
         Hsp H1 H2 Hrun Hf H3 H4.
  rewrite execute_eq, executeBody_eq, Hsp. cbn [world push_log].
  rewrite H1, H2, Hrun, executeHandler_eq. cbv zeta. rewrite Hf, H3, H4.
  apply runEngine_effects in Hrun. destruct Hrun as (He & _ & _).
  simpl in He.
  eexists; eexists. split; [reflexivity |]. simpl.
  repeat split; auto. apply streamedChunks_events.
Qed.

(** X23. On the success path the callback calls of the turn all carry the
    second id generated, the appended user entry carries the first and the
    appended assistant entry the third, generated after the engine returned:
    when the generator gave three different ids, no appended entry carries
    the id under which the chunks were streamed. *)
Theorem streamed_id_is_not_stored :
  forall inputs options (s : State World) sp uid w1 ai w2 tr r s3 aid w4,
    getSystemPromptWithProjectContext SYSTEM_PROMPT (context options) false
    = Normal sp ->
    generateConversationId (world s) = (Normal uid, w1) ->
    generateConversationId w1 = (Normal ai, w2) ->
    run ai (executeInference (turnRequest inputs options sp uid))
      (beforeInference (started s) w2) = (tr, (Normal r, s3)) ->
    generateConversationId (world s3) = (Normal aid, w4) ->
    uid <> ai -> aid <> ai ->
    exists out s' evs,
      exec inputs options s = (Normal out, s')
      /\ events s' = (events s ++ evs)%list
      /\ Forall (fun ev => cb_conversationId ev = ai) evs
      /\ map conversationId (messages out)
         = (map conversationId (pastMessages inputs) ++ [uid; aid])%list
      /\ forall m, In m (skipn (length (pastMessages inputs)) (messages out)) ->
                   conversationId m <> ai.
Proof.
  intros inputs options s sp uid w1 ai w2 tr r s3 aid w4 Hsp H1 H2 Hrun H3 Hu Ha.
  destruct (execute_success generateConversationId toolWebSearchDefinition
              toolWeatherDefinition SYSTEM_PROMPT getSystemPromptWithProjectContext
              executeInference inputs options s Hsp H1 H2 Hrun H3) as [Hex Hev].
  eexists; eexists; exists (flat_map (events_of ai) tr).
  split; [exact Hex |]. cbn [events set_world push_log messages].
  split; [exact Hev |]. split; [apply events_carry_turn_id |].
  split; [now rewrite map_app |].
  intros m Hm.
  rewrite skipn_app, skipn_all, Nat.sub_diag in Hm. simpl in Hm.
  destruct Hm as [<- | [<- | []]]; simpl; congruence.
Qed.

End TurnEdgeProperties.

(** * The store theorems at work on the concrete store *)

(** X1: alice has a2 among her favorites; the toggle removes it. *)
Lemma toggleAppFavorite_flips_witness :
  exists r s',
    AppService.toggleAppFavorite demo_runtime "alice" "a2" demo_backend
    = (Normal r, s')
    /\ AppService.isFavorite r = negb (isFavorited "alice" "a2" demo_tables)
    /\ isFavorited "alice" "a2" (tables s') = AppService.isFavorite r.
Proof.
  apply (toggleAppFavorite_flips (rt := demo_runtime)).
  - intros w. reflexivity.
  - intros w. eexists; eexists; reflexivity.
Defined.

(** X2: carol adds a3 to her favorites; the favorites of alice and bob and
    the other tables stay. *)
Lemma toggleAppFavorite_frame_witness :
  let s' := snd (AppService.toggleAppFavorite demo_runtime "carol" "a3" demo_backend) in
  apps (tables s') = apps demo_tables
  /\ stars (tables s') = stars demo_tables
  /\ appViews (tables s') = appViews demo_tables
  /\ appLikes (tables s') = appLikes demo_tables
  /\ users (tables s') = users demo_tables
  /\ forall userId' appId',
       userId' <> "carol" \/ appId' <> "a3" ->
       filter (AppService.favoriteOf userId' appId') (favorites (tables s'))
       = filter (AppService.favoriteOf userId' appId') (favorites demo_tables).
Proof.
  intros s'.
  apply (toggleAppFavorite_frame (rt := demo_runtime)
           (fun w => eq_refl)
           (fun w => ex_intro _ _ (ex_intro _ _ eq_refl))
           "carol" "a3" demo_backend
           (c := fst (AppService.toggleAppFavorite demo_runtime "carol" "a3"
                        demo_backend))
           (s' := s')).
  reflexivity.
Defined.

(** X3: carol toggles a3 twice; the favorites table is back as it was. *)
Lemma toggleAppFavorite_twice_witness :
  exists r1 s1 r2 s2,
    AppService.toggleAppFavorite demo_runtime "carol" "a3" demo_backend
    = (Normal r1, s1)
    /\ AppService.toggleAppFavorite demo_runtime "carol" "a3" s1 = (Normal r2, s2)
    /\ AppService.isFavorite r2 = negb (AppService.isFavorite r1)
    /\ favorites (tables s2) = favorites demo_tables.
Proof.
  destruct (toggleAppFavorite_twice (rt := demo_runtime)
              (fun w => eq_refl)
              (fun w => ex_intro _ _ (ex_intro _ _ eq_refl))
              "carol" "a3" demo_backend)
    as (r1 & s1 & r2 & s2 & H1 & H2 & Hr & _ & Hback).
  exists r1, s1, r2, s2.
  split; [exact H1 |]. split; [exact H2 |]. split; [exact Hr |].
  apply Hback. reflexivity.
Defined.

(** X4: bob takes his star off a1, which had two stars. *)
Lemma toggleAppStar_counts_witness :
  exists r s',
    AppService.toggleAppStar demo_runtime "bob" "a1" demo_backend = (Normal r, s')
    /\ AppService.isStarred r = false
    /\ AppService.starCount r = starsOfApp "a1" (tables s')
    /\ S (AppService.starCount r) = 2.
Proof.
  destruct (toggleAppStar_counts (rt := demo_runtime)
              (fun w => eq_refl)
              (fun w => ex_intro _ _ (ex_intro _ _ eq_refl))
              "bob" "a1" demo_backend)
    as (r & s' & Hrun & Hflag & Hcount & Hdiff).
  - simpl. repeat constructor; simpl; intuition discriminate.
  - exists r, s'.
    split; [exact Hrun |]. split; [exact Hflag |]. split; [exact Hcount |].
    exact Hdiff.
Defined.

(** X5: bob asks to publish alice's private app a1, on a database that
    fails at its second statement and on one that does not fail. *)
Lemma updateAppVisibility_only_owner_witness :
  (let out := AppService.updateAppVisibility (demo_runtimeFailingAt 1) "a1" "bob"
                "public" demo_backend in
   tables (snd out) = demo_tables
   /\ forall r, fst out = Normal r -> AppService.vis_success r = false)
  /\ (let out := AppService.updateAppVisibility demo_runtime "a1" "bob" "public"
                   demo_backend in
      tables (snd out) = demo_tables
      /\ forall r, fst out = Normal r -> AppService.vis_success r = false).
Proof.
  split; intros out.
  - apply (updateAppVisibility_only_owner (demo_runtimeFailingAt 1) "a1" "bob"
             "public" demo_backend (c := fst out) (s' := snd out));
      reflexivity.
  - apply (updateAppVisibility_only_owner demo_runtime "a1" "bob" "public"
             demo_backend (c := fst out) (s' := snd out));
      reflexivity.
Defined.

(** X6: alice publishes her private app a1. *)
Lemma updateAppVisibility_owner_witness :
  exists updated s',
    AppService.updateAppVisibility demo_runtime "a1" "alice" "public" demo_backend
    = (Normal {| AppService.vis_success := true; AppService.vis_error := None;
                 AppService.vis_app := Some updated |}, s')
    /\ AppService.updated_visibility updated = "public"
    /\ map app_visibility (apps (tables s')) = ["public"; "public"; "public"]
    /\ map app_userId (apps (tables s')) = map app_userId (apps demo_tables).
Proof.
  destruct (updateAppVisibility_owner (rt := demo_runtime) (fun w => eq_refl)
              "a1" "alice" "public" demo_backend eq_refl)
    as (updated & s' & Hrun & _ & Hvis & _ & _ & _ & Howners & _).
  exists updated, s'.
  split; [exact Hrun |]. split; [exact Hvis |]. split; [| exact Howners].
  lazy in Hrun. injection Hrun as _ <-. reflexivity.
Defined.

(** X7: bob asks to delete alice's app a1. *)
Lemma deleteApp_only_owner_witness :
  exists r s',
    AppService.deleteApp demo_runtime "a1" "bob" demo_backend = (Normal r, s')
    /\ AppService.del_success r = false
    /\ tables s' = demo_tables.
Proof.
  destruct (deleteApp_only_owner demo_runtime "a1" "bob" demo_backend)
    as (r & s' & Hrun & Hno).
  exists r, s'. split; [exact Hrun |].
  apply Hno. reflexivity.
Defined.

(** X8: alice deletes a1; its two stars go, the forks a2 and a3 stay. *)
Lemma deleteApp_success_witness :
  let s' := snd (AppService.deleteApp demo_runtime "a1" "alice" demo_backend) in
  ownsApp "alice" "a1" demo_tables = true
  /\ (forall x, In x (stars (tables s')) <->
                In x (stars demo_tables) /\ star_appId x <> "a1")
  /\ (forall a, In a (apps (tables s')) -> app_parentAppId a <> Some "a1")
  /\ map app_id (apps (tables s')) = ["a2"; "a3"]
  /\ users (tables s') = users demo_tables.
Proof.
  intros s'.
  destruct (deleteApp_success demo_runtime "a1" "alice" demo_backend
              (r := {| AppService.del_success := true;
                       AppService.del_error := None |})
              (s' := s') eq_refl eq_refl)
    as (Hown & _ & Hparent & _ & Hstars & _ & _ & _ & Husers).
  split; [exact Hown |]. split; [exact Hstars |]. split; [exact Hparent |].
  split; [reflexivity | exact Husers].
Defined.

(** X9: alice deletes a1 on a database that fails at its third statement. *)
Lemma deleteApp_partial_witness :
  exists s',
    AppService.deleteApp (demo_runtimeFailingAt 2) "a1" "alice" demo_backend
    = (Normal {| AppService.del_success := false;
                 AppService.del_error :=
                   Some "An error occurred while deleting the app" |}, s')
    /\ apps (tables s') = apps demo_tables
    /\ stars (tables s') = stars demo_tables
    /\ map favorite_id (favorites (tables s')) = ["f1"].
Proof.
  destruct (deleteApp_partial (demo_runtimeFailingAt 2) "a1" "alice" demo_backend
              (w1 := 1) (w2 := 2) (e := OtherError "Error" "D1_ERROR: timeout")
              (w3 := 3) eq_refl eq_refl eq_refl eq_refl)
    as (s' & Hrun & Happs & Hstars & Hfavorites).
  exists s'.
  split; [exact Hrun |]. split; [exact Happs |]. split; [exact Hstars |].
  rewrite Hfavorites. reflexivity.
Defined.

(** X10: bob asks the handler to delete alice's a1, then alice does. *)
Lemma deleteApp_handler_responses_witness :
  (exists s',
      AppController.deleteApp demo_runtime (demo_context (Some "bob") (Some "a1"))
        demo_backend
      = (Normal (AppController.ErrorResponse "You can only delete your own apps" 403),
         s')
      /\ tables s' = demo_tables)
  /\ (exists s',
         AppController.deleteApp demo_runtime
           (demo_context (Some "alice") (Some "a1")) demo_backend
         = (Normal (AppController.SuccessResponse
                      {| AppController.delete_success := true;
                         AppController.delete_message :=
                           "App deleted successfully" |}), s')
         /\ map app_id (apps (tables s')) = ["a2"; "a3"]).
Proof.
  split.
  - destruct (deleteApp_handler_responses (rt := demo_runtime) (fun w => eq_refl)
                (demo_context (Some "bob") (Some "a1")) demo_backend)
      as [_ Hid].
    destruct (Hid "a1" eq_refl) as [_ Huser]; [discriminate |].
    destruct (Huser {| AppController.auth_id := "bob" |} eq_refl)
      as (_ & Hother & _).
    apply (Hother (demo_app "a1" (Some "alice") "private" None) eq_refl).
    simpl. discriminate.
  - destruct (deleteApp_handler_responses (rt := demo_runtime) (fun w => eq_refl)
                (demo_context (Some "alice") (Some "a1")) demo_backend)
      as [_ Hid].
    destruct (Hid "a1" eq_refl) as [_ Huser]; [discriminate |].
    destruct (Huser {| AppController.auth_id := "alice" |} eq_refl)
      as (_ & _ & Hown).
    destruct (Hown (demo_app "a1" (Some "alice") "private" None) eq_refl eq_refl)
      as (s' & Hrun & Htables).
    exists s'. split; [exact Hrun |].
    rewrite Htables. reflexivity.
Defined.

(** X11: alice publishes a1 through the handler; a body asking for
    [unlisted] is refused. *)
Lemma updateAppVisibility_handler_responses_witness :
  (exists updated s',
      AppController.updateAppVisibility demo_runtime demo_parseJsonBody
        (demo_visibilityBody "public") (demo_context (Some "alice") (Some "a1"))
        demo_backend
      = (Normal (AppController.SuccessResponse
                   {| AppController.visibility_app := updated;
                      AppController.visibility_message :=
                        "App visibility updated to public" |}), s')
      /\ AppService.updated_visibility updated = "public")
  /\ AppController.updateAppVisibility demo_runtime demo_parseJsonBody
       (demo_visibilityBody "unlisted") (demo_context (Some "alice") (Some "a1"))
       demo_backend
     = (Normal (AppController.ErrorResponse
                  AppController.invalidVisibilityMessage 400), demo_backend).
Proof.
  split.
  - destruct (updateAppVisibility_handler_responses (rt := demo_runtime)
                demo_parseJsonBody (fun w => eq_refl)
                (demo_visibilityBody "public")
                (demo_context (Some "alice") (Some "a1")) demo_backend
                (appId := "a1") eq_refl)
      as [_ Hparsed]; [discriminate |].
    destruct (Hparsed (Some [("visibility", JsonString "public")]) eq_refl)
      as [_ Hvalid].
    destruct (Hvalid "public" eq_refl (or_intror eq_refl)) as [_ Huser].
    destruct (Huser {| AppController.auth_id := "alice" |} eq_refl)
      as (_ & _ & Hown).
    destruct (Hown (demo_app "a1" (Some "alice") "private" None) eq_refl eq_refl)
      as (updated & s' & Hrun & _ & Hvis).
    exists updated, s'. split; [exact Hrun | exact Hvis].
  - destruct (updateAppVisibility_handler_responses (rt := demo_runtime)
                demo_parseJsonBody (fun w => eq_refl)
                (demo_visibilityBody "unlisted")
                (demo_context (Some "alice") (Some "a1")) demo_backend
                (appId := "a1") eq_refl)
      as [_ Hparsed]; [discriminate |].
    destruct (Hparsed (Some [("visibility", JsonString "unlisted")]) eq_refl)
      as [Hinvalid _].
    apply Hinvalid; simpl; discriminate.
Defined.

(** X12: carol makes bob's app a2 a favorite through the handler. *)
Lemma toggleFavorite_handler_responses_witness :
  exists s',
    AppController.toggleFavorite demo_runtime
      (demo_context (Some "carol") (Some "a2")) demo_backend
    = (Normal (AppController.SuccessResponse {| AppService.isFavorite := true |}),
       s')
    /\ isFavorited "carol" "a2" (tables s') = true.
Proof.
  destruct (toggleFavorite_handler_responses (rt := demo_runtime)
              (fun w => eq_refl)
              (fun w => ex_intro _ _ (ex_intro _ _ eq_refl))
              (demo_context (Some "carol") (Some "a2")) demo_backend)
    as [_ Hid].
  destruct (Hid "a2" eq_refl) as [_ Huser]; [discriminate |].
  destruct (Huser {| AppController.auth_id := "carol" |} eq_refl)
    as (_ & Hfound).
  exact (Hfound (demo_app "a2" (Some "bob") "public" (Some "a1")) eq_refl).
Defined.


(** X14: alice's requests on a database that throws on every statement. *)
Lemma handlers_on_database_fault_witness :
  (exists s',
      AppController.getApp demo_brokenRuntime
        (demo_context (Some "alice") (Some "a1")) demo_backend
      = (Normal (AppController.ErrorResponse "Failed to fetch app" 500), s')
      /\ tables s' = demo_tables)
  /\ (exists s',
         AppController.deleteApp demo_brokenRuntime
           (demo_context (Some "alice") (Some "a1")) demo_backend
         = (Normal (AppController.ErrorResponse
                      "An error occurred while deleting the app" 500), s')
         /\ tables s' = demo_tables)
  /\ (exists s',
         AppController.updateAppVisibility demo_brokenRuntime demo_parseJsonBody
           (demo_visibilityBody "public")
           (demo_context (Some "alice") (Some "a1")) demo_backend
         = (Normal (AppController.ErrorResponse
                      "Failed to update app visibility" 500), s')
         /\ tables s' = demo_tables).
Proof.
  destruct (handlers_on_database_fault demo_brokenRuntime demo_parseJsonBody
              (demo_visibilityBody "public")
              (demo_context (Some "alice") (Some "a1")) demo_backend
              (appId := "a1") (u := {| AppController.auth_id := "alice" |})
              (e := OtherError "Error" "D1_ERROR: no such table") (w := 1)
              eq_refl)
    as (_ & Hget & Hdelete & Hvisibility);
    [discriminate | reflexivity | reflexivity |].
  split; [exact Hget |]. split; [exact Hdelete |].
  exact (Hvisibility (Some [("visibility", JsonString "public")]) "public"
           eq_refl eq_refl (or_intror eq_refl)).
Defined.

(** X15: alice, who has viewed a2 once, views it again. *)
Lemma recordAppView_appends_or_nothing_witness :
  exists s',
    AppService.recordAppView demo_runtime "a2" "alice" demo_backend = (Normal tt, s')
    /\ countWhere (fun v => String.eqb (view_appId v) "a2"
                            && String.eqb (view_userId v) "alice")
         (appViews (tables s')) = 2.
Proof.
  destruct (recordAppView_appends_or_nothing demo_runtime "a2" "alice" demo_backend)
    as (s' & Hrun & _ & Hcount).
  exists s'. split; [exact Hrun |].
  rewrite Hcount.
  - reflexivity.
  - intros w. reflexivity.
  - intros w. eexists; eexists; reflexivity.
Defined.

(** X16: the statistics of a1 and a2 asked for together. *)
Lemma batchGetAppStats_agrees_witness :
  exists result s',
    AnalyticsService.batchGetAppStats demo_runtime ["a1"; "a2"] demo_backend
    = (Normal result, s')
    /\ tables s' = demo_tables
    /\ (exists stats s1,
           AnalyticsService.getAppStats demo_runtime "a1" demo_backend
           = (Normal stats, s1)
           /\ lookup "a1" result = Some stats)
    /\ lookup "a3" result = None.
Proof.
  destruct (proj2 (batchGetAppStats_agrees demo_runtime) (fun w => eq_refl)
              ["a1"; "a2"] demo_backend)
    as (result & s' & Hrun & Htables & Hasked & Hother).
  exists result, s'.
  split; [exact Hrun |]. split; [exact Htables |]. split.
  - apply Hasked; [simpl; left; reflexivity | discriminate].
  - apply Hother. simpl. intuition discriminate.
Defined.

(** X17: carol takes the username [carol_9]. *)
Lemma accepted_username_is_valid_witness :
  UserService.allChars UserService.isUsernameChar "carol_9" = true
  /\ 3 <= String.length "carol_9" <= 30
  /\ ~ In (UserService.toLowerCase "carol_9") UserService.reserved
  /\ forall u,
       hd_error (filter (fun u => nullableEqb (user_username u) "carol_9")
                   (users demo_tables)) = Some u ->
       user_id u = "carol".
Proof.
  apply (accepted_username_is_valid demo_runtime "carol"
           (demo_profile (Some "carol_9") None) demo_backend
           (r := {| UserService.success := true;
                    UserService.message := "Profile updated successfully" |})
           (s' := snd (UserService.updateUserProfileWithValidation demo_runtime
                         "carol" (demo_profile (Some "carol_9") None)
                         demo_backend))).
  - reflexivity.
  - reflexivity.
  - reflexivity.
  - discriminate.
Defined.

(** X18: carol asks for bob's username and is refused. *)
Lemma refused_profile_changes_nothing_witness :
  tables (snd (UserService.updateUserProfileWithValidation demo_runtime "carol"
                 (demo_profile (Some "bobby") (Some "hello")) demo_backend))
  = demo_tables.
Proof.
  apply (refused_profile_changes_nothing demo_runtime "carol"
           (demo_profile (Some "bobby") (Some "hello")) demo_backend
           (c := Normal {| UserService.success := false;
                           UserService.message := "Username already taken" |})).
  - reflexivity.
  - intros r Hr. injection Hr as <-. reflexivity.
Defined.

(** X19: carol takes the username [carol_9]; usernames stay unique. *)
Lemma usernames_stay_unique_witness :
  usernamesUnique
    (tables (snd (UserService.updateUserProfileWithValidation demo_runtime "carol"
                    (demo_profile (Some "carol_9") None) demo_backend))).
Proof.
  apply (usernames_stay_unique demo_runtime "carol"
           (demo_profile (Some "carol_9") None) demo_backend
           (c := fst (UserService.updateUserProfileWithValidation demo_runtime
                        "carol" (demo_profile (Some "carol_9") None)
                        demo_backend))).
  - reflexivity.
  - intros u1 u2 n H1 H2 E1 E2. simpl in H1, H2.
    destruct H1 as [<- | [<- | [<- | []]]];
      destruct H2 as [<- | [<- | [<- | []]]];
      simpl in *; congruence.
Defined.


(** X21: [carol_9] is available to carol, and accepted. *)
Lemma available_username_is_accepted_witness :
  exists s',
    UserService.updateUserProfileWithValidation demo_runtime "carol"
      (demo_profile (Some "carol_9") None)
      (snd (UserService.isUsernameAvailable demo_runtime "carol_9" (Some "carol")
              demo_backend))
    = (Normal {| UserService.success := true;
                 UserService.message := "Profile updated successfully" |}, s').
Proof.
  apply (available_username_is_accepted (rt := demo_runtime) (fun w => eq_refl)
           (userId := "carol") (name := "carol_9")
           (demo_profile (Some "carol_9") None) demo_backend).
  - discriminate.
  - discriminate.
  - reflexivity.
  - reflexivity.
  - reflexivity.
  - simpl. lia.
  - simpl. lia.
  - simpl. intuition discriminate.
Defined.

(** X22: the engine streams a chunk and fails with an ordinary error. *)
Lemma fallback_keeps_delivered_events_witness :
  exists out s',
    demo_execute (demo_engineFails (OtherError "TypeError" "fetch failed"))
      "make it blue" demo_past demo_initial = (Normal out, s')
    /\ userResponse (conversationResponse out) = FALLBACK_USER_RESPONSE
    /\ streamedChunks (events s') = ["Let me "].
Proof.
  edestruct (fallback_keeps_delivered_events demo_generateConversationId
               (demo_stringTool "web_search") (demo_stringTool "get_weather")
               "You are an AI assistant. " demo_getSystemPrompt
               (fun _ : InferenceRequest unit unit =>
                  demo_engineFails (OtherError "TypeError" "fetch failed"))
               (demo_inputs "make it blue" demo_past) demo_options demo_initial)
    as (out & s' & Hrun & Hresponse & _ & Hevents & _);
    [reflexivity | reflexivity | reflexivity | lazy; reflexivity | reflexivity
     | reflexivity | reflexivity |].
  exists out, s'. split; [exact Hrun |]. split; [exact Hresponse |].
  rewrite Hevents. reflexivity.
Defined.

(** X23: the chat engine streams under [conv-1]; the stored entries carry
    [conv-0] and [conv-2]. *)
Lemma streamed_id_is_not_stored_witness :
  exists out s',
    demo_execute demo_engineChat "hi" demo_past demo_initial = (Normal out, s')
    /\ map cb_conversationId (events s') = ["conv-1"; "conv-1"]
    /\ map conversationId (messages out) = ["conv-a"; "conv-b"; "conv-0"; "conv-2"].
Proof.
  edestruct (streamed_id_is_not_stored demo_generateConversationId
               (demo_stringTool "web_search") (demo_stringTool "get_weather")
               "You are an AI assistant. " demo_getSystemPrompt
               (fun _ : InferenceRequest unit unit => demo_engineChat)
               (demo_inputs "hi" demo_past) demo_options demo_initial)
    as (out & s' & evs & Hrun & Hevents & _ & Hids & _);
    [reflexivity | reflexivity | reflexivity | lazy; reflexivity | reflexivity
     | discriminate | discriminate |].
  exists out, s'. split; [exact Hrun |]. split; [| exact Hids].
  lazy in Hrun. injection Hrun as _ <-. reflexivity.
Defined.
